(** * Weather ETL pipeline: extraction, transformation, enrichment, load

    A shallow embedding of the ETL core of the weather service
    ([etl/extract.py], [etl/transform.py], [etl/load.py], [etl/main_etl.py])
    and the properties its specification states about it.

    Python dictionaries are finite maps from keys to dynamically typed
    values; Python exceptions are an explicit result type; the network, the
    clock, the host time zone and the database are an explicit platform
    that the orchestrator threads through its calls. *)

From Stdlib Require Import ZArith Floats Lia List Ascii String.
From stdpp Require Import gmap strings list fin_maps pretty.

#[local] Set Warnings "-register-all,-inexact-float".
#[local] Open Scope Z_scope.

(** ** Python values *)

(** The values a decoded JSON document can hold, plus the [datetime]
    objects the loader hands to the database driver. *)
Inductive pyval :=
| PNone
| PBool (b : bool)
| PInt (z : Z)
| PFloat (f : float)
| PStr (s : string)
| PList (l : list pyval)
| PDict (m : gmap string pyval)
| PDatetime (iso : string).

Abbreviation pydict := (gmap string pyval).

(** Exceptions (all of them subclasses of [Exception]). [RequestException]
    stands for the exceptions of the [requests] library, [DatabaseError] for
    [psycopg2.Error]. *)
Inductive exn :=
| TypeError
| ValueError
| OverflowError
| AttributeError
| KeyError
| IndexError
| UnboundLocalError
| RequestException
| JSONDecodeError
| DatabaseError.

(** The outcome of evaluating an expression that may raise. *)
Inductive res (A : Type) :=
| Ret (a : A)
| Raise (e : exn).
Arguments Ret {A} a.
Arguments Raise {A} e.

(** Sequencing: an exception raised by the first computation propagates. *)
Definition bind {A B : Type} (m : res A) (k : A -> res B) : res B :=
  match m with
  | Ret a => k a
  | Raise e => Raise e
  end.

Notation "'let!' x ':=' m 'in' k" := (bind m (fun x => k))
  (at level 10, x name, m at level 100, k at level 200, only parsing).

(** [bool(v)]. A float is falsy when it compares equal to zero (both signed
    zeros), so NaN is truthy. *)
Definition truthy (v : pyval) : bool :=
  match v with
  | PNone => false
  | PBool b => b
  | PInt z => negb (z =? 0)
  | PFloat f => negb (f =? 0)%float
  | PStr s => negb (String.eqb s "")
  | PList l => match l with [] => false | _ => true end
  | PDict m => negb (bool_decide (m = ∅))
  | PDatetime _ => true
  end.

Definition is_None (v : pyval) : bool :=
  match v with PNone => true | _ => false end.

(** [d.get(k)] and [d.get(k, dflt)] on a dictionary. *)
Definition dict_get (d : pydict) (k : string) : pyval := default PNone (d !! k).
Definition dict_get_default (d : pydict) (k : string) (dflt : pyval) : pyval :=
  default dflt (d !! k).

(** [v.get(k)] on an arbitrary value: only dictionaries have the method. *)
Definition py_get (v : pyval) (k : string) : res pyval :=
  match v with
  | PDict m => Ret (dict_get m k)
  | _ => Raise AttributeError
  end.

Definition py_get_default (v : pyval) (k : string) (dflt : pyval) : res pyval :=
  match v with
  | PDict m => Ret (dict_get_default m k dflt)
  | _ => Raise AttributeError
  end.

(** [v[0]]. The first character of a string is again a string (only its
    first byte is kept here; no caller looks inside it). JSON dictionaries
    have string keys, so the integer key 0 is never found. *)
Definition py_item0 (v : pyval) : res pyval :=
  match v with
  | PList (x :: _) => Ret x
  | PList [] => Raise IndexError
  | PStr (String a _) => Ret (PStr (String a ""))
  | PStr EmptyString => Raise IndexError
  | PDict _ => Raise KeyError
  | _ => Raise TypeError
  end.

(** ** Numbers *)

(** The numeric tower reachable from JSON: [bool] is a subclass of [int]. *)
Inductive num :=
| NInt (z : Z)
| NFloat (f : float).

Definition as_num (v : pyval) : res num :=
  match v with
  | PBool b => Ret (NInt (Z.b2z b))
  | PInt z => Ret (NInt z)
  | PFloat f => Ret (NFloat f)
  | _ => Raise TypeError
  end.

Definition of_num (n : num) : pyval :=
  match n with
  | NInt z => PInt z
  | NFloat f => PFloat f
  end.

(** The binary64 number nearest to the quotient [n / d] of two integers
    ([d] positive), ties to even: Python's true division of integers. *)
Definition Z_truediv (n : Z) (d : positive) : float :=
  match n with
  | Z0 => 0%float
  | Zpos p =>
      SF2Prim (SFdiv prec emax (S754_finite false p 0) (S754_finite false d 0))
  | Zneg p =>
      SF2Prim (SFdiv prec emax (S754_finite true p 0) (S754_finite false d 0))
  end.

(** The binary64 number nearest to an integer, ties to even. *)
Definition float_of_Z (z : Z) : float :=
  SF2Prim (binary_normalize prec emax z 0 false).

(** [float(z)] as done implicitly by mixed arithmetic: an integer beyond
    the binary64 range raises [OverflowError]. *)
Definition float_of_int (z : Z) : res float :=
  let f := float_of_Z z in
  if is_infinity f then Raise OverflowError else Ret f.

Definition to_float (n : num) : res float :=
  match n with
  | NInt z => float_of_int z
  | NFloat f => Ret f
  end.

Definition num_add (a b : num) : res num :=
  match a, b with
  | NInt x, NInt y => Ret (NInt (x + y))
  | _, _ => let! x := to_float a in let! y := to_float b in Ret (NFloat (x + y)%float)
  end.

Definition num_sub (a b : num) : res num :=
  match a, b with
  | NInt x, NInt y => Ret (NInt (x - y))
  | _, _ => let! x := to_float a in let! y := to_float b in Ret (NFloat (x - y)%float)
  end.

Definition num_mul (a b : num) : res num :=
  match a, b with
  | NInt x, NInt y => Ret (NInt (x * y))
  | _, _ => let! x := to_float a in let! y := to_float b in Ret (NFloat (x * y)%float)
  end.

(** Round an exact ratio [n / 2^k] to the nearest integer, ties to even. *)
Definition round_half_even_shift (n : Z) (k : Z) : Z :=
  let q := n / 2 ^ k in
  let r := n mod 2 ^ k in
  match (2 * r ?= 2 ^ k) with
  | Lt => q
  | Gt => q + 1
  | Eq => if Z.even q then q else q + 1
  end.

(** [round(x, 2)] on a float: the exact binary value is rounded to two
    decimals (ties to even) and the decimal result is converted back to the
    nearest binary64 number. Zeros, infinities and NaN are returned as they
    are; the sign is kept when the result is zero. *)
Definition round2 (x : float) : float :=
  match Prim2SF x with
  | S754_finite s m e =>
      let hundredths :=
        if 0 <=? e then Z.pos m * 100 * 2 ^ e
        else round_half_even_shift (Z.pos m * 100) (- e) in
      match hundredths with
      | Z0 => if s then (-0)%float else 0%float
      | _ => Z_truediv (if s then - hundredths else hundredths) 100
      end
  | _ => x
  end.

(** [round(v, 2)] on a number: an [int] is returned unchanged. *)
Definition py_round2 (n : num) : num :=
  match n with
  | NInt z => NInt z
  | NFloat f => NFloat (round2 f)
  end.

(** Exact comparison of a float with an integer, as Python does it:
    [None] when the float is NaN (every ordering test is then false). *)
Definition float_cmp_Z (f : float) (k : Z) : option comparison :=
  match Prim2SF f with
  | S754_nan => None
  | S754_infinity s => Some (if s then Lt else Gt)
  | S754_zero _ => Some (0 ?= k)
  | S754_finite s m e =>
      let sm := if s then Z.neg m else Z.pos m in
      Some (if 0 <=? e then (sm * 2 ^ e ?= k) else (sm ?= k * 2 ^ (- e)))
  end.

(** The three-way comparison of a value against an integer literal;
    ordering a string, list, dictionary or [None] against an [int] raises
    [TypeError]. *)
Definition cmp_int (v : pyval) (k : Z) : res (option comparison) :=
  match v with
  | PBool b => Ret (Some (Z.b2z b ?= k))
  | PInt z => Ret (Some (z ?= k))
  | PFloat f => Ret (float_cmp_Z f k)
  | _ => Raise TypeError
  end.

(** [v < k], [v <= k] and [k <= v] for an integer literal [k]. *)
Definition py_lt_int (v : pyval) (k : Z) : res bool :=
  let! c := cmp_int v k in
  Ret (match c with Some Lt => true | _ => false end).

Definition py_le_int (v : pyval) (k : Z) : res bool :=
  let! c := cmp_int v k in
  Ret (match c with Some Lt | Some Eq => true | _ => false end).

Definition py_int_le (k : Z) (v : pyval) : res bool :=
  let! c := cmp_int v k in
  Ret (match c with Some Gt | Some Eq => true | _ => false end).

(** [k < v], used to state the specification's thresholds. *)
Definition py_int_lt (k : Z) (v : pyval) : res bool :=
  let! c := cmp_int v k in
  Ret (match c with Some Gt => true | _ => false end).

(** The chained comparison [lo <= v <= hi]. *)
Definition py_between (lo : Z) (v : pyval) (hi : Z) : res bool :=
  let! a := py_int_le lo v in
  if a then py_le_int v hi else Ret false.

(** ** Calendar arithmetic: [datetime.fromtimestamp] and [isoformat] *)

(** The proleptic Gregorian date (year, month, day) of a day number counted
    from 1970-01-01. *)
Definition civil_of_days (days : Z) : Z * Z * Z :=
  let z := days + 719468 in
  let era := z / 146097 in
  let doe := z - era * 146097 in
  let yoe := (doe - doe / 1460 + doe / 36524 - doe / 146096) / 365 in
  let doy := doe - (365 * yoe + yoe / 4 - yoe / 100) in
  let mp := (5 * doy + 2) / 153 in
  let d := doy - (153 * mp + 2) / 5 + 1 in
  let m := if mp <? 10 then mp + 3 else mp - 9 in
  let y := yoe + era * 400 in
  (if m <=? 2 then y + 1 else y, m, d).

Definition year_of_seconds (secs : Z) : Z :=
  let '(y, _, _) := civil_of_days (secs / 86400) in y.

Definition digit (n : Z) : ascii :=
  ascii_of_nat (48 + Z.to_nat (n mod 10)).

(** Zero-padded decimal rendering with a fixed number of digits. *)
Fixpoint zero_pad (width : nat) (n : Z) (acc : string) : string :=
  match width with
  | O => acc
  | S w => zero_pad w (n / 10) (String (digit n) acc)
  end.

(** [datetime.isoformat()] of the naive date-time that lies [secs] seconds
    and [us] microseconds after 1970-01-01T00:00:00: the fraction is printed
    only when it is not zero, and no zone designator is printed. *)
Definition isoformat (secs us : Z) : string :=
  let '(y, m, d) := civil_of_days (secs / 86400) in
  let sod := secs mod 86400 in
  zero_pad 4 y "" +:+ "-" +:+ zero_pad 2 m "" +:+ "-" +:+ zero_pad 2 d ""
  +:+ "T" +:+ zero_pad 2 (sod / 3600) "" +:+ ":"
  +:+ zero_pad 2 (sod mod 3600 / 60) "" +:+ ":" +:+ zero_pad 2 (sod mod 60) ""
  +:+ (if us =? 0 then "" else "." +:+ zero_pad 6 us "").

(** The host the process runs on: [local_utcoffset t] is the offset from
    UTC, in seconds, that the host's time zone applies at the instant [t]
    (seconds since the epoch). *)
Record host := {
  local_utcoffset : Z -> Z
}.

(** A host whose zone is UTC, and one three hours west of it. *)
Definition utc_host : host := {| local_utcoffset := fun _ => 0 |}.
Definition brt_host : host := {| local_utcoffset := fun _ => -10800 |}.

(** The integer part (towards zero) of a finite float. *)
Definition float_trunc (f : float) : option Z :=
  match Prim2SF f with
  | S754_zero _ => Some 0
  | S754_finite s m e =>
      let a := if 0 <=? e then Z.pos m * 2 ^ e else Z.pos m / 2 ^ (- e) in
      Some (if s then - a else a)
  | _ => None
  end.

(** A finite float rounded to the nearest integer, ties to even. *)
Definition float_rint (f : float) : Z :=
  match Prim2SF f with
  | S754_finite s m e =>
      let a := if 0 <=? e then Z.pos m * 2 ^ e
               else round_half_even_shift (Z.pos m) (- e) in
      if s then - a else a
  | _ => 0
  end.

(** The seconds and microseconds a timestamp argument denotes: an [int]
    has no fraction; a [float] is split into its integer part and its
    fraction scaled to microseconds in binary64 and rounded ties-to-even. *)
Definition timeval_of (v : pyval) : res (Z * Z) :=
  match v with
  | PBool b => Ret (Z.b2z b, 0)
  | PInt z => Ret (z, 0)
  | PFloat d =>
      match float_trunc d with
      | None => Raise (if is_nan d then ValueError else OverflowError)
      | Some intpart =>
          let floatpart := (d - float_of_Z intpart)%float in
          let us := float_rint (floatpart * 1000000)%float in
          if 1000000 <=? us then Ret (intpart + 1, us - 1000000)
          else if us <? 0 then Ret (intpart - 1, us + 1000000)
          else Ret (intpart, us)
      end
  | _ => Raise TypeError
  end.

(** [datetime.fromtimestamp(v).isoformat()]: the naive local date-time of
    the host's zone. The seconds must fit the platform's 64-bit [time_t];
    the local year, also that of the instant probed one day earlier for a
    repeated hour, must lie between 1 and 9999. (Which exception class an
    instant far outside that range raises depends on the C library; every
    caller handles all classes alike.) *)
Definition fromtimestamp_iso (H : host) (v : pyval) : res string :=
  let! tv := timeval_of v in
  let '(t, us) := tv in
  if negb ((- 2 ^ 63 <=? t) && (t <? 2 ^ 63)) then Raise OverflowError
  else
    let loc := t + local_utcoffset H t in
    let probe := t - 86400 + local_utcoffset H (t - 86400) in
    if (1 <=? year_of_seconds loc) && (year_of_seconds loc <=? 9999)
       && (1 <=? year_of_seconds probe) && (year_of_seconds probe <=? 9999)
    then Ret (isoformat loc us)
    else Raise ValueError.

(** What the specification asks for: the ISO-8601 rendering in UTC. *)
Definition utc_iso (v : pyval) : res string := fromtimestamp_iso utc_host v.

(** ** Transformer ([etl/transform.py]) *)

Definition required_fields : list string :=
  ["city_name"; "country_code"; "temperature"; "humidity"; "pressure";
   "weather_main"].

(** [WeatherTransformer._validate_transformed_data]: every required field
    is present and not [None], the temperature lies in [-100, 60] and the
    humidity in [0, 100]. A value that cannot be ordered against an integer
    makes the comparison raise. *)
Definition _validate_transformed_data (data : pydict) : res bool :=
  if existsb (fun field => is_None (dict_get data field)) required_fields
  then Ret false
  else
    let! t_ok := py_between (-100) (dict_get_default data "temperature" (PInt 0)) 60 in
    if negb t_ok then Ret false
    else
      let! h_ok := py_between 0 (dict_get_default data "humidity" (PInt 0)) 100 in
      if negb h_ok then Ret false
      else Ret true.

(** The optional sunrise and sunset of the [sys] section: the epoch is
    converted only when it is truthy, otherwise the field is [None]. *)
Definition optional_timestamp (H : host) (sys_data : pyval) (key : string)
  : res pyval :=
  let! probe := py_get sys_data key in
  if truthy probe
  then
    let! epoch := py_get_default sys_data key (PInt 0) in
    let! iso := fromtimestamp_iso H epoch in
    Ret (PStr iso)
  else Ret PNone.

(** The first part of the body of
    [WeatherTransformer.transform_weather_data]: the guard on the [main]
    section and the entries of the dictionary display up to [extracted_at],
    in the order they are evaluated. *)
Definition transform_entries (H : host) (raw_data : pydict)
  : res (option (list (string * pyval))) :=
  if negb (truthy (PDict raw_data)) || negb (bool_decide (is_Some (raw_data !! "main")))
  then Ret None
  else
    let main_data := dict_get_default raw_data "main" (PDict ∅) in
    let! weather_data :=
      py_item0 (dict_get_default raw_data "weather" (PList [PDict ∅])) in
    let wind_data := dict_get_default raw_data "wind" (PDict ∅) in
    let clouds_data := dict_get_default raw_data "clouds" (PDict ∅) in
    let sys_data := dict_get_default raw_data "sys" (PDict ∅) in
    let coord_data := dict_get_default raw_data "coord" (PDict ∅) in
    let! country_code := py_get sys_data "country" in
    let! latitude := py_get coord_data "lat" in
    let! longitude := py_get coord_data "lon" in
    let! temperature := py_get main_data "temp" in
    let! temperature_feels_like := py_get main_data "feels_like" in
    let! temperature_min := py_get main_data "temp_min" in
    let! temperature_max := py_get main_data "temp_max" in
    let! pressure := py_get main_data "pressure" in
    let! humidity := py_get main_data "humidity" in
    let! sea_level_pressure := py_get main_data "sea_level" in
    let! ground_level_pressure := py_get main_data "grnd_level" in
    let! weather_main := py_get weather_data "main" in
    let! weather_description := py_get weather_data "description" in
    let! weather_icon := py_get weather_data "icon" in
    let! wind_speed := py_get wind_data "speed" in
    let! wind_direction := py_get wind_data "deg" in
    let! wind_gust := py_get wind_data "gust" in
    let! cloudiness := py_get clouds_data "all" in
    let! data_timestamp :=
      fromtimestamp_iso H (dict_get_default raw_data "dt" (PInt 0)) in
    let! sunrise := optional_timestamp H sys_data "sunrise" in
    let! sunset := optional_timestamp H sys_data "sunset" in
    Ret (Some
        [("city_id", dict_get raw_data "id");
         ("city_name", dict_get raw_data "name");
         ("country_code", country_code);
         ("latitude", latitude);
         ("longitude", longitude);
         ("temperature", temperature);
         ("temperature_feels_like", temperature_feels_like);
         ("temperature_min", temperature_min);
         ("temperature_max", temperature_max);
         ("pressure", pressure);
         ("humidity", humidity);
         ("sea_level_pressure", sea_level_pressure);
         ("ground_level_pressure", ground_level_pressure);
         ("weather_main", weather_main);
         ("weather_description", weather_description);
         ("weather_icon", weather_icon);
         ("wind_speed", wind_speed);
         ("wind_direction", wind_direction);
         ("wind_gust", wind_gust);
         ("cloudiness", cloudiness);
         ("visibility", dict_get raw_data "visibility");
         ("data_timestamp", PStr data_timestamp);
         ("sunrise", sunrise);
         ("sunset", sunset);
         ("extracted_at", dict_get raw_data "extracted_at")]).

(** The rest of the body: the two last entries, [processed_at] being the
    reading [now] of [datetime.now(timezone.utc).isoformat()], and the
    validation of the finished dictionary. *)
Definition transform_finish (raw_data : pydict) (now : string)
  (entries : list (string * pyval)) : res (option pydict) :=
  let transformed_data : pydict :=
    list_to_map
      (entries ++ [("processed_at", PStr now);
                   ("timezone_offset", dict_get raw_data "timezone")]) in
  let! valid := _validate_transformed_data transformed_data in
  if negb valid then Ret None
  else Ret (Some transformed_data).

(** [WeatherTransformer.transform_weather_data], given the clock reading
    it will take: any exception raised in the body is caught and turned
    into [None]. *)
Definition transform_weather_data (H : host) (now : string) (raw_data : pydict)
  : option pydict :=
  match transform_entries H raw_data with
  | Ret (Some entries) =>
      match transform_finish raw_data now entries with
      | Ret r => r
      | Raise _ => None
      end
  | Ret None => None
  | Raise _ => None
  end.

(** *** Derived fields *)

(** [temp + (0.5 * (humidity - 50))], evaluated innermost first. *)
Definition heat_formula (temp humidity : pyval) : res num :=
  let! h := as_num humidity in
  let! d := num_sub h (NInt 50) in
  let! half := num_mul (NFloat 0.5) d in
  let! t := as_num temp in
  num_add t half.

(** The three steps of [add_derived_fields]. Each assigns at most one key,
    and only after everything in it that can raise has been evaluated. *)
Definition heat_index_step (temp humidity : pyval) (data : pydict) : res pydict :=
  if truthy temp && truthy humidity
  then
    let! heat_index := heat_formula temp humidity in
    Ret (<["heat_index" := of_num (py_round2 heat_index)]> data)
  else Ret data.

Definition temperature_step (temp : pyval) (data : pydict) : res pydict :=
  if negb (is_None temp)
  then
    let! cold := py_lt_int temp 10 in
    if cold then Ret (<["temperature_category" := PStr "Frio"]> data)
    else
      let! mild := py_le_int temp 25 in
      if mild then Ret (<["temperature_category" := PStr "Ameno"]> data)
      else
        let! hot := py_le_int temp 35 in
        if hot then Ret (<["temperature_category" := PStr "Quente"]> data)
        else Ret (<["temperature_category" := PStr "Muito Quente"]> data)
  else Ret data.

Definition humidity_step (humidity : pyval) (data : pydict) : res pydict :=
  if negb (is_None humidity)
  then
    let! low := py_le_int humidity 30 in
    if low then Ret (<["humidity_category" := PStr "Baixa"]> data)
    else
      let! moderate := py_lt_int humidity 60 in
      if moderate then Ret (<["humidity_category" := PStr "Moderada"]> data)
      else Ret (<["humidity_category" := PStr "Alta"]> data)
  else Ret data.

(** The outcome of [add_derived_fields]: the dictionary as it stands when
    the function returns, and whether the body ran to its end or was cut
    short by an exception. The dictionary is updated in place, so the
    [except] branch returns it with the keys assigned before the
    exception. *)
Inductive enrichment :=
| Enriched (data : pydict)
| Interrupted (e : exn) (data : pydict).

Definition add_derived_fields_run (data : pydict) : enrichment :=
  let temp := dict_get_default data "temperature" (PInt 0) in
  let humidity := dict_get_default data "humidity" (PInt 0) in
  match heat_index_step temp humidity data with
  | Raise e => Interrupted e data
  | Ret data1 =>
      match temperature_step temp data1 with
      | Raise e => Interrupted e data1
      | Ret data2 =>
          match humidity_step humidity data2 with
          | Raise e => Interrupted e data2
          | Ret data3 => Enriched data3
          end
      end
  end.

(** [WeatherTransformer.add_derived_fields]: both the normal exit and the
    [except] branch return [data]. *)
Definition add_derived_fields (data : pydict) : res pydict :=
  match add_derived_fields_run data with
  | Enriched data' => Ret data'
  | Interrupted _ data' => Ret data'
  end.

(** The keys enrichment may write. *)
Definition derived_fields : list string :=
  ["heat_index"; "temperature_category"; "humidity_category"].

(** *** City names: [str.strip] and [str.title] *)

(** A Python string is a sequence of Unicode code points. *)
Abbreviation text := (list N).

(** The code points of an ASCII literal. *)
Fixpoint text_of (s : string) : text :=
  match s with
  | EmptyString => []
  | String a r => N_of_ascii a :: text_of r
  end.

Arguments text_of : simpl never.

(** The part of the Unicode character database that lies beyond ASCII:
    which code points are whitespace, which are cased, the title-case
    mapping and the lower-case mapping (a code point can map to several; the
    lower-case mapping sees the text before and after it, as the rule for a
    final sigma needs). *)
Record case_tables := {
  isspace : N -> bool;
  iscased : N -> bool;
  totitle : N -> text;
  tolower : text -> N -> text -> text
}.

Definition is_ascii (c : N) : bool := (c <? 128)%N.
Definition ascii_isspace (c : N) : bool :=
  ((9 <=? c) && (c <=? 13) || (28 <=? c) && (c <=? 32))%N.
Definition ascii_isupper (c : N) : bool := ((65 <=? c) && (c <=? 90))%N.
Definition ascii_islower (c : N) : bool := ((97 <=? c) && (c <=? 122))%N.
Definition ascii_upper (c : N) : N := if ascii_islower c then (c - 32)%N else c.
Definition ascii_lower (c : N) : N := if ascii_isupper c then (c + 32)%N else c.

Section Text.
Context (X : case_tables).

Definition py_isspace (c : N) : bool :=
  if is_ascii c then ascii_isspace c else isspace X c.

Definition py_iscased (c : N) : bool :=
  if is_ascii c then ascii_isupper c || ascii_islower c else iscased X c.

Definition py_totitle (c : N) : text :=
  if is_ascii c then [ascii_upper c] else totitle X c.

Definition py_tolower (before : text) (c : N) (after : text) : text :=
  if is_ascii c then [ascii_lower c] else tolower X before c after.

(** [str.title]: a code point that follows a cased one is lower-cased,
    any other is title-cased. *)
Fixpoint title_from (before : text) (previous_is_cased : bool) (s : text) : text :=
  match s with
  | [] => []
  | c :: rest =>
      (if previous_is_cased then py_tolower before c rest else py_totitle c)
      ++ title_from (before ++ [c]) (py_iscased c) rest
  end.

Definition py_title (s : text) : text := title_from [] false s.

(** [str.strip]: whitespace removed at both ends. *)
Fixpoint lstrip (s : text) : text :=
  match s with
  | [] => []
  | c :: rest => if py_isspace c then lstrip rest else s
  end.

Fixpoint rstrip (s : text) : text :=
  match s with
  | [] => []
  | c :: rest =>
      match rstrip rest with
      | [] => if py_isspace c then [] else [c]
      | kept => c :: kept
      end
  end.

Definition py_strip (s : text) : text := rstrip (lstrip s).

(** The special cases of [normalize_city_name]. *)
Definition replacements : gmap text text :=
  list_to_map
    [(text_of "Sao Paulo", text_of "S" ++ [227%N] ++ text_of "o Paulo");
     (text_of "Rio De Janeiro", text_of "Rio de Janeiro");
     (text_of "Belo Horizonte", text_of "Belo Horizonte")].

(** [WeatherTransformer.normalize_city_name]. *)
Definition normalize_city_name (city_name : text) : text :=
  match city_name with
  | [] => []
  | _ =>
      let normalized := py_title (py_strip city_name) in
      default normalized (replacements !! normalized)
  end.

(** A text neither begins nor ends with whitespace. *)
Definition no_outer_space (s : text) : Prop :=
  (forall c rest, s = c :: rest -> py_isspace c = false) /\
  (forall c front, s = front ++ [c] -> py_isspace c = false).
End Text.

(** The character database restricted to the Latin-1 Supplement, U+0130
    (capital I with dot above) and U+0307 (combining dot above), plus the
    whitespace code points; every other code point is left caseless. *)
Definition latin1_tables : case_tables := {|
  isspace c :=
    ((c =? 0x85) || (c =? 0xA0) || (c =? 0x1680)
     || (0x2000 <=? c) && (c <=? 0x200A) || (c =? 0x2028) || (c =? 0x2029)
     || (c =? 0x202F) || (c =? 0x205F) || (c =? 0x3000))%N;
  iscased c :=
    ((c =? 0xAA) || (c =? 0xB5) || (c =? 0xBA)
     || (0xC0 <=? c) && (c <=? 0xFF) && negb (c =? 0xD7) && negb (c =? 0xF7)
     || (c =? 0x130))%N;
  totitle c :=
    (if c =? 0xB5 then [0x39C]
     else if c =? 0xDF then [0x53; 0x73]
     else if c =? 0xFF then [0x178]
     else if (0xE0 <=? c) && (c <=? 0xFE) && negb (c =? 0xF7) then [c - 32]
     else [c])%N;
  tolower _ c _ :=
    (if c =? 0x130 then [0x69; 0x307]
     else if (0xC0 <=? c) && (c <=? 0xDE) && negb (c =? 0xD7) then [c + 32]
     else [c])%N
|}.

(** ** The platform: network, clock and database *)

(** What [requests.get] followed by [raise_for_status] and [json] can
    observe: no response at all (a [RequestException]), or a status code
    with the decoded body ([None] when the body is not JSON). *)
Inductive http_reply :=
| NoReply
| Reply (status : Z) (body : option pyval).

(** The two statements the loader sends to the database. *)
Inductive statement :=
| CreateSchema
| InsertRow (params : pydict).

(** The outside world as the pipeline sees it. Every operation takes the
    current world and returns the next one. The clock is read in
    microseconds since the epoch (UTC). A database operation either
    succeeds or raises. *)
Record platform (W : Type) := {
  platform_host : host;
  now_utc : W -> Z * W;
  sleep : Z -> W -> W;
  requests_get : string -> W -> http_reply * W;
  fromisoformat_ok : string -> bool;
  psycopg2_connect : W -> res unit * W;
  connection_cursor : W -> res unit * W;
  cursor_execute : statement -> W -> res unit * W;
  cursor_close : W -> W
}.
Arguments platform_host {W} _.
Arguments now_utc {W} _ _.
Arguments sleep {W} _ _ _.
Arguments requests_get {W} _ _ _.
Arguments fromisoformat_ok {W} _ _.
Arguments psycopg2_connect {W} _ _.
Arguments connection_cursor {W} _ _.
Arguments cursor_execute {W} _ _ _.
Arguments cursor_close {W} _ _.

(** [isoformat()] of an aware UTC date-time. *)
Definition isoformat_utc (micros : Z) : string :=
  isoformat (micros / 1000000) (micros mod 1000000) +:+ "+00:00".

(** The statistics dictionary of the pipeline. *)
Record stats := {
  total_runs : Z;
  successful_extractions : Z;
  failed_extractions : Z;
  successful_loads : Z;
  failed_loads : Z;
  last_run : option string;
  last_success : option string
}.

Definition initial_stats : stats := {|
  total_runs := 0;
  successful_extractions := 0;
  failed_extractions := 0;
  successful_loads := 0;
  failed_loads := 0;
  last_run := None;
  last_success := None
|}.

(** One entry of the per-city outcome map. *)
Record city_result := {
  cr_success : bool;
  cr_timestamp : string
}.

(** The run report. The three per-city keys are absent ([None]) from a
    report produced by the early exit of [run_full_etl]. *)
Record report := {
  execution_id : string;
  start_time : string;
  end_time : string;
  duration_seconds : float;
  success : bool;
  statistics : stats;
  city_results : option (gmap string city_result);
  successful_cities : option Z;
  total_cities : option Z
}.

(** The mutable state of a [WeatherETLPipeline]: its statistics and
    whether the loader holds a connection object. *)
Record pipeline := {
  cities : list string;
  pstats : stats;
  connection : bool
}.

Section Pipeline.
Context {W : Type} (P : platform W).

(** *** Extractor ([etl/extract.py]) *)

(** The body of [WeatherExtractor.extract_weather_data], inside its
    [try]: the request can fail, [raise_for_status] raises on a 4xx or 5xx
    status, [json] raises on a body that does not decode, and only a
    decoded dictionary accepts the [extracted_at] key. *)
Definition extract_body (city country_code : string) (w : W) : res pydict * W :=
  let '(reply, w1) := requests_get P (city +:+ "," +:+ country_code) w in
  match reply with
  | NoReply => (Raise RequestException, w1)
  | Reply status body =>
      if (400 <=? status) && (status <? 600) then (Raise RequestException, w1)
      else
        match body with
        | None => (Raise JSONDecodeError, w1)
        | Some weather_data =>
            let '(now, w2) := now_utc P w1 in
            match weather_data with
            | PDict m =>
                (Ret (<["extracted_at" := PStr (isoformat_utc now)]> m), w2)
            | _ => (Raise TypeError, w2)
            end
        end
  end.

(** [WeatherExtractor.extract_weather_data]: each of the three [except]
    clauses returns [None]. *)
Definition extract_weather_data (city country_code : string) (w : W)
  : option pydict * W :=
  match extract_body city country_code w with
  | (Ret weather_data, w') => (Some weather_data, w')
  | (Raise _, w') => (None, w')
  end.





(** *** Loader ([etl/load.py]) *)

(** [str.replace("Z", "+00:00")]. *)
Fixpoint replace_Z (s : string) : string :=
  match s with
  | EmptyString => EmptyString
  | String a rest =>
      if Ascii.eqb a "Z" then "+00:00" +:+ replace_Z rest
      else String a (replace_Z rest)
  end.

(** [parse_timestamp]: a falsy value gives [None]; so does anything the
    conversion chokes on, the bare [except] swallowing the exception (a
    value that is not a string has no suitable [replace]). *)
Definition parse_timestamp (ts_str : pyval) : pyval :=
  if truthy ts_str
  then
    match ts_str with
    | PStr s =>
        let s' := replace_Z s in
        if fromisoformat_ok P s' then PDatetime s' else PNone
    | _ => PNone
    end
  else PNone.

Definition timestamp_fields : list string :=
  ["data_timestamp"; "sunrise"; "sunset"; "extracted_at"; "processed_at"].

(** [WeatherLoader._prepare_data_for_insert]: a copy in which the
    timestamp fields that are present are parsed. *)
Definition _prepare_data_for_insert (data : pydict) : pydict :=
  foldl
    (fun prepared_data field =>
       match prepared_data !! field with
       | Some v => <[field := parse_timestamp v]> prepared_data
       | None => prepared_data
       end)
    data timestamp_fields.

(** [WeatherLoader.load_weather_data]. The [try] block binds [cursor]
    and runs the insert; each [except] clause returns [False]; the
    [finally] block then reads [cursor], which is unbound when
    [self.connection.cursor()] itself raised (or when [self.connection]
    is [None]): the function then raises [UnboundLocalError] instead of
    returning. *)
Definition load_weather_data (connection : bool) (data : pydict) (w : W)
  : res bool * W :=
  let '(cursor, result, w1) :=
    match (if connection then connection_cursor P w
           else (Raise AttributeError, w)) with
    | (Raise _, w1) => (None, false, w1)
    | (Ret c, w1) =>
        let insert_data := _prepare_data_for_insert data in
        match cursor_execute P (InsertRow insert_data) w1 with
        | (Ret _, w2) => (Some c, true, w2)
        | (Raise _, w2) => (Some c, false, w2)
        end
    end in
  match cursor with
  | None => (Raise UnboundLocalError, w1)
  | Some _ => (Ret result, cursor_close P w1)
  end.

(** [WeatherLoader.load_multiple_records]: an exception raised by
    [load_weather_data] is not caught and ends the loop. *)
Fixpoint load_loop (connection : bool) (data_list : list pydict)
  (success_count : Z) (w : W) : res Z * W :=
  match data_list with
  | [] => (Ret success_count, w)
  | data :: rest =>
      match load_weather_data connection data w with
      | (Raise e, w1) => (Raise e, w1)
      | (Ret ok, w1) =>
          load_loop connection rest
            (if ok then success_count + 1 else success_count) w1
      end
  end.

Definition load_multiple_records (connection : bool) (data_list : list pydict)
  (w : W) : res Z * W :=
  load_loop connection data_list 0 w.

(** The result of each insert of a batch, had the loop run to its end. *)
Fixpoint load_results (connection : bool) (data_list : list pydict) (w : W)
  : list (res bool) :=
  match data_list with
  | [] => []
  | data :: rest =>
      let '(r, w1) := load_weather_data connection data w in
      r :: load_results connection rest w1
  end.

(** [WeatherLoader.connect]: [True] with the connection stored, [False]
    on a database error; any other exception propagates. *)
Definition connect (w : W) : res bool * W :=
  match psycopg2_connect P w with
  | (Ret _, w1) => (Ret true, w1)
  | (Raise DatabaseError, w1) => (Ret false, w1)
  | (Raise e, w1) => (Raise e, w1)
  end.

(** [WeatherLoader.create_tables]: same shape as [load_weather_data],
    but only database errors are handled. *)
Definition create_tables (w : W) : res bool * W :=
  match connection_cursor P w with
  | (Raise _, w1) => (Raise UnboundLocalError, w1)
  | (Ret _, w1) =>
      match cursor_execute P CreateSchema w1 with
      | (Ret _, w2) => (Ret true, cursor_close P w2)
      | (Raise DatabaseError, w2) => (Ret false, cursor_close P w2)
      | (Raise e, w2) => (Raise e, cursor_close P w2)
      end
  end.
End Pipeline.

Section Orchestrator.
Context {W : Type} (P : platform W).

(** *** Orchestrator ([etl/main_etl.py]) *)

(** The transformer as the pipeline calls it: the clock is read only
    when the evaluation of the dictionary display gets to
    [processed_at]. *)
Definition transform_step (raw_data : pydict) (w : W) : option pydict * W :=
  match transform_entries (platform_host P) raw_data with
  | Ret (Some entries) =>
      let '(now, w1) := now_utc P w in
      match transform_finish raw_data (isoformat_utc now) entries with
      | Ret r => (r, w1)
      | Raise _ => (None, w1)
      end
  | Ret None => (None, w)
  | Raise _ => (None, w)
  end.

Definition count_failed_extraction (s : stats) : stats :=
  {| total_runs := total_runs s;
     successful_extractions := successful_extractions s;
     failed_extractions := failed_extractions s + 1;
     successful_loads := successful_loads s;
     failed_loads := failed_loads s;
     last_run := last_run s;
     last_success := last_success s |}.

Definition count_successful_extraction (s : stats) : stats :=
  {| total_runs := total_runs s;
     successful_extractions := successful_extractions s + 1;
     failed_extractions := failed_extractions s;
     successful_loads := successful_loads s;
     failed_loads := failed_loads s;
     last_run := last_run s;
     last_success := last_success s |}.

Definition count_failed_load (s : stats) : stats :=
  {| total_runs := total_runs s;
     successful_extractions := successful_extractions s;
     failed_extractions := failed_extractions s;
     successful_loads := successful_loads s;
     failed_loads := failed_loads s + 1;
     last_run := last_run s;
     last_success := last_success s |}.

Definition count_successful_load (s : stats) : stats :=
  {| total_runs := total_runs s;
     successful_extractions := successful_extractions s;
     failed_extractions := failed_extractions s;
     successful_loads := successful_loads s + 1;
     failed_loads := failed_loads s;
     last_run := last_run s;
     last_success := last_success s |}.

Definition with_stats (p : pipeline) (s : stats) : pipeline :=
  {| cities := cities p; pstats := s; connection := connection p |}.

(** [WeatherETLPipeline.run_etl_for_city]. An exception that escapes a
    stage lands in the outer [except], which returns [False] without
    touching a counter. *)
Definition run_etl_for_city (city : string) (p : pipeline) (w : W)
  : bool * pipeline * W :=
  let '(raw_data, w1) := extract_weather_data P city "BR" w in
  match raw_data with
  | None => (false, with_stats p (count_failed_extraction (pstats p)), w1)
  | Some raw =>
      if negb (truthy (PDict raw))
      then (false, with_stats p (count_failed_extraction (pstats p)), w1)
      else
        let p1 := with_stats p (count_successful_extraction (pstats p)) in
        let '(transformed_data, w2) := transform_step raw w1 in
        match transformed_data with
        | None => (false, p1, w2)
        | Some transformed =>
            if negb (truthy (PDict transformed)) then (false, p1, w2)
            else
              match add_derived_fields transformed with
              | Raise _ => (false, p1, w2)
              | Ret final_data =>
                  match load_weather_data P (connection p1) final_data w2 with
                  | (Raise _, w3) => (false, p1, w3)
                  | (Ret false, w3) =>
                      (false, with_stats p1 (count_failed_load (pstats p1)), w3)
                  | (Ret true, w3) =>
                      (true, with_stats p1 (count_successful_load (pstats p1)), w3)
                  end
              end
        end
  end.

(** Which stage ended the run for a city. *)
Inductive city_outcome :=
| ExtractionFailed
| TransformationFailed
| LoadFailed
| LoadRaised
| FullySucceeded.

Definition outcome_for_city (city : string) (p : pipeline) (w : W) : city_outcome :=
  let '(raw_data, w1) := extract_weather_data P city "BR" w in
  match raw_data with
  | None => ExtractionFailed
  | Some raw =>
      let '(transformed_data, w2) := transform_step raw w1 in
      match transformed_data with
      | None => TransformationFailed
      | Some transformed =>
          match add_derived_fields transformed with
          | Raise _ => LoadRaised
          | Ret final_data =>
              match load_weather_data P (connection p) final_data w2 with
              | (Raise _, _) => LoadRaised
              | (Ret false, _) => LoadFailed
              | (Ret true, _) => FullySucceeded
              end
          end
      end
  end.

(** [WeatherETLPipeline.setup_database]: the result, and whether the
    loader holds a connection afterwards. Every exception is caught. *)
Definition setup_database (w : W) : bool * bool * W :=
  match connect P w with
  | (Raise _, w1) => (false, false, w1)
  | (Ret false, w1) => (false, false, w1)
  | (Ret true, w1) =>
      match create_tables P w1 with
      | (Ret true, w2) => (true, true, w2)
      | (Ret false, w2) => (false, true, w2)
      | (Raise _, w2) => (false, true, w2)
      end
  end.

(** [WeatherETLPipeline._generate_report], [start_time] being a clock
    reading in microseconds. *)
Definition _generate_report (start : Z) (ok : bool) (p : pipeline) (w : W)
  : report * W :=
  let '(finish, w1) := now_utc P w in
  ({| execution_id :=
        "etl_" +:+ pretty (default 0 (float_trunc (Z_truediv start 1000000)));
      start_time := isoformat_utc start;
      end_time := isoformat_utc finish;
      duration_seconds := Z_truediv (finish - start) 1000000;
      success := ok;
      statistics := pstats p;
      city_results := None;
      successful_cities := None;
      total_cities := None |}, w1).

(** The loop of [run_full_etl] over the cities. [run_etl_for_city],
    the clock and [time.sleep] do not raise, so the loop's own [except]
    branch is never taken. *)
Fixpoint city_loop (todo : list string) (results : gmap string city_result)
  (successful : Z) (p : pipeline) (w : W)
  : gmap string city_result * Z * pipeline * W :=
  match todo with
  | [] => (results, successful, p, w)
  | city :: rest =>
      let '(ok, p1, w1) := run_etl_for_city city p w in
      let '(now, w2) := now_utc P w1 in
      let results' :=
        <[city := {| cr_success := ok; cr_timestamp := isoformat_utc now |}]> results in
      let successful' := if ok then successful + 1 else successful in
      city_loop rest results' successful' p1 (sleep P 1 w2)
  end.

Definition start_run (p : pipeline) (start : Z) : pipeline :=
  with_stats p
    {| total_runs := total_runs (pstats p) + 1;
       successful_extractions := successful_extractions (pstats p);
       failed_extractions := failed_extractions (pstats p);
       successful_loads := successful_loads (pstats p);
       failed_loads := failed_loads (pstats p);
       last_run := Some (isoformat_utc start);
       last_success := last_success (pstats p) |}.

Definition record_success (p : pipeline) (now : Z) : pipeline :=
  with_stats p
    {| total_runs := total_runs (pstats p);
       successful_extractions := successful_extractions (pstats p);
       failed_extractions := failed_extractions (pstats p);
       successful_loads := successful_loads (pstats p);
       failed_loads := failed_loads (pstats p);
       last_run := last_run (pstats p);
       last_success := Some (isoformat_utc now) |}.

Definition with_connection (p : pipeline) (c : bool) : pipeline :=
  {| cities := cities p; pstats := pstats p; connection := c |}.

(** The part of [run_full_etl] after the connection has been ensured. *)
Definition run_cities (start : Z) (p : pipeline) (w : W)
  : report * pipeline * W :=
  let '(results, successful, p1, w1) := city_loop (cities p) ∅ 0 p w in
  let '(p2, w2) :=
    if 0 <? successful
    then let '(now, w') := now_utc P w1 in (record_success p1 now, w')
    else (p1, w1) in
  let '(r, w3) := _generate_report start (0 <? successful) p2 w2 in
  ({| execution_id := execution_id r;
      start_time := start_time r;
      end_time := end_time r;
      duration_seconds := duration_seconds r;
      success := success r;
      statistics := statistics r;
      city_results := Some results;
      successful_cities := Some successful;
      total_cities := Some (Z.of_nat (length (cities p))) |}, p2, w3).

(** The result of each call of [run_etl_for_city] the loop makes. *)
Fixpoint city_runs (todo : list string) (p : pipeline) (w : W)
  : list (string * bool) :=
  match todo with
  | [] => []
  | city :: rest =>
      let '(ok, p1, w1) := run_etl_for_city city p w in
      let '(now, w2) := now_utc P w1 in
      (city, ok) :: city_runs rest p1 (sleep P 1 w2)
  end.

(** [WeatherETLPipeline.run_full_etl]. *)
Definition run_full_etl (p : pipeline) (w : W) : report * pipeline * W :=
  let '(start, w1) := now_utc P w in
  let p1 := start_run p start in
  if negb (connection p1)
  then
    let '(ok, conn, w2) := setup_database w1 in
    let p2 := with_connection p1 conn in
    if negb ok
    then let '(r, w3) := _generate_report start false p2 w2 in (r, p2, w3)
    else run_cities start p2 w2
  else run_cities start p1 w1.

(** Whether [run_full_etl], started in this state, gets past its
    connection guard: the loader already holds a connection, or
    [setup_database] succeeds. *)
Definition store_ready (p : pipeline) (w : W) : bool :=
  connection p || (setup_database (now_utc P w).2).1.1.
End Orchestrator.

(** ** A simulated platform *)

(** A small deterministic world, used to run the pipeline on concrete
    inputs: a clock that advances by one millisecond per reading, a web
    service answering by query string, a database that is reachable or
    not and keeps the rows inserted so far, and a timestamp parser that
    accepts any text long enough to hold a date and a time. *)
Record sim := {
  sim_clock : Z;
  sim_web : string -> http_reply;
  sim_db_reachable : bool;
  sim_rows : list pydict
}.

(** The named parameters of the insert statement. *)
Definition insert_columns : list string :=
  ["city_id"; "city_name"; "country_code"; "latitude"; "longitude";
   "temperature"; "temperature_feels_like"; "temperature_min";
   "temperature_max"; "pressure"; "humidity"; "sea_level_pressure";
   "ground_level_pressure"; "weather_main"; "weather_description";
   "weather_icon"; "wind_speed"; "wind_direction"; "wind_gust";
   "cloudiness"; "visibility"; "data_timestamp"; "sunrise"; "sunset";
   "extracted_at"; "processed_at"; "timezone_offset"; "heat_index";
   "temperature_category"; "humidity_category"].

(** The simulated driver: a statement fails when the database is
    unreachable; an insert needs every named parameter ([KeyError]
    otherwise) and a city name that is not null. *)
Definition sim_execute (st : statement) (w : sim) : res unit * sim :=
  if negb (sim_db_reachable w) then (Raise DatabaseError, w)
  else
    match st with
    | CreateSchema => (Ret tt, w)
    | InsertRow params =>
        if negb (forallb (fun c => bool_decide (is_Some (params !! c))) insert_columns)
        then (Raise KeyError, w)
        else if is_None (dict_get params "city_name") then (Raise DatabaseError, w)
        else
          (Ret tt,
           {| sim_clock := sim_clock w; sim_web := sim_web w;
              sim_db_reachable := sim_db_reachable w;
              sim_rows := sim_rows w ++ [params] |})
    end.

Definition sim_platform (H : host) : platform sim := {|
  platform_host := H;
  now_utc w :=
    (sim_clock w,
     {| sim_clock := sim_clock w + 1000; sim_web := sim_web w;
        sim_db_reachable := sim_db_reachable w; sim_rows := sim_rows w |});
  sleep secs w :=
    {| sim_clock := sim_clock w + secs * 1000000; sim_web := sim_web w;
       sim_db_reachable := sim_db_reachable w; sim_rows := sim_rows w |};
  requests_get q w := (sim_web w q, w);
  fromisoformat_ok s := (19 <=? String.length s)%nat;
  psycopg2_connect w :=
    (if sim_db_reachable w then Ret tt else Raise DatabaseError, w);
  connection_cursor w :=
    (if sim_db_reachable w then Ret tt else Raise DatabaseError, w);
  cursor_execute := sim_execute;
  cursor_close w := w
|}.

(** The sample observation of the transformer's self-test
    ([etl/transform.py], [main]), its city name spelled in ASCII, and the
    record the test suite uses as already transformed data
    ([tests/conftest.py], [sample_transformed_data]). *)
Definition sample_data : pydict :=
  list_to_map
    [("coord", PDict (list_to_map [("lon", PFloat (-46.6361)); ("lat", PFloat (-23.5475))]));
     ("weather",
      PList [PDict (list_to_map
                      [("id", PInt 800); ("main", PStr "Clear");
                       ("description", PStr "ceu limpo"); ("icon", PStr "01d")])]);
     ("base", PStr "stations");
     ("main",
      PDict (list_to_map
               [("temp", PFloat 25.5); ("feels_like", PFloat 26.2);
                ("temp_min", PFloat 23.1); ("temp_max", PFloat 28.3);
                ("pressure", PInt 1013); ("humidity", PInt 65)]));
     ("visibility", PInt 10000);
     ("wind", PDict (list_to_map [("speed", PFloat 3.5); ("deg", PInt 180)]));
     ("clouds", PDict (list_to_map [("all", PInt 0)]));
     ("dt", PInt 1640995200);
     ("sys",
      PDict (list_to_map
               [("type", PInt 1); ("id", PInt 8394); ("country", PStr "BR");
                ("sunrise", PInt 1640944800); ("sunset", PInt 1640995200)]));
     ("timezone", PInt (-10800));
     ("id", PInt 3448439);
     ("name", PStr "Sao Paulo");
     ("cod", PInt 200);
     ("extracted_at", PStr "2024-01-01T12:00:00")].

Definition sample_transformed_data : pydict :=
  list_to_map
    [("city_name", PStr "Sao Paulo");
     ("temperature", PFloat 25.5);
     ("data_timestamp", PStr "2024-01-01T10:00:00");
     ("processed_at", PStr "2024-01-01T10:10:00");
     ("humidity", PInt 65);
     ("heat_index", PFloat 33);
     ("temperature_category", PStr "Quente");
     ("humidity_category", PStr "Moderada")].

(** A web service that knows one city and answers 404 for any other. *)
Definition one_city_web (q : string) : http_reply :=
  if String.eqb q "Sao Paulo,BR" then Reply 200 (Some (PDict sample_data))
  else Reply 404 None.

Definition sim_start (web : string -> http_reply) (reachable : bool) : sim :=
  {| sim_clock := 1704110400000000; sim_web := web;
     sim_db_reachable := reachable; sim_rows := [] |}.

Definition new_pipeline (cs : list string) : pipeline :=
  {| cities := cs; pstats := initial_stats; connection := false |}.

(** A record with just the required fields, on a cold day. *)
Definition cold_record : pydict :=
  list_to_map
    [("city_name", PStr "Sao Paulo");
     ("country_code", PStr "BR");
     ("temperature", PInt 5);
     ("humidity", PInt 65);
     ("pressure", PInt 1013);
     ("weather_main", PStr "Clear")].

(** ** Notions used to state the properties *)

(** A number lies between two integer literals. *)
Definition in_range (lo hi : Z) (v : pyval) : Prop :=
  match v with
  | PBool b => lo <= Z.b2z b <= hi
  | PInt z => lo <= z <= hi
  | PFloat f =>
      (float_cmp_Z f lo = Some Gt \/ float_cmp_Z f lo = Some Eq) /\
      (float_cmp_Z f hi = Some Lt \/ float_cmp_Z f hi = Some Eq)
  | _ => False
  end.

Definition is_number (v : pyval) : Prop :=
  match v with
  | PBool _ | PInt _ | PFloat _ => True
  | _ => False
  end.

(** What the specification calls a valid record, short of the non-empty
    city name: the required fields are present and not null, the
    temperature and the humidity are numbers in their ranges. *)
Definition valid_record (rec : pydict) : Prop :=
  (forall field, In field required_fields ->
     exists v, rec !! field = Some v /\ v <> PNone) /\
  (exists t, rec !! "temperature" = Some t /\ in_range (-100) 60 t) /\
  (exists h, rec !! "humidity" = Some h /\ in_range 0 100 h).

(** An optional assignment to a key. *)
Definition assign (k : string) (o : option pyval) (d : pydict) : pydict :=
  match o with
  | Some v => <[k := v]> d
  | None => d
  end.

(** A field is absent, null, or a number equal to zero. *)
Definition absent_or_zero (data : pydict) (k : string) : Prop :=
  data !! k = None \/ data !! k = Some PNone \/
  exists v, data !! k = Some v /\ cmp_int v 0 = Ret (Some Eq).

(** [str.title] on ASCII text, where every mapping is one code point. *)
Fixpoint ascii_title (previous_is_cased : bool) (s : text) : text :=
  match s with
  | [] => []
  | c :: rest =>
      (if previous_is_cased then ascii_lower c else ascii_upper c)
      :: ascii_title (ascii_isupper c || ascii_islower c) rest
  end.

(** The values of the special cases, as code points. *)
Definition sao_paulo : text := [83; 227; 111; 32; 80; 97; 117; 108; 111]%N.
Definition rio_de_janeiro : text :=
  [82; 105; 111; 32; 100; 101; 32; 74; 97; 110; 101; 105; 114; 111]%N.
Definition belo_horizonte : text :=
  [66; 101; 108; 111; 32; 72; 111; 114; 105; 122; 111; 110; 116; 101]%N.

(** An insert that returned true. *)
Definition inserted (r : res bool) : bool :=
  match r with
  | Ret true => true
  | _ => false
  end.


(** The six required fields of a record are those of the payload: the
    name, the country of the [sys] section, the temperature, humidity and
    pressure of the [main] section, and the [main] of the first entry of
    the [weather] list. *)
Definition flattened_from (raw rec : pydict) : Prop :=
  exists main_data sys_data weather_data : pydict,
    raw !! "main" = Some (PDict main_data) /\
    dict_get_default raw "sys" (PDict ∅) = PDict sys_data /\
    py_item0 (dict_get_default raw "weather" (PList [PDict ∅])) = Ret (PDict weather_data) /\
    rec !! "city_name" = Some (dict_get raw "name") /\
    rec !! "country_code" = Some (dict_get sys_data "country") /\
    rec !! "temperature" = Some (dict_get main_data "temp") /\
    rec !! "humidity" = Some (dict_get main_data "humidity") /\
    rec !! "pressure" = Some (dict_get main_data "pressure") /\
    rec !! "weather_main" = Some (dict_get weather_data "main").

(** The binary64 number a numeric reading stands for in float
    arithmetic: a float is itself, an integer (a boolean counting as 0 or
    1) is the float of the same value. *)
Definition float_reading (v : pyval) (f : float) : Prop :=
  match v with
  | PFloat g => f = g
  | PInt z => f = Z_truediv z 1
  | PBool b => f = Z_truediv (Z.b2z b) 1
  | _ => False
  end.

(** [round(x, 2)] as the specification means it, without reference to
    the way it is computed. A finite [x] is, exactly, plus or minus
    [m * 2^e]; [k] is the number of hundredths nearest to it, the even one
    of the two when [x] lies halfway; [y] is the binary64 number nearest to
    [k / 100], with the sign of [x]. Zeros, infinities and NaN are their
    own rounding. *)
Definition rounded_to_2_decimals (x y : float) : Prop :=
  match Prim2SF x with
  | S754_finite s m e =>
      exists k : Z,
        0 <= k /\
        (if 0 <=? e then k = 100 * Z.pos m * 2 ^ e
         else
           2 * Z.abs (100 * Z.pos m - k * 2 ^ (- e)) <= 2 ^ (- e) /\
           (2 * Z.abs (100 * Z.pos m - k * 2 ^ (- e)) = 2 ^ (- e) ->
            Z.even k = true)) /\
        y = (if k =? 0 then (if s then (-0)%float else 0%float)
             else Z_truediv (if s then - k else k) 100)
  | _ => y = x
  end.

(** A record with just the required fields, on a mild and humid day. *)
Definition warm_record : pydict :=
  list_to_map
    [("city_name", PStr "Sao Paulo");
     ("country_code", PStr "BR");
     ("temperature", PFloat 21.37);
     ("humidity", PInt 83);
     ("pressure", PInt 1013);
     ("weather_main", PStr "Clear")].


(** The outcome of the last run for a city among the runs of a loop. *)
Fixpoint last_outcome (city : string) (runs : list (string * bool)) : option bool :=
  match runs with
  | [] => None
  | (c, ok) :: rest =>
      match last_outcome city rest with
      | Some b => Some b
      | None => if decide (c = city) then Some ok else None
      end
  end.

(** ** Notions used to state further properties *)

Definition is_dict (v : pyval) : Prop :=
  match v with
  | PDict _ => True
  | _ => False
  end.

(** A call returned rather than raised. *)
Definition returned {A : Type} (r : res A) : bool :=
  match r with
  | Ret _ => true
  | Raise _ => false
  end.

(** The keys of the dictionary display of [transform_weather_data], in
    the order it lists them. *)
Definition transformed_keys : list string :=
  ["city_id"; "city_name"; "country_code"; "latitude"; "longitude";
   "temperature"; "temperature_feels_like"; "temperature_min";
   "temperature_max"; "pressure"; "humidity"; "sea_level_pressure";
   "ground_level_pressure"; "weather_main"; "weather_description";
   "weather_icon"; "wind_speed"; "wind_direction"; "wind_gust";
   "cloudiness"; "visibility"; "data_timestamp"; "sunrise"; "sunset";
   "extracted_at"; "processed_at"; "timezone_offset"].

(** The entries of that display up to [extracted_at], once the sections
    of the payload are known to be dictionaries and the three timestamps
    have been rendered. *)
Definition flattened_entries (raw_data main_data sys_data coord_data wind_data
    clouds_data weather_data : pydict) (data_timestamp : string)
    (sunrise sunset : pyval) : list (string * pyval) :=
  [("city_id", dict_get raw_data "id");
   ("city_name", dict_get raw_data "name");
   ("country_code", dict_get sys_data "country");
   ("latitude", dict_get coord_data "lat");
   ("longitude", dict_get coord_data "lon");
   ("temperature", dict_get main_data "temp");
   ("temperature_feels_like", dict_get main_data "feels_like");
   ("temperature_min", dict_get main_data "temp_min");
   ("temperature_max", dict_get main_data "temp_max");
   ("pressure", dict_get main_data "pressure");
   ("humidity", dict_get main_data "humidity");
   ("sea_level_pressure", dict_get main_data "sea_level");
   ("ground_level_pressure", dict_get main_data "grnd_level");
   ("weather_main", dict_get weather_data "main");
   ("weather_description", dict_get weather_data "description");
   ("weather_icon", dict_get weather_data "icon");
   ("wind_speed", dict_get wind_data "speed");
   ("wind_direction", dict_get wind_data "deg");
   ("wind_gust", dict_get wind_data "gust");
   ("cloudiness", dict_get clouds_data "all");
   ("visibility", dict_get raw_data "visibility");
   ("data_timestamp", PStr data_timestamp);
   ("sunrise", sunrise);
   ("sunset", sunset);
   ("extracted_at", dict_get raw_data "extracted_at")].

(** Which field of the record comes from which key of which section of
    the payload (the [weather] section, a list, apart). *)
Definition section_fields : list (string * string * string) :=
  [("sys", "country", "country_code");
   ("coord", "lat", "latitude");
   ("coord", "lon", "longitude");
   ("main", "temp", "temperature");
   ("main", "feels_like", "temperature_feels_like");
   ("main", "temp_min", "temperature_min");
   ("main", "temp_max", "temperature_max");
   ("main", "pressure", "pressure");
   ("main", "humidity", "humidity");
   ("main", "sea_level", "sea_level_pressure");
   ("main", "grnd_level", "ground_level_pressure");
   ("wind", "speed", "wind_speed");
   ("wind", "deg", "wind_direction");
   ("wind", "gust", "wind_gust");
   ("clouds", "all", "cloudiness")].

Definition weather_fields : list (string * string) :=
  [("main", "weather_main");
   ("description", "weather_description");
   ("icon", "weather_icon")].

(** The payloads [transform_weather_data] turns into a record. *)
Definition acceptable (H : host) (raw : pydict) : Prop :=
  exists main_data sys_data coord_data wind_data clouds_data weather_data : pydict,
    raw !! "main" = Some (PDict main_data) /\
    dict_get_default raw "sys" (PDict ∅) = PDict sys_data /\
    dict_get_default raw "coord" (PDict ∅) = PDict coord_data /\
    dict_get_default raw "wind" (PDict ∅) = PDict wind_data /\
    dict_get_default raw "clouds" (PDict ∅) = PDict clouds_data /\
    py_item0 (dict_get_default raw "weather" (PList [PDict ∅])) = Ret (PDict weather_data) /\
    returned (fromtimestamp_iso H (dict_get_default raw "dt" (PInt 0))) = true /\
    returned (optional_timestamp H (PDict sys_data) "sunrise") = true /\
    returned (optional_timestamp H (PDict sys_data) "sunset") = true /\
    dict_get raw "name" <> PNone /\
    dict_get sys_data "country" <> PNone /\
    dict_get main_data "pressure" <> PNone /\
    dict_get weather_data "main" <> PNone /\
    in_range (-100) 60 (dict_get main_data "temp") /\
    in_range 0 100 (dict_get main_data "humidity").

(** The payloads it is sure to refuse: an entry it cannot do without is
    missing; a section is present but is not a dictionary (a JSON null
    included); the [weather] entry has no dictionary as first element; or
    the observation time is one [datetime.fromtimestamp] does not take. *)
Definition malformed (H : host) (raw : pydict) : Prop :=
  (exists key, In key ["main"; "sys"; "weather"; "name"] /\ raw !! key = None) \/
  (exists section v,
      In section ["main"; "sys"; "coord"; "wind"; "clouds"] /\
      raw !! section = Some v /\ ~ is_dict v) \/
  (exists w, raw !! "weather" = Some w /\ forall m, py_item0 w <> Ret (PDict m)) \/
  returned (fromtimestamp_iso H (dict_get_default raw "dt" (PInt 0))) = false.

(** *** Configuration ([etl/main_etl.py], [get_config] and
    [run_scheduled_etl]) *)

(** [str.split(sep)] for a separator of one code point: the pieces
    between the occurrences of the separator, empty pieces included. *)
Fixpoint split_on (sep : N) (s : text) : list text :=
  match s with
  | [] => [[]]
  | c :: rest =>
      if (c =? sep)%N then [] :: split_on sep rest
      else
        match split_on sep rest with
        | piece :: pieces => (c :: piece) :: pieces
        | [] => [[c]]
        end
  end.

(** [sep.join(pieces)]. *)
Fixpoint join_with (sep : N) (pieces : list text) : text :=
  match pieces with
  | [] => []
  | [piece] => piece
  | piece :: rest => piece ++ sep :: join_with sep rest
  end.

Definition comma : N := 44%N.

(** The default of the [CITIES] variable. *)
Definition default_cities : text :=
  sao_paulo ++ comma :: rio_de_janeiro ++ comma :: belo_horizonte.

(** The [cities] entry of [get_config], given the value of the [CITIES]
    environment variable, if set. *)
Definition get_config_cities (env : option text) : list text :=
  split_on comma (default default_cities env).

(** The city list [run_scheduled_etl] hands to the pipeline. *)
Definition scheduled_cities (X : case_tables) (env : option text) : list text :=
  map (py_strip X) (get_config_cities env).

(** *** A store that refuses the schema *)

(** The simulated platform with a database that accepts connections and
    inserts but on which the schema statement is refused. *)
Definition schemaless_platform (H : host) : platform sim := {|
  platform_host := H;
  now_utc := now_utc (sim_platform H);
  sleep := sleep (sim_platform H);
  requests_get := requests_get (sim_platform H);
  fromisoformat_ok := fromisoformat_ok (sim_platform H);
  psycopg2_connect := psycopg2_connect (sim_platform H);
  connection_cursor := connection_cursor (sim_platform H);
  cursor_execute st w :=
    match st with
    | CreateSchema => (Raise DatabaseError, w)
    | InsertRow _ => sim_execute st w
    end;
  cursor_close := cursor_close (sim_platform H)
|}.

(** A text without the capital letter Z. *)
Fixpoint no_Z (s : string) : bool :=
  match s with
  | EmptyString => true
  | String a rest => negb (Ascii.eqb a "Z") && no_Z rest
  end.

(** The sample observation on a day of exactly zero degrees. *)
Definition freezing_data : pydict :=
  <["main" := PDict (list_to_map
                       [("temp", PInt 0); ("feels_like", PFloat (-1.5));
                        ("temp_min", PInt 0); ("temp_max", PFloat 1.2);
                        ("pressure", PInt 1013); ("humidity", PInt 65)])]>
    sample_data.

(** The sample observation, transformed and enriched. *)
Definition sample_final : pydict :=
  match transform_weather_data utc_host "2024-01-01T12:00:01+00:00" sample_data with
  | Some rec =>
      match add_derived_fields rec with
      | Ret final => final
      | Raise _ => ∅
      end
  | None => ∅
  end.


(** * Properties *)

(** ** Comparisons against integer literals *)

Lemma cmp_int_number v k c : cmp_int v k = Ret c -> is_number v.
Proof. destruct v; simpl; intros; try discriminate; exact I. Qed.

Lemma number_cmp_int v k : is_number v -> exists c, cmp_int v k = Ret c.
Proof. destruct v; simpl; intros []; eauto. Qed.

Lemma float_cmp_Z_Gt_mono f k1 k2 :
  k1 <= k2 -> float_cmp_Z f k2 = Some Gt -> float_cmp_Z f k1 = Some Gt.
Proof.
  unfold float_cmp_Z. intros Hk.
  destruct (Prim2SF f) as [s | s | | s m e]; try discriminate.
  - destruct k1, k2; simpl; intros; try reflexivity; try discriminate; lia.
  - destruct s; [discriminate | reflexivity].
  - intros [= H]. f_equal. destruct (0 <=? e).
    + apply Z.compare_gt_iff in H. apply Z.compare_gt_iff. lia.
    + apply Z.compare_gt_iff in H. apply Z.compare_gt_iff.
      assert (0 <= 2 ^ (- e)) by apply Z.pow_nonneg, Z.le_0_2.
      nia.
Qed.

Lemma cmp_int_Gt_mono v k1 k2 :
  k1 <= k2 -> cmp_int v k2 = Ret (Some Gt) -> cmp_int v k1 = Ret (Some Gt).
Proof.
  intros Hk. destruct v; simpl; try discriminate.
  - intros [= H]. do 2 f_equal. apply Z.compare_gt_iff in H. apply Z.compare_gt_iff. lia.
  - intros [= H]. do 2 f_equal. apply Z.compare_gt_iff in H. apply Z.compare_gt_iff. lia.
  - intros [= H]. f_equal. eauto using float_cmp_Z_Gt_mono.
Qed.

Lemma py_between_in_range lo v hi :
  py_between lo v hi = Ret true -> in_range lo hi v.
Proof.
  unfold py_between, py_int_le, py_le_int.
  destruct v; simpl; try discriminate.
  - destruct (Z.compare_spec (Z.b2z b) lo); simpl; try discriminate;
      destruct (Z.compare_spec (Z.b2z b) hi); simpl; try discriminate; lia.
  - destruct (Z.compare_spec z lo); simpl; try discriminate;
      destruct (Z.compare_spec z hi); simpl; try discriminate; lia.
  - destruct (float_cmp_Z f lo) as [[]|]; simpl; try discriminate;
      destruct (float_cmp_Z f hi) as [[]|]; simpl; try discriminate; auto.
Qed.

Lemma in_range_number lo hi v : in_range lo hi v -> is_number v.
Proof. destruct v; simpl; auto. Qed.

(** ** Validation *)

Lemma dict_get_default_Some (d : pydict) k dflt v :
  d !! k = Some v -> dict_get_default d k dflt = v.
Proof. unfold dict_get_default. by intros ->. Qed.

Lemma is_None_dict_get (d : pydict) k :
  is_None (dict_get d k) = false -> exists v, d !! k = Some v /\ v <> PNone.
Proof.
  unfold dict_get. destruct (d !! k) as [v|]; simpl; [|discriminate].
  intros H. exists v. split; [reflexivity|]. intros ->. discriminate.
Qed.

Lemma validate_valid_record (data : pydict) :
  _validate_transformed_data data = Ret true -> valid_record data.
Proof.
  unfold _validate_transformed_data.
  destruct (existsb _ required_fields) eqn:Hreq; [discriminate|].
  assert (Hfields : forall field, In field required_fields ->
            exists v, data !! field = Some v /\ v <> PNone).
  { intros field Hin. apply is_None_dict_get.
    destruct (is_None (dict_get data field)) eqn:E; [|reflexivity].
    assert (existsb (fun field => is_None (dict_get data field)) required_fields = true)
      by (apply existsb_exists; eauto).
    congruence. }
  destruct (py_between (-100) _ 60) as [[]|] eqn:Ht; simpl; try discriminate.
  destruct (py_between 0 _ 100) as [[]|] eqn:Hh; simpl; try discriminate.
  intros _. split; [exact Hfields|].
  destruct (Hfields "temperature") as (t & Et & _); [simpl; auto|].
  destruct (Hfields "humidity") as (h & Eh & _); [simpl; auto|].
  unfold dict_get_default in Ht, Hh. rewrite Et in Ht. rewrite Eh in Hh. simpl in Ht, Hh.
  split; [exists t | exists h]; eauto using py_between_in_range.
Qed.

Lemma transform_entries_main H raw entries :
  transform_entries H raw = Ret (Some entries) -> is_Some (raw !! "main").
Proof.
  unfold transform_entries.
  destruct (negb (truthy (PDict raw))); simpl; [discriminate|].
  destruct (bool_decide (is_Some (raw !! "main"))) eqn:E; simpl; [|discriminate].
  intros _. by apply bool_decide_eq_true in E.
Qed.

Lemma transform_finish_valid raw now entries rec :
  transform_finish raw now entries = Ret (Some rec) -> valid_record rec.
Proof.
  unfold transform_finish.
  destruct (_validate_transformed_data _) as [[]|] eqn:Hv; simpl; try discriminate.
  intros [= <-]. by apply validate_valid_record.
Qed.

Lemma transform_weather_data_valid H now raw rec :
  transform_weather_data H now raw = Some rec ->
  is_Some (raw !! "main") /\ valid_record rec.
Proof.
  unfold transform_weather_data.
  destruct (transform_entries H raw) as [[entries|]|] eqn:He; try discriminate.
  destruct (transform_finish raw now entries) as [r|] eqn:Hf; try discriminate.
  intros ->. eauto using transform_entries_main, transform_finish_valid.
Qed.

Lemma transform_step_valid {W} (P : platform W) raw w rec w' :
  transform_step P raw w = (Some rec, w') ->
  is_Some (raw !! "main") /\ valid_record rec.
Proof.
  unfold transform_step.
  destruct (transform_entries _ raw) as [[entries|]|] eqn:He; try discriminate.
  destruct (now_utc P w) as [now w1].
  destruct (transform_finish raw _ entries) as [r|] eqn:Hf; try discriminate.
  intros [= -> <-]. eauto using transform_entries_main, transform_finish_valid.
Qed.

(** ** Flattening *)

Ltac bind_step :=
  match goal with
  | |- context [bind ?m _] =>
      let E := fresh "E" in destruct m eqn:E; cbn [bind]; [|discriminate]
  end.

Lemma py_get_Ret v k a : py_get v k = Ret a -> exists m, v = PDict m /\ a = dict_get m k.
Proof. destruct v; simpl; try discriminate. intros [= <-]. eauto. Qed.

Lemma transform_entries_keys H raw entries :
  transform_entries H raw = Ret (Some entries) ->
  NoDup ((entries ++ [("processed_at", PNone); ("timezone_offset", PNone)]).*1).
Proof.
  unfold transform_entries.
  destruct (negb (truthy (PDict raw)) || _); [discriminate|].
  repeat bind_step. intros [= <-].
  simpl. apply NoDup_ListNoDup. repeat constructor; simpl; intuition discriminate.
Qed.

Lemma transform_finish_lookup raw now entries rec k v :
  NoDup ((entries ++ [("processed_at", PNone); ("timezone_offset", PNone)]).*1) ->
  transform_finish raw now entries = Ret (Some rec) ->
  In (k, v) entries -> rec !! k = Some v.
Proof.
  intros Hnd. unfold transform_finish.
  destruct (_validate_transformed_data _) as [[]|]; cbn [bind negb]; try discriminate.
  intros [= <-] Hin. apply elem_of_list_to_map_1.
  - rewrite fmap_app in Hnd |- *. exact Hnd.
  - apply list_elem_of_In, in_or_app. by left.
Qed.

Lemma transform_entries_required H raw entries :
  transform_entries H raw = Ret (Some entries) ->
  exists main_data sys_data weather_data : pydict,
    raw !! "main" = Some (PDict main_data) /\
    dict_get_default raw "sys" (PDict ∅) = PDict sys_data /\
    py_item0 (dict_get_default raw "weather" (PList [PDict ∅])) = Ret (PDict weather_data) /\
    In ("city_name", dict_get raw "name") entries /\
    In ("country_code", dict_get sys_data "country") entries /\
    In ("temperature", dict_get main_data "temp") entries /\
    In ("humidity", dict_get main_data "humidity") entries /\
    In ("pressure", dict_get main_data "pressure") entries /\
    In ("weather_main", dict_get weather_data "main") entries.
Proof.
  intros He. pose proof (transform_entries_main _ _ _ He) as [main_v Hmain].
  revert He. unfold transform_entries.
  destruct (negb (truthy (PDict raw)) || _); [discriminate|].
  cbv zeta. rewrite (dict_get_default_Some _ _ (PDict ∅) _ Hmain).
  destruct (py_item0 _) as [weather_v|] eqn:Ew; cbn [bind]; [|discriminate].
  destruct (py_get (dict_get_default raw "sys" (PDict ∅)) "country") as [country|] eqn:Ec;
    cbn [bind]; [|discriminate].
  do 2 bind_step.
  destruct (py_get main_v "temp") as [temp|] eqn:Et; cbn [bind]; [|discriminate].
  do 3 bind_step.
  destruct (py_get main_v "pressure") as [pressure|] eqn:Ep; cbn [bind]; [|discriminate].
  destruct (py_get main_v "humidity") as [humidity|] eqn:Eh; cbn [bind]; [|discriminate].
  do 2 bind_step.
  destruct (py_get weather_v "main") as [wmain|] eqn:Em; cbn [bind]; [|discriminate].
  repeat bind_step. intros [= <-].
  apply py_get_Ret in Ec as (sys_data & Hsys & ->).
  apply py_get_Ret in Et as (main_data & -> & ->).
  apply py_get_Ret in Ep as (? & [= <-] & ->).
  apply py_get_Ret in Eh as (? & [= <-] & ->).
  apply py_get_Ret in Em as (weather_data & -> & ->).
  exists main_data, sys_data, weather_data.
  split; [exact Hmain|]. split; [exact Hsys|]. split; [reflexivity|].
  simpl. tauto.
Qed.

Lemma transform_weather_data_flattened H now raw rec :
  transform_weather_data H now raw = Some rec -> flattened_from raw rec.
Proof.
  unfold transform_weather_data.
  destruct (transform_entries H raw) as [[entries|]|] eqn:He; try discriminate.
  destruct (transform_finish raw now entries) as [r|] eqn:Hf; try discriminate.
  intros ->.
  pose proof (fun k v => transform_finish_lookup raw now entries rec k v
                (transform_entries_keys _ _ _ He) Hf) as Hl.
  destruct (transform_entries_required _ _ _ He)
    as (main_data & sys_data & weather_data & H1 & H2 & H3 & I1 & I2 & I3 & I4 & I5 & I6).
  exists main_data, sys_data, weather_data. auto 12.
Qed.

(** ** Enrichment *)

Lemma heat_formula_numbers t h x :
  heat_formula t h = Ret x -> is_number t /\ is_number h.
Proof.
  unfold heat_formula.
  destruct (as_num h) as [nh|] eqn:Eh; cbn [bind]; [|discriminate].
  destruct (num_sub nh (NInt 50)) as [d|]; cbn [bind]; [|discriminate].
  destruct (num_mul (NFloat 0.5) d) as [half|]; cbn [bind]; [|discriminate].
  destruct (as_num t) as [nt|] eqn:Et; cbn [bind]; [|discriminate].
  intros _. split; [destruct t | destruct h]; simpl in *; try discriminate; exact I.
Qed.

(** The formula always yields a float. *)
Lemma heat_formula_float t h x : heat_formula t h = Ret x -> exists f, x = NFloat f.
Proof.
  unfold heat_formula.
  destruct (as_num h) as [nh|]; cbn [bind]; [|discriminate].
  destruct (num_sub nh (NInt 50)) as [d|]; cbn [bind]; [|discriminate].
  destruct (num_mul (NFloat 0.5) d) as [half|] eqn:Em; cbn [bind]; [|discriminate].
  destruct (as_num t) as [nt|]; cbn [bind]; [|discriminate].
  assert (exists g, half = NFloat g) as [g ->].
  { unfold num_mul in Em. cbn [to_float bind] in Em.
    destruct (to_float d); cbn [bind] in Em; [|discriminate].
    injection Em as <-. eauto. }
  unfold num_add. destruct nt; cbn [to_float bind].
  - destruct (float_of_int z); cbn [bind]; [|discriminate]. intros [= <-]. eauto.
  - intros [= <-]. eauto.
Qed.

Lemma heat_index_step_cases t h data d1 :
  heat_index_step t h data = Ret d1 ->
  d1 = data \/
  (is_number t /\ is_number h /\ exists v, d1 = <["heat_index" := v]> data).
Proof.
  unfold heat_index_step.
  destruct (truthy t && truthy h); [|intros [= <-]; by left].
  destruct (heat_formula t h) as [x|] eqn:E; cbn [bind]; [|discriminate].
  intros [= <-]. right. apply heat_formula_numbers in E as [? ?]. eauto.
Qed.

Lemma temperature_step_cases t data d2 :
  temperature_step t data = Ret d2 ->
  d2 = data \/ exists c, d2 = <["temperature_category" := PStr c]> data.
Proof.
  unfold temperature_step.
  destruct (negb (is_None t)); [|intros [= <-]; by left].
  destruct (py_lt_int t 10) as [[]|]; cbn [bind]; try discriminate;
    [intros [= <-]; eauto|].
  destruct (py_le_int t 25) as [[]|]; cbn [bind]; try discriminate;
    [intros [= <-]; eauto|].
  destruct (py_le_int t 35) as [[]|]; cbn [bind]; try discriminate;
    intros [= <-]; eauto.
Qed.

Lemma humidity_step_cases h data d3 :
  humidity_step h data = Ret d3 ->
  d3 = data \/ exists c, d3 = <["humidity_category" := PStr c]> data.
Proof.
  unfold humidity_step.
  destruct (negb (is_None h)); [|intros [= <-]; by left].
  destruct (py_le_int h 30) as [[]|]; cbn [bind]; try discriminate;
    [intros [= <-]; eauto|].
  destruct (py_lt_int h 60) as [[]|]; cbn [bind]; try discriminate;
    intros [= <-]; eauto.
Qed.

Lemma py_lt_int_number v k : is_number v -> exists b, py_lt_int v k = Ret b.
Proof.
  intros Hn. unfold py_lt_int.
  destruct (number_cmp_int v k Hn) as [c ->]. cbn [bind]. eauto.
Qed.

Lemma py_le_int_number v k : is_number v -> exists b, py_le_int v k = Ret b.
Proof.
  intros Hn. unfold py_le_int.
  destruct (number_cmp_int v k Hn) as [c ->]. cbn [bind]. eauto.
Qed.

Lemma temperature_step_number t data :
  is_number t -> exists d2, temperature_step t data = Ret d2.
Proof.
  intros Hn. unfold temperature_step.
  destruct (negb (is_None t)); [|eauto].
  destruct (py_lt_int_number t 10 Hn) as [[] ->]; cbn [bind]; [eauto|].
  destruct (py_le_int_number t 25 Hn) as [[] ->]; cbn [bind]; [eauto|].
  destruct (py_le_int_number t 35 Hn) as [[] ->]; cbn [bind]; eauto.
Qed.

Lemma humidity_step_number h data :
  is_number h -> exists d3, humidity_step h data = Ret d3.
Proof.
  intros Hn. unfold humidity_step.
  destruct (negb (is_None h)); [|eauto].
  destruct (py_le_int_number h 30 Hn) as [[] ->]; cbn [bind]; [eauto|].
  destruct (py_lt_int_number h 60 Hn) as [[] ->]; cbn [bind]; eauto.
Qed.

Lemma lookup_assign_ne k o (d : pydict) k' : k <> k' -> assign k o d !! k' = d !! k'.
Proof. intros. destruct o; simpl; [by rewrite lookup_insert_ne | done]. Qed.

Lemma lookup_assign_is_Some k o (d : pydict) k' :
  is_Some (d !! k') -> is_Some (assign k o d !! k').
Proof.
  intros Hs. destruct o; simpl; [|done].
  destruct (decide (k = k')) as [->|]; [rewrite lookup_insert_eq; eauto|].
  by rewrite lookup_insert_ne.
Qed.

(** Whatever way enrichment ends, the dictionary it returns is the input
    with some of the three derived keys assigned; after an exception at
    most [temperature_category] has been. *)
Lemma add_derived_fields_run_shape data :
  match add_derived_fields_run data with
  | Enriched d =>
      exists hi tc hc,
        d = assign "humidity_category" hc
              (assign "temperature_category" tc (assign "heat_index" hi data))
  | Interrupted _ d =>
      d = data \/ exists c, d = <["temperature_category" := PStr c]> data
  end.
Proof.
  unfold add_derived_fields_run.
  set (t := dict_get_default data "temperature" (PInt 0)).
  set (h := dict_get_default data "humidity" (PInt 0)).
  destruct (heat_index_step t h data) as [d1|] eqn:E1; [|by left].
  destruct (temperature_step t d1) as [d2|] eqn:E2.
  - destruct (humidity_step h d2) as [d3|] eqn:E3.
    + apply heat_index_step_cases in E1. apply temperature_step_cases in E2.
      apply humidity_step_cases in E3.
      destruct E1 as [-> | (_ & _ & v & ->)];
        destruct E2 as [-> | (c & ->)]; destruct E3 as [-> | (c' & ->)];
        first [ by exists None, None, None | by eexists None, None, (Some _)
              | by eexists None, (Some _), None | by eexists None, (Some _), (Some _)
              | by eexists (Some _), None, None | by eexists (Some _), None, (Some _)
              | by eexists (Some _), (Some _), None
              | by eexists (Some _), (Some _), (Some _) ].
    + apply heat_index_step_cases in E1 as [-> | (_ & Hh & _)].
      * apply temperature_step_cases in E2 as [-> | (c & ->)]; eauto.
      * destruct (humidity_step_number h d2 Hh) as [d3 E]. congruence.
  - apply heat_index_step_cases in E1 as [-> | (Ht & _ & _)]; [by left|].
    destruct (temperature_step_number t d1 Ht) as [d2 E]. congruence.
Qed.

(** ** The transformer's contract *)

Lemma extract_weather_data_nonempty {W} (P : platform W) city cc w raw w1 :
  extract_weather_data P city cc w = (Some raw, w1) -> truthy (PDict raw) = true.
Proof.
  unfold extract_weather_data, extract_body.
  destruct (requests_get P _ w) as [[|status [body|]] w0]; try discriminate;
    destruct ((400 <=? status) && (status <? 600)); try discriminate.
  destruct (now_utc P w0) as [now w2].
  destruct body; try discriminate.
  intros [= <- <-]. simpl. rewrite bool_decide_eq_false_2; [reflexivity|].
  apply insert_non_empty.
Qed.

(** C1, as amended. [transform_weather_data] returns a record only if the
    payload has a [main] section and, in the record, city_name,
    country_code, temperature, humidity, pressure and weather_main, taken
    from the payload, are present and not null, the temperature is a number
    in [-100, 60] and the humidity a number in [0, 100]; the city name is
    not required to be non-empty. When the transformer returns no record
    for an extracted
    payload, [run_etl_for_city] returns false without calling the loader:
    the world is the one the transformer left. *)
Theorem transform_returns_only_valid_records :
  (forall (H : host) (now : string) (raw rec : pydict),
      transform_weather_data H now raw = Some rec ->
      is_Some (raw !! "main") /\ valid_record rec /\ flattened_from raw rec) /\
  (forall (W : Type) (P : platform W) (city : string) (p : pipeline)
          (w w1 w2 : W) (raw : pydict),
      extract_weather_data P city "BR" w = (Some raw, w1) ->
      transform_step P raw w1 = (None, w2) ->
      run_etl_for_city P city p w =
        (false, with_stats p (count_successful_extraction (pstats p)), w2)).
Proof.
  split.
  - intros H now raw rec E.
    destruct (transform_weather_data_valid _ _ _ _ E).
    eauto using transform_weather_data_flattened.
  - intros W P city p w w1 w2 raw He Ht. unfold run_etl_for_city.
    rewrite He, (extract_weather_data_nonempty _ _ _ _ _ _ He), Ht. reflexivity.
Qed.

Lemma transform_sample_succeeds :
  match transform_weather_data utc_host "2024-01-01T12:00:01+00:00" sample_data with
  | Some _ => true
  | None => false
  end = true.
Proof. vm_compute. reflexivity. Qed.

(** The sample observation is transformed into a valid record. *)
Lemma transform_sample_is_valid :
  exists rec,
    transform_weather_data utc_host "2024-01-01T12:00:01+00:00" sample_data = Some rec /\
    is_Some (sample_data !! "main") /\ valid_record rec /\
    flattened_from sample_data rec.
Proof.
  pose proof transform_sample_succeeds as Hs.
  destruct (transform_weather_data utc_host "2024-01-01T12:00:01+00:00" sample_data)
    as [rec|] eqn:E; [|discriminate Hs].
  exists rec. split; [reflexivity|].
  exact (proj1 transform_returns_only_valid_records _ _ _ _ E).
Defined.

(** C1 as stated fails: a payload whose city name is the empty string is
    accepted, and the record returned carries the empty name. *)
Lemma transform_accepts_empty_city_name :
  (transform_weather_data utc_host "2024-01-01T12:00:01+00:00"
     (<["name" := PStr ""]> sample_data)) ≫= (.!! "city_name")
  = Some (PStr "").
Proof. vm_compute. reflexivity. Qed.

(** ** Enrichment: frame *)

Lemma add_derived_fields_total data :
  exists data', add_derived_fields data = Ret data'.
Proof. unfold add_derived_fields. destruct (add_derived_fields_run data); eauto. Qed.

Lemma add_derived_fields_shape data data' :
  add_derived_fields data = Ret data' ->
  exists hi tc hc,
    data' = assign "humidity_category" hc
              (assign "temperature_category" tc (assign "heat_index" hi data)).
Proof.
  unfold add_derived_fields. pose proof (add_derived_fields_run_shape data) as Hs.
  destruct (add_derived_fields_run data) as [d | e d]; intros [= <-]; [exact Hs|].
  destruct Hs as [-> | (c & ->)].
  - by exists None, None, None.
  - by eexists None, (Some _), None.
Qed.

(** C9, as amended. [add_derived_fields] never raises; it removes no
    field and changes the value of no field other than heat_index,
    temperature_category and humidity_category, which it adds or
    overwrites; when its body is cut short by an exception, the record it
    returns is the input, possibly with temperature_category already
    assigned. *)
Theorem add_derived_fields_frame (data : pydict) :
  exists data',
    add_derived_fields data = Ret data' /\
    (forall k, ~ In k derived_fields -> data' !! k = data !! k) /\
    (forall k, is_Some (data !! k) -> is_Some (data' !! k)) /\
    (forall k, is_Some (data' !! k) -> is_Some (data !! k) \/ In k derived_fields) /\
    (forall e d, add_derived_fields_run data = Interrupted e d ->
       d = data' /\
       (d = data \/ exists c, d = <["temperature_category" := PStr c]> data)).
Proof.
  destruct (add_derived_fields_total data) as [data' E]. exists data'.
  destruct (add_derived_fields_shape _ _ E) as (hi & tc & hc & ->).
  split; [exact E|]. split; [|split; [|split]].
  - intros k Hk. simpl in Hk.
    rewrite !lookup_assign_ne; [reflexivity|..]; intros <-; tauto.
  - intros k Hk. by do 3 apply lookup_assign_is_Some.
  - intros k Hk. simpl.
    destruct (decide ("humidity_category" = k)); [tauto|].
    destruct (decide ("temperature_category" = k)); [tauto|].
    destruct (decide ("heat_index" = k)); [tauto|].
    left. by rewrite !lookup_assign_ne in Hk.
  - intros e d Hrun. split.
    + unfold add_derived_fields in E. rewrite Hrun in E. by injection E.
    + pose proof (add_derived_fields_run_shape data) as Hs. by rewrite Hrun in Hs.
Qed.

(** C9 as stated fails twice over. The record of the test suite already
    carries humidity_category "Moderada", which enrichment changes to
    "Alta". And on a record whose humidity is an empty string the body is
    cut short by a [TypeError] after temperature_category has been
    assigned, so the record returned is not the input. *)
Lemma add_derived_fields_overwrites_and_keeps_partial_work :
  (sample_transformed_data !! "humidity_category" = Some (PStr "Moderada") /\
   (match add_derived_fields sample_transformed_data with
    | Ret d => d !! "humidity_category"
    | Raise _ => None
    end) = Some (PStr "Alta")) /\
  (let data : pydict := {[ "temperature" := PInt 5; "humidity" := PStr "" ]} in
   exists d, add_derived_fields_run data = Interrupted TypeError d /\
     add_derived_fields data = Ret d /\
     d !! "temperature_category" = Some (PStr "Frio") /\
     data !! "temperature_category" = None).
Proof.
  split; [split; vm_compute; reflexivity|].
  eexists. split; [reflexivity|]. split; [reflexivity|].
  split; vm_compute; reflexivity.
Qed.

(** On the record of the test suite nothing but the derived keys moves. *)
Lemma add_derived_fields_frame_on_sample :
  exists data',
    add_derived_fields sample_transformed_data = Ret data' /\
    data' !! "city_name" = sample_transformed_data !! "city_name".
Proof.
  destruct (add_derived_fields_frame sample_transformed_data)
    as (data' & E & Hframe & _).
  exists data'. split; [exact E|].
  apply Hframe. simpl. intuition discriminate.
Defined.

(** ** Enrichment: heat index *)

Lemma float_cmp_Z_zero_eqb f : float_cmp_Z f 0 = Some Eq -> (f =? 0)%float = true.
Proof.
  unfold float_cmp_Z. rewrite FloatAxioms.eqb_spec.
  destruct (Prim2SF f) as [s | s | | s m e]; try discriminate.
  - intros _. reflexivity.
  - destruct s; discriminate.
  - intros [= H]. exfalso.
    pose proof (Pos2Z.is_pos m). pose proof (Pos2Z.neg_is_neg m).
    destruct (0 <=? e) eqn:He.
    + apply Z.leb_le in He. apply Z.compare_eq in H.
      assert (0 < 2 ^ e) by (apply Z.pow_pos_nonneg; lia).
      destruct s; nia.
    + apply Z.compare_eq in H. destruct s; lia.
Qed.

Lemma zero_is_falsy v : cmp_int v 0 = Ret (Some Eq) -> truthy v = false.
Proof.
  destruct v; simpl; try discriminate.
  - destruct b; [discriminate | reflexivity].
  - intros [= H]. apply Z.compare_eq in H. by subst.
  - intros [= H]. by rewrite float_cmp_Z_zero_eqb.
Qed.

Lemma absent_or_zero_falsy data k :
  absent_or_zero data k -> truthy (dict_get_default data k (PInt 0)) = false.
Proof.
  unfold dict_get_default.
  intros [-> | [-> | (v & -> & Hz)]]; simpl; auto using zero_is_falsy.
Qed.

Lemma add_derived_fields_heat_index data data' d1 :
  add_derived_fields data = Ret data' ->
  heat_index_step (dict_get_default data "temperature" (PInt 0))
    (dict_get_default data "humidity" (PInt 0)) data = Ret d1 ->
  data' !! "heat_index" = d1 !! "heat_index".
Proof.
  unfold add_derived_fields, add_derived_fields_run. intros E E1. rewrite E1 in E.
  destruct (temperature_step _ d1) as [d2|] eqn:E2; [|by injection E as <-].
  apply temperature_step_cases in E2.
  assert (d2 !! "heat_index" = d1 !! "heat_index") as <-
    by (destruct E2 as [-> | (c & ->)]; [done | by rewrite lookup_insert_ne]).
  destruct (humidity_step _ d2) as [d3|] eqn:E3; [|by injection E as <-].
  apply humidity_step_cases in E3. injection E as <-.
  destruct E3 as [-> | (c & ->)]; [done | by rewrite lookup_insert_ne].
Qed.

Lemma float_of_int_small z : -100 <= z <= 100 -> exists f, float_of_int z = Ret f.
Proof.
  intros Hz.
  assert (Hall : forallb
            (fun n => match float_of_int (Z.of_nat n - 100) with
                      | Ret _ => true
                      | Raise _ => false
                      end) (seq 0 201) = true) by (vm_compute; reflexivity).
  rewrite forallb_forall in Hall. specialize (Hall (Z.to_nat (z + 100))).
  replace (Z.of_nat (Z.to_nat (z + 100)) - 100) with z in Hall by lia.
  destruct (float_of_int z); [eauto|].
  discriminate Hall. apply in_seq. lia.
Qed.

Lemma heat_formula_valid t h :
  in_range (-100) 60 t -> in_range 0 100 h -> exists x, heat_formula t h = Ret x.
Proof.
  intros Ht Hh. unfold heat_formula.
  assert (Hsub : exists d, (let! nh := as_num h in num_sub nh (NInt 50)) = Ret d /\
            match d with NInt k => -100 <= k <= 100 | NFloat _ => True end).
  { destruct h; simpl in Hh; try contradiction; cbn [as_num bind num_sub].
    - eexists. split; [reflexivity|]. destruct b; simpl; lia.
    - eexists. split; [reflexivity|]. simpl. lia.
    - eexists. split; [vm_compute (float_of_int 50); reflexivity | exact I]. }
  destruct Hsub as (d & Ed & Hd).
  destruct (as_num h) as [nh|]; cbn [bind] in Ed |- *; [|discriminate].
  rewrite Ed. cbn [bind].
  assert (Hmul : exists g, num_mul (NFloat 0.5) d = Ret (NFloat g)).
  { destruct d as [k|g]; cbn [num_mul to_float bind].
    - destruct (float_of_int_small k Hd) as [fk ->]. cbn [bind]. eauto.
    - eauto. }
  destruct Hmul as (g & ->). cbn [bind].
  destruct t; simpl in Ht; try contradiction; cbn [as_num bind num_add to_float].
  - destruct (float_of_int_small (Z.b2z b)) as [f ->]; [lia|]. cbn [bind]. eauto.
  - destruct (float_of_int_small z) as [f ->]; [lia|]. cbn [bind]. eauto.
  - eauto.
Qed.

(** *** The formula and the rounding, against what the specification
    writes *)

Lemma round_half_even_shift_nearest n j :
  0 <= n -> 0 < j ->
  0 <= round_half_even_shift n j /\
  2 * Z.abs (n - round_half_even_shift n j * 2 ^ j) <= 2 ^ j /\
  (2 * Z.abs (n - round_half_even_shift n j * 2 ^ j) = 2 ^ j ->
   Z.even (round_half_even_shift n j) = true).
Proof.
  intros Hn Hj. unfold round_half_even_shift.
  assert (HD : 0 < 2 ^ j) by (apply Z.pow_pos_nonneg; lia).
  pose proof (Z.div_mod n (2 ^ j) ltac:(lia)) as Hdm.
  pose proof (Z.mod_pos_bound n (2 ^ j) HD) as Hr.
  assert (Hq : 0 <= n / 2 ^ j) by (apply Z.div_pos; lia).
  cbv zeta.
  set (D := 2 ^ j) in *. set (q := n / D) in *. set (r := n mod D) in *.
  clearbody r q D.
  destruct (Z.compare_spec (2 * r) D) as [He | Hlt | Hgt].
  - destruct (Z.even q) eqn:Eq.
    + split; [lia|]. split; [nia | by intros _].
    + split; [lia|]. split; [nia|]. intros _.
      by rewrite Z.even_add, Eq.
  - split; [lia|]. split; [nia | nia].
  - split; [lia|]. split; [nia | nia].
Qed.

(** The model's [round2] is the rounding the specification means. *)
Lemma round2_spec x : rounded_to_2_decimals x (round2 x).
Proof.
  unfold rounded_to_2_decimals, round2.
  destruct (Prim2SF x) as [s | s | | s m e]; try reflexivity.
  destruct (0 <=? e) eqn:He.
  - apply Z.leb_le in He.
    assert (Hp : 0 <= 2 ^ e) by (apply Z.pow_nonneg; lia).
    exists (Z.pos m * 100 * 2 ^ e). split; [nia|]. split; [lia|].
    by destruct (Z.pos m * 100 * 2 ^ e).
  - apply Z.leb_gt in He.
    destruct (round_half_even_shift_nearest (Z.pos m * 100) (- e)) as (H0 & Hn & Ht);
      [lia | lia |].
    exists (round_half_even_shift (Z.pos m * 100) (- e)).
    split; [exact H0|]. split.
    + replace (100 * Z.pos m) with (Z.pos m * 100) by lia. by split.
    + by destruct (round_half_even_shift (Z.pos m * 100) (- e)).
Qed.

(** That rounding determines its result. *)
Lemma rounded_to_2_decimals_unique x y1 y2 :
  rounded_to_2_decimals x y1 -> rounded_to_2_decimals x y2 -> y1 = y2.
Proof.
  unfold rounded_to_2_decimals.
  destruct (Prim2SF x) as [s | s | | s m e]; try congruence.
  intros (k1 & P1 & N1 & ->) (k2 & P2 & N2 & ->).
  assert (k1 = k2) as ->; [|reflexivity].
  destruct (0 <=? e) eqn:He; [congruence|].
  apply Z.leb_gt in He.
  assert (HD : 0 < 2 ^ (- e)) by (apply Z.pow_pos_nonneg; lia).
  destruct N1 as [A1 T1], N2 as [A2 T2].
  set (D := 2 ^ (- e)) in *. set (a := 100 * Z.pos m) in *. clearbody a D.
  destruct (Z.lt_trichotomy k1 k2) as [Hlt | [Heq | Hgt]]; [|exact Heq|].
  - exfalso. assert (k2 = k1 + 1) by nia. subst k2.
    assert (E1 : Z.even k1 = true) by (apply T1; nia).
    assert (E2 : Z.even (k1 + 1) = true) by (apply T2; nia).
    rewrite Z.even_add, E1 in E2. discriminate.
  - exfalso. assert (k1 = k2 + 1) by nia. subst k1.
    assert (E2 : Z.even k2 = true) by (apply T2; nia).
    assert (E1 : Z.even (k2 + 1) = true) by (apply T1; nia).
    rewrite Z.even_add, E2 in E1. discriminate.
Qed.

Lemma float_of_int_exact_table :
  forallb (fun n =>
      let z := Z.of_nat n - 100 in
      match float_of_int z, float_of_int (z - 50) with
      | Ret f, Ret g =>
          PrimFloat.Leibniz.eqb f (Z_truediv z 1)
          && PrimFloat.Leibniz.eqb g (Z_truediv z 1 - 50)%float
      | _, _ => false
      end) (seq 0 201) = true.
Proof. vm_compute. reflexivity. Qed.

(** Small integers convert to floats exactly. *)
Lemma float_of_int_exact z :
  -100 <= z <= 100 ->
  float_of_int z = Ret (Z_truediv z 1) /\
  float_of_int (z - 50) = Ret (Z_truediv z 1 - 50)%float.
Proof.
  intros Hz. pose proof float_of_int_exact_table as Hall.
  rewrite forallb_forall in Hall.
  specialize (Hall (Z.to_nat (z + 100)) ltac:(apply in_seq; lia)).
  cbv zeta in Hall.
  replace (Z.of_nat (Z.to_nat (z + 100)) - 100) with z in Hall by lia.
  destruct (float_of_int z) as [f|]; [|discriminate].
  destruct (float_of_int (z - 50)) as [g|]; [|discriminate].
  apply andb_prop in Hall as [Hf Hg].
  apply FloatAxioms.Leibniz.eqb_spec in Hf, Hg. by subst.
Qed.

(** On validated readings the Python expression has the value of the
    formula the specification writes, in binary64 arithmetic. *)
Lemma heat_formula_validated t h :
  in_range (-100) 60 t -> in_range 0 100 h ->
  exists ft fh,
    float_reading t ft /\ float_reading h fh /\
    heat_formula t h = Ret (NFloat (ft + 0.5 * (fh - 50))%float).
Proof.
  intros Ht Hh. unfold heat_formula.
  assert (Hhalf : exists fh,
             float_reading h fh /\
             (let! nh := as_num h in
              let! d := num_sub nh (NInt 50) in num_mul (NFloat 0.5) d)
             = Ret (NFloat (0.5 * (fh - 50))%float)).
  { destruct h; simpl in Hh; try contradiction.
    - exists (Z_truediv (Z.b2z b) 1). split; [reflexivity|].
      cbn [as_num bind num_sub num_mul to_float].
      destruct (float_of_int_exact (Z.b2z b)) as [_ ->]; [destruct b; simpl; lia|].
      reflexivity.
    - exists (Z_truediv z 1). split; [reflexivity|].
      cbn [as_num bind num_sub num_mul to_float].
      destruct (float_of_int_exact z) as [_ ->]; [lia|]. reflexivity.
    - exists f. split; [reflexivity|].
      cbn [as_num bind num_sub num_mul to_float].
      change (float_of_int 50) with (Ret 50%float : res float). reflexivity. }
  destruct Hhalf as (fh & Hfh & Ehalf).
  destruct (as_num h) as [nh|]; cbn [bind] in Ehalf |- *; [|discriminate].
  destruct (num_sub nh (NInt 50)) as [d|]; cbn [bind] in Ehalf |- *; [|discriminate].
  rewrite Ehalf. cbn [bind].
  destruct t; simpl in Ht; try contradiction.
  - exists (Z_truediv (Z.b2z b) 1), fh. split; [reflexivity|]. split; [exact Hfh|].
    cbn [as_num bind num_add to_float].
    destruct (float_of_int_exact (Z.b2z b)) as [-> _]; [destruct b; simpl; lia|].
    reflexivity.
  - exists (Z_truediv z 1), fh. split; [reflexivity|]. split; [exact Hfh|].
    cbn [as_num bind num_add to_float].
    destruct (float_of_int_exact z) as [-> _]; [lia|]. reflexivity.
  - exists f, fh. split; [reflexivity|]. split; [exact Hfh|]. reflexivity.
Qed.

(** C4. On every record that passed validation, as every record the
    pipeline enriches has, [add_derived_fields] sets heat_index to
    [round(temperature + 0.5 * (humidity - 50), 2)] whenever temperature
    and humidity are both truthy: the stored value is a float, the
    formula being evaluated in binary64 arithmetic on the readings (an
    integer reading standing for the float of the same value) and its
    value rounded to the nearest number of hundredths, ties to the even
    one. On every record, validated or not, heat_index is left as it
    was, unset if it was, when temperature or humidity is absent, null or
    equal to zero. *)
Theorem heat_index_rule (data : pydict) :
  exists data',
    add_derived_fields data = Ret data' /\
    (_validate_transformed_data data = Ret true ->
     forall t h,
       data !! "temperature" = Some t -> data !! "humidity" = Some h ->
       truthy t = true -> truthy h = true ->
       exists ft fh,
         float_reading t ft /\ float_reading h fh /\
         (exists y, rounded_to_2_decimals (ft + 0.5 * (fh - 50))%float y) /\
         (forall y, rounded_to_2_decimals (ft + 0.5 * (fh - 50))%float y ->
            data' !! "heat_index" = Some (PFloat y))) /\
    (absent_or_zero data "temperature" \/ absent_or_zero data "humidity" ->
     data' !! "heat_index" = data !! "heat_index").
Proof.
  destruct (add_derived_fields_total data) as [data' E]. exists data'.
  split; [exact E|]. split.
  - intros Hv t h Et Eh Tt Th.
    apply validate_valid_record in Hv as (_ & (t' & Et' & Ht) & (h' & Eh' & Hh)).
    assert (t' = t) as -> by congruence. assert (h' = h) as -> by congruence.
    destruct (heat_formula_validated t h Ht Hh) as (ft & fh & Rt & Rh & Ef).
    exists ft, fh. split; [exact Rt|]. split; [exact Rh|]. split.
    + eexists. apply round2_spec.
    + intros y Hy.
      rewrite (rounded_to_2_decimals_unique _ _ _ Hy (round2_spec _)).
      rewrite (add_derived_fields_heat_index _ _
                 (<["heat_index" := PFloat (round2 (ft + 0.5 * (fh - 50)))]> data) E).
      * apply lookup_insert_eq.
      * rewrite (dict_get_default_Some _ _ _ _ Et), (dict_get_default_Some _ _ _ _ Eh).
        unfold heat_index_step. rewrite Tt, Th, Ef. reflexivity.
  - intros Hz. apply (add_derived_fields_heat_index _ _ data E).
    unfold heat_index_step.
    destruct Hz as [Hz | Hz]; apply absent_or_zero_falsy in Hz; rewrite Hz;
      [reflexivity | by rewrite andb_false_r].
Qed.

Lemma warm_record_rounding :
  rounded_to_2_decimals (21.37 + 0.5 * (Z_truediv 83 1 - 50))%float 37.87%float /\
  (21.37 + 0.5 * (Z_truediv 83 1 - 50))%float <> 37.87%float.
Proof.
  split.
  - replace 37.87%float with (round2 (21.37 + 0.5 * (Z_truediv 83 1 - 50))%float)
      by (vm_compute; reflexivity).
    apply round2_spec.
  - intros H. apply FloatAxioms.Leibniz.eqb_spec in H. vm_compute in H. discriminate.
Qed.

(** A record without heat_index, at 21.37 degrees and 83 percent: the
    formula gives 37.870000000000005 and the heat index stored is
    37.87. *)
Lemma heat_index_of_warm_record :
  warm_record !! "heat_index" = None /\
  exists data',
    add_derived_fields warm_record = Ret data' /\
    data' !! "heat_index" = Some (PFloat 37.87).
Proof.
  split; [reflexivity|].
  destruct (heat_index_rule warm_record) as (data' & E & Hset & _).
  exists data'. split; [exact E|].
  destruct (Hset eq_refl (PFloat 21.37) (PInt 83) eq_refl eq_refl eq_refl eq_refl)
    as (ft & fh & Rt & Rh & _ & Hy).
  simpl in Rt, Rh. subst ft fh.
  apply Hy. exact (proj1 warm_record_rounding).
Defined.

(** ** Enrichment: temperature category *)

Lemma heat_index_step_valid t h data :
  in_range (-100) 60 t -> in_range 0 100 h ->
  exists d1, heat_index_step t h data = Ret d1.
Proof.
  intros Ht Hh. unfold heat_index_step.
  destruct (truthy t && truthy h); [|eauto].
  destruct (heat_formula_valid t h Ht Hh) as [x ->]. cbn [bind]. eauto.
Qed.

(** The category assigned to a number, by the thresholds. *)
Lemma temperature_step_label t data :
  is_number t ->
  exists c,
    temperature_step t data = Ret (<["temperature_category" := PStr c]> data) /\
    (py_lt_int t 10 = Ret true -> c = "Frio") /\
    (py_int_le 10 t = Ret true -> py_le_int t 25 = Ret true -> c = "Ameno") /\
    (py_int_lt 25 t = Ret true -> py_le_int t 35 = Ret true -> c = "Quente") /\
    (py_int_lt 35 t = Ret true -> c = "Muito Quente").
Proof.
  intros Hn.
  pose proof (cmp_int_Gt_mono t 10 25 ltac:(lia)) as M1.
  pose proof (cmp_int_Gt_mono t 25 35 ltac:(lia)) as M2.
  unfold temperature_step, py_lt_int, py_le_int, py_int_le, py_int_lt.
  replace (is_None t) with false by (destruct t; done || contradiction).
  destruct (number_cmp_int t 10 Hn) as [c10 E10].
  destruct (number_cmp_int t 25 Hn) as [c25 E25].
  destruct (number_cmp_int t 35 Hn) as [c35 E35].
  rewrite E10, E25, E35 in *. cbn [negb bind].
  destruct c10 as [[]|], c25 as [[]|], c35 as [[]|]; cbn [bind];
    try (specialize (M1 eq_refl); discriminate M1);
    try (specialize (M2 eq_refl); discriminate M2);
    eexists; (split; [reflexivity|]);
    repeat split; intros; first [reflexivity | discriminate].
Qed.

(** C5, as amended. For every record that passed validation, enrichment
    assigns temperature_category "Frio" when temp < 10, "Ameno" when
    10 <= temp <= 25, "Quente" when 25 < temp <= 35 and "Muito Quente" when
    temp > 35. *)
Theorem temperature_category_rule (data : pydict) (t : pyval) :
  _validate_transformed_data data = Ret true ->
  data !! "temperature" = Some t ->
  exists data' c,
    add_derived_fields data = Ret data' /\
    data' !! "temperature_category" = Some (PStr c) /\
    (py_lt_int t 10 = Ret true -> c = "Frio") /\
    (py_int_le 10 t = Ret true -> py_le_int t 25 = Ret true -> c = "Ameno") /\
    (py_int_lt 25 t = Ret true -> py_le_int t 35 = Ret true -> c = "Quente") /\
    (py_int_lt 35 t = Ret true -> c = "Muito Quente").
Proof.
  intros Hv Et.
  apply validate_valid_record in Hv as (_ & (t' & Et' & Ht) & (h & Eh & Hh)).
  assert (t' = t) as -> by congruence.
  unfold add_derived_fields, add_derived_fields_run.
  rewrite (dict_get_default_Some _ _ _ _ Et), (dict_get_default_Some _ _ _ _ Eh).
  destruct (heat_index_step_valid t h data Ht Hh) as [d1 ->].
  destruct (temperature_step_label t d1 (in_range_number _ _ _ Ht))
    as (c & -> & Hc).
  destruct (humidity_step_number h (<["temperature_category" := PStr c]> d1)
              (in_range_number _ _ _ Hh)) as [d3 E3].
  rewrite E3. exists d3, c. split; [reflexivity|]. split; [|exact Hc].
  apply humidity_step_cases in E3 as [-> | (c' & ->)].
  - apply lookup_insert_eq.
  - rewrite lookup_insert_ne by done. apply lookup_insert_eq.
Qed.

(** Five degrees is "Frio". *)
Lemma temperature_category_of_cold_record :
  exists data',
    add_derived_fields cold_record = Ret data' /\
    data' !! "temperature_category" = Some (PStr "Frio").
Proof.
  destruct (temperature_category_rule cold_record (PInt 5))
    as (data' & c & E & Hc & Hcold & _); [reflexivity | reflexivity |].
  exists data'. split; [exact E|].
  rewrite Hc, (Hcold eq_refl). reflexivity.
Defined.

(** C5 as stated fails: the label of a cold valid record is "Frio", not
    "Cold"; and a record whose humidity is not a number gets no
    temperature_category at all, the exception raised by the heat index
    ending the enrichment before the category is assigned. *)
Lemma temperature_category_is_not_the_english_label :
  (_validate_transformed_data cold_record = Ret true /\
   py_lt_int (dict_get cold_record "temperature") 10 = Ret true /\
   (match add_derived_fields cold_record with
    | Ret d => d !! "temperature_category"
    | Raise _ => None
    end) = Some (PStr "Frio") /\
   PStr "Frio" <> PStr "Cold") /\
  (let data : pydict := {[ "temperature" := PInt 5; "humidity" := PStr "humid" ]} in
   py_lt_int (dict_get data "temperature") 10 = Ret true /\
   (match add_derived_fields data with
    | Ret d => d !! "temperature_category"
    | Raise _ => None
    end) = None).
Proof.
  split.
  - repeat split; try (vm_compute; reflexivity). discriminate.
  - split; vm_compute; reflexivity.
Qed.

(** ** Timestamps *)

Lemma transform_entries_timestamps H raw entries :
  transform_entries H raw = Ret (Some entries) ->
  exists iso sunrise sunset,
    fromtimestamp_iso H (dict_get_default raw "dt" (PInt 0)) = Ret iso /\
    optional_timestamp H (dict_get_default raw "sys" (PDict ∅)) "sunrise" = Ret sunrise /\
    optional_timestamp H (dict_get_default raw "sys" (PDict ∅)) "sunset" = Ret sunset /\
    In ("data_timestamp", PStr iso) entries /\
    In ("sunrise", sunrise) entries /\
    In ("sunset", sunset) entries.
Proof.
  unfold transform_entries.
  destruct (negb (truthy (PDict raw)) || _); [discriminate|].
  repeat bind_step. intros [= <-].
  do 3 eexists. repeat split; try reflexivity; simpl; tauto.
Qed.

Lemma optional_timestamp_falsy H (sys : pydict) key :
  sys !! key = None \/ (exists v, sys !! key = Some v /\ truthy v = false) ->
  optional_timestamp H (PDict sys) key = Ret PNone.
Proof.
  unfold optional_timestamp, py_get, dict_get. cbn [bind].
  intros [-> | (v & -> & Hv)]; simpl; [reflexivity|]. by rewrite Hv.
Qed.

(** The timestamps of an accepted payload: [data_timestamp] is the
    rendering of [dt] in the local time of the host, without a zone
    designator; sunrise and sunset are null when their epoch is absent or
    falsy (zero). *)
Lemma transform_weather_data_timestamps H now raw rec :
  transform_weather_data H now raw = Some rec ->
  (exists iso,
      fromtimestamp_iso H (dict_get_default raw "dt" (PInt 0)) = Ret iso /\
      rec !! "data_timestamp" = Some (PStr iso)) /\
  (forall (sys : pydict) key,
      key = "sunrise" \/ key = "sunset" ->
      dict_get_default raw "sys" (PDict ∅) = PDict sys ->
      sys !! key = None \/ (exists v, sys !! key = Some v /\ truthy v = false) ->
      rec !! key = Some PNone).
Proof.
  unfold transform_weather_data.
  destruct (transform_entries H raw) as [[entries|]|] eqn:He; try discriminate.
  destruct (transform_finish raw now entries) as [r|] eqn:Hf; try discriminate.
  intros ->.
  pose proof (fun k v => transform_finish_lookup raw now entries rec k v
                (transform_entries_keys _ _ _ He) Hf) as Hlook.
  apply transform_entries_timestamps in He
    as (iso & sunrise & sunset & Hiso & Hsr & Hss & Iiso & Isr & Iss).
  split.
  - exists iso. auto.
  - intros sys key Hkey Hsys Hfalsy. rewrite Hsys in Hsr, Hss.
    destruct Hkey as [-> | ->].
    + rewrite (optional_timestamp_falsy _ _ _ Hfalsy) in Hsr. injection Hsr as <-. auto.
    + rewrite (optional_timestamp_falsy _ _ _ Hfalsy) in Hss. injection Hss as <-. auto.
Qed.

(** C6. On a host three hours west of UTC the sample observation, taken
    at 2022-01-01T00:00:00 UTC, gets the data_timestamp of the host's local
    time, not the UTC rendering the specification asks for. *)
Theorem data_timestamp_follows_host_zone :
  dict_get sample_data "dt" = PInt 1640995200 /\
  utc_iso (PInt 1640995200) = Ret "2022-01-01T00:00:00" /\
  (transform_weather_data brt_host "2024-01-01T12:00:01+00:00" sample_data)
    ≫= (.!! "data_timestamp") = Some (PStr "2021-12-31T21:00:00") /\
  (transform_weather_data utc_host "2024-01-01T12:00:01+00:00" sample_data)
    ≫= (.!! "data_timestamp") = Some (PStr "2022-01-01T00:00:00").
Proof. repeat split; vm_compute; reflexivity. Qed.

(** ** City names *)

Section TextFacts.
Context (X : case_tables).

Lemma lstrip_head s c r : lstrip X s = c :: r -> py_isspace X c = false.
Proof.
  induction s as [|a s IH]; simpl; [discriminate|].
  destruct (py_isspace X a) eqn:E; [exact IH|].
  by intros [= <- <-].
Qed.

Lemma rstrip_head s c r : rstrip X s = c :: r -> exists r', s = c :: r'.
Proof.
  destruct s as [|a s]; simpl; [discriminate|].
  destruct (rstrip X s); [destruct (py_isspace X a)|]; intros [= <- <-] || discriminate; eauto.
Qed.

Lemma rstrip_last s c front : rstrip X s = front ++ [c] -> py_isspace X c = false.
Proof.
  revert front. induction s as [|a s IH]; intros front; simpl.
  - destruct front; discriminate.
  - destruct (rstrip X s) as [|k kept] eqn:E.
    + destruct (py_isspace X a) eqn:Ea.
      * destruct front; discriminate.
      * destruct front as [|x [|y front]]; try discriminate. by intros [= <-].
    + destruct front as [|x front]; [discriminate|].
      simpl. intros [= <- Hk]. by apply (IH front).
Qed.

Lemma strip_no_outer_space s : no_outer_space X (py_strip X s).
Proof.
  unfold py_strip. split.
  - intros c r E. apply rstrip_head in E as [r' E]. by eapply lstrip_head.
  - intros c front E. by eapply rstrip_last.
Qed.

Lemma rstrip_fixed u :
  (forall c front, u = front ++ [c] -> py_isspace X c = false) -> rstrip X u = u.
Proof.
  induction u as [|a u IH]; intros H; simpl; [reflexivity|].
  rewrite IH.
  - destruct u; [|reflexivity]. by rewrite (H a []).
  - intros c front ->. by apply (H c (a :: front)).
Qed.

Lemma strip_fixed u : no_outer_space X u -> py_strip X u = u.
Proof.
  intros [Hfirst Hlast]. unfold py_strip.
  assert (lstrip X u = u) as ->; [|by apply rstrip_fixed].
  destruct u as [|c r]; simpl; [reflexivity|]. by rewrite (Hfirst c r).
Qed.

Lemma lstrip_Forall (Q : N -> Prop) s : Forall Q s -> Forall Q (lstrip X s).
Proof.
  induction 1 as [|a s Ha Hs IH]; simpl; [constructor|].
  destruct (py_isspace X a); [exact IH | by constructor].
Qed.

Lemma rstrip_Forall (Q : N -> Prop) s : Forall Q s -> Forall Q (rstrip X s).
Proof.
  induction 1 as [|a s Ha Hs IH]; simpl; [constructor|].
  revert IH. destruct (rstrip X s); intros IH;
    [destruct (py_isspace X a)|]; try constructor; auto.
Qed.

Lemma strip_Forall (Q : N -> Prop) s : Forall Q s -> Forall Q (py_strip X s).
Proof. intros. by apply rstrip_Forall, lstrip_Forall. Qed.

(** *** Title-casing keeps the ends free of whitespace *)

Section Mappings.
Hypothesis title_of_nonspace : forall c,
  py_isspace X c = false ->
  py_totitle X c <> [] /\ Forall (fun d => py_isspace X d = false) (py_totitle X c).
Hypothesis lower_of_nonspace : forall before c after,
  py_isspace X c = false ->
  py_tolower X before c after <> [] /\
  Forall (fun d => py_isspace X d = false) (py_tolower X before c after).

Lemma title_from_first before p c rest :
  py_isspace X c = false ->
  exists d ds, title_from X before p (c :: rest) = d :: ds /\ py_isspace X d = false.
Proof.
  intros Hc. simpl.
  destruct p.
  - destruct (lower_of_nonspace before c rest Hc) as [Hne Hall].
    destruct (py_tolower X before c rest) as [|d ds]; [done|].
    exists d, (ds ++ title_from X (before ++ [c]) (py_iscased X c) rest).
    split; [reflexivity|]. by inversion Hall.
  - destruct (title_of_nonspace c Hc) as [Hne Hall].
    destruct (py_totitle X c) as [|d ds]; [done|].
    exists d, (ds ++ title_from X (before ++ [c]) (py_iscased X c) rest).
    split; [reflexivity|]. by inversion Hall.
Qed.

Lemma nonempty_last (l : text) :
  l <> [] -> Forall (fun d => py_isspace X d = false) l ->
  exists g d, l = g ++ [d] /\ py_isspace X d = false.
Proof.
  intros Hne Hall. destruct (exists_last Hne) as (g & d & ->).
  exists g, d. split; [reflexivity|].
  apply Forall_app in Hall as [_ Hd]. by inversion Hd.
Qed.

Lemma title_from_last front before p c :
  py_isspace X c = false ->
  exists g d, title_from X before p (front ++ [c]) = g ++ [d] /\ py_isspace X d = false.
Proof.
  intros Hc. revert before p. induction front as [|a front IH]; intros before p.
  - simpl. rewrite app_nil_r. destruct p.
    + destruct (lower_of_nonspace before c [] Hc). by apply nonempty_last.
    + destruct (title_of_nonspace c Hc). by apply nonempty_last.
  - simpl. destruct (IH (before ++ [a]) (py_iscased X a)) as (g & d & -> & Hd).
    eexists (_ ++ g), d. split; [|exact Hd]. by rewrite app_assoc.
Qed.

Lemma title_no_outer_space u :
  no_outer_space X u -> no_outer_space X (py_title X u).
Proof.
  intros [Hfirst Hlast]. unfold py_title. split.
  - intros c r E. destruct u as [|a u]; [discriminate|].
    destruct (title_from_first [] false a u (Hfirst a u eq_refl)) as (d & ds & E' & Hd).
    rewrite E' in E. by injection E as <- _.
  - intros c front E. destruct (exists_last (l := u)) as (f0 & a & ->).
    { intros ->. destruct front; discriminate. }
    destruct (title_from_last f0 [] false a (Hlast a f0 eq_refl)) as (g & d & E' & Hd).
    rewrite E' in E. by apply app_inj_tail in E as [_ <-].
Qed.
End Mappings.

(** *** ASCII text *)

Lemma title_from_ascii before p s :
  Forall (fun c => is_ascii c = true) s -> title_from X before p s = ascii_title p s.
Proof.
  intros Hs. revert before p. induction Hs as [|c s Hc Hs IH]; intros before p; simpl.
  - reflexivity.
  - unfold py_tolower, py_totitle, py_iscased. rewrite Hc, IH. by destruct p.
Qed.

Lemma ascii_title_ascii p s :
  Forall (fun c => is_ascii c = true) s ->
  Forall (fun c => is_ascii c = true) (ascii_title p s).
Proof.
  intros Hs. revert p. induction Hs as [|c s Hc Hs IH]; intros p; simpl; constructor; auto.
  revert Hc. unfold is_ascii, ascii_lower, ascii_upper, ascii_isupper, ascii_islower.
  rewrite !N.ltb_lt.
  destruct p; [destruct (N.leb_spec 65 c), (N.leb_spec c 90)
              | destruct (N.leb_spec 97 c), (N.leb_spec c 122)]; simpl; lia.
Qed.

Lemma ascii_case_stable c :
  ascii_lower (ascii_lower c) = ascii_lower c /\
  ascii_upper (ascii_upper c) = ascii_upper c /\
  ascii_isupper (ascii_lower c) || ascii_islower (ascii_lower c)
    = ascii_isupper c || ascii_islower c /\
  ascii_isupper (ascii_upper c) || ascii_islower (ascii_upper c)
    = ascii_isupper c || ascii_islower c.
Proof.
  unfold ascii_lower, ascii_upper, ascii_isupper, ascii_islower.
  destruct (N.leb_spec 65 c), (N.leb_spec c 90), (N.leb_spec 97 c), (N.leb_spec c 122);
    simpl; try lia;
    repeat match goal with
           | |- context [(?a <=? ?b)%N] => destruct (N.leb_spec a b); simpl; try lia
           end; auto.
Qed.

Lemma ascii_title_stable p s : ascii_title p (ascii_title p s) = ascii_title p s.
Proof.
  revert p. induction s as [|c s IH]; intros p; simpl; [reflexivity|].
  destruct (ascii_case_stable c) as (Hl & Hu & Hcl & Hcu).
  destruct p; [rewrite Hl, Hcl | rewrite Hu, Hcu]; by rewrite IH.
Qed.

Lemma py_title_stable_ascii s :
  Forall (fun c => is_ascii c = true) s ->
  py_title X (py_title X s) = py_title X s /\
  Forall (fun c => is_ascii c = true) (py_title X s).
Proof.
  intros Hs. unfold py_title. rewrite (title_from_ascii _ _ s Hs).
  pose proof (ascii_title_ascii false s Hs) as Ht.
  rewrite (title_from_ascii _ _ _ Ht). split; [apply ascii_title_stable | exact Ht].
Qed.

(** *** The special cases *)

Lemma replacements_cases t :
  replacements !! t = Some sao_paulo \/
  replacements !! t = Some rio_de_janeiro \/
  replacements !! t = Some belo_horizonte \/
  replacements !! t = None.
Proof.
  unfold replacements. cbn [list_to_map foldr uncurry].
  rewrite !lookup_insert, lookup_empty.
  repeat case_decide; auto.
Qed.

Hypothesis a_tilde_cased : py_iscased X 227 = true.
Hypothesis a_tilde_lower : forall before after, py_tolower X before 227%N after = [227%N].

Lemma no_outer_space_ends (a : N) (mid : text) (z : N) :
  py_isspace X a = false -> py_isspace X z = false ->
  no_outer_space X (a :: mid ++ [z]).
Proof.
  intros Ha Hz. split.
  - by intros c r [= <- _].
  - intros c front E. change (a :: mid ++ [z]) with ((a :: mid) ++ [z]) in E.
    by apply app_inj_tail in E as [_ <-].
Qed.

Lemma title_strip_sao_paulo : py_title X (py_strip X sao_paulo) = sao_paulo.
Proof.
  assert (Hl : forall before after, tolower X before 227%N after = [227%N])
    by exact a_tilde_lower.
  assert (Hc : iscased X 227 = true) by exact a_tilde_cased.
  unfold py_title, sao_paulo. cbn. rewrite Hl. cbn. rewrite Hc. reflexivity.
Qed.

Lemma normalize_replaced t v :
  replacements !! t = Some v ->
  normalize_city_name X v = v /\ no_outer_space X v.
Proof.
  intros Hr.
  destruct (replacements_cases t) as [E | [E | [E | E]]];
    rewrite E in Hr; try discriminate; injection Hr as <-.
  - split.
    + unfold normalize_city_name.
      replace (match sao_paulo with [] => [] | _ => _ end)
        with (default (py_title X (py_strip X sao_paulo))
                (replacements !! py_title X (py_strip X sao_paulo))) by reflexivity.
      rewrite title_strip_sao_paulo. reflexivity.
    + by apply (no_outer_space_ends 83 [227; 111; 32; 80; 97; 117; 108]%N 111).
  - split.
    + reflexivity.
    + by apply (no_outer_space_ends 82
                  [105; 111; 32; 100; 101; 32; 74; 97; 110; 101; 105; 114]%N 111).
  - split.
    + reflexivity.
    + by apply (no_outer_space_ends 66
                  [101; 108; 111; 32; 72; 111; 114; 105; 122; 111; 110; 116]%N 101).
Qed.
End TextFacts.

(** C10, as amended. [normalize_city_name] is total; the empty input
    yields the empty string; the result never has leading or trailing
    whitespace; and on every ASCII string it is idempotent. The character
    tables are those of the Python at hand, of which is assumed what holds
    of Unicode: the title-case and lower-case mappings of a code point that
    is not whitespace are not empty and hold no whitespace, and U+00E3 is a
    cased lower-case letter. *)
Theorem normalize_city_name_contract (X : case_tables) :
  (forall c, py_isspace X c = false ->
     py_totitle X c <> [] /\
     Forall (fun d => py_isspace X d = false) (py_totitle X c)) ->
  (forall before c after, py_isspace X c = false ->
     py_tolower X before c after <> [] /\
     Forall (fun d => py_isspace X d = false) (py_tolower X before c after)) ->
  py_iscased X 227 = true ->
  (forall before after, py_tolower X before 227%N after = [227%N]) ->
  normalize_city_name X [] = [] /\
  (forall s, no_outer_space X (normalize_city_name X s)) /\
  (forall s, Forall (fun c => is_ascii c = true) s ->
     normalize_city_name X (normalize_city_name X s) = normalize_city_name X s).
Proof.
  intros Htitle Hlower Hcased Htilde.
  assert (Hnil : no_outer_space X []) by (split; intros c r E; destruct r; discriminate).
  assert (Hnos : forall s, no_outer_space X (py_title X (py_strip X s)))
    by (intros s; apply title_no_outer_space; auto using strip_no_outer_space).
  split; [reflexivity|]. split.
  - intros [|c s]; [exact Hnil|]. unfold normalize_city_name.
    destruct (replacements !! py_title X (py_strip X (c :: s))) as [v|] eqn:E;
      cbn [default from_option id].
    + eapply normalize_replaced; eauto.
    + apply Hnos.
  - intros [|c s] Hs; [reflexivity|]. unfold normalize_city_name at 2 3.
    set (t := py_title X (py_strip X (c :: s))).
    destruct (replacements !! t) as [v|] eqn:E; cbn [default from_option id].
    + eapply normalize_replaced; eauto.
    + destruct (py_title_stable_ascii X (py_strip X (c :: s))) as [Hstable _];
        [by apply strip_Forall|].
      fold t in Hstable. unfold normalize_city_name.
      destruct t as [|d t'] eqn:Et; [reflexivity|].
      rewrite (strip_fixed X (d :: t')) by (rewrite <- Et; apply Hnos).
      by rewrite Hstable, E.
Qed.

(** *** The Latin-1 tables satisfy what the contract assumes *)

Lemma latin1_isspace_range d :
  (128 <= d <= 255)%N -> d <> 0x85%N -> d <> 0xA0%N ->
  isspace latin1_tables d = false.
Proof.
  intros Hd H1 H2. cbn [isspace latin1_tables].
  repeat match goal with
         | |- context [(?a =? ?b)%N] => destruct (N.eqb_spec a b); [lia|]
         | |- context [(?a <=? ?b)%N] => destruct (N.leb_spec a b); try lia
         end.
Qed.

Lemma ascii_case_nonspace c :
  is_ascii c = true -> ascii_isspace c = false ->
  py_isspace latin1_tables (ascii_upper c) = false /\
  py_isspace latin1_tables (ascii_lower c) = false.
Proof.
  unfold py_isspace, is_ascii, ascii_isspace, ascii_upper, ascii_lower,
    ascii_islower, ascii_isupper.
  intros Ha Hs. apply N.ltb_lt in Ha.
  destruct (N.leb_spec 97 c), (N.leb_spec c 122), (N.leb_spec 65 c), (N.leb_spec c 90);
    cbn [andb]; try lia;
    repeat match goal with
           | |- context [(?a <? ?b)%N] => destruct (N.ltb_spec a b); try lia
           | |- context [(?a <=? ?b)%N] => destruct (N.leb_spec a b); try lia
           end; cbn [andb orb] in *; auto;
    revert Hs;
    repeat match goal with
           | |- context [(?a <=? ?b)%N] => destruct (N.leb_spec a b); try lia
           end; cbn [andb orb]; auto.
Qed.

Lemma latin1_title_of_nonspace c :
  py_isspace latin1_tables c = false ->
  py_totitle latin1_tables c <> [] /\
  Forall (fun d => py_isspace latin1_tables d = false) (py_totitle latin1_tables c).
Proof.
  intros Hc. unfold py_totitle. unfold py_isspace in Hc.
  destruct (is_ascii c) eqn:Ha.
  - split; [discriminate|]. repeat constructor. by apply ascii_case_nonspace.
  - unfold is_ascii in Ha. apply N.ltb_ge in Ha. cbn [totitle latin1_tables].
    destruct (N.eqb_spec c 0xB5); [split; [discriminate | by repeat constructor]|].
    destruct (N.eqb_spec c 0xDF); [split; [discriminate | by repeat constructor]|].
    destruct (N.eqb_spec c 0xFF); [split; [discriminate | by repeat constructor]|].
    destruct (N.leb_spec 0xE0 c), (N.leb_spec c 0xFE), (N.eqb_spec c 0xF7); cbn [andb negb];
      (split; [discriminate|]); repeat constructor;
      unfold py_isspace, is_ascii;
      first [ rewrite (proj2 (N.ltb_ge c 128) Ha); exact Hc
            | destruct (N.ltb_spec (c - 32) 128); [lia|];
              apply latin1_isspace_range; lia ].
Qed.

Lemma latin1_lower_of_nonspace before c after :
  py_isspace latin1_tables c = false ->
  py_tolower latin1_tables before c after <> [] /\
  Forall (fun d => py_isspace latin1_tables d = false)
    (py_tolower latin1_tables before c after).
Proof.
  intros Hc. unfold py_tolower. unfold py_isspace in Hc.
  destruct (is_ascii c) eqn:Ha.
  - split; [discriminate|]. repeat constructor. by apply ascii_case_nonspace.
  - unfold is_ascii in Ha. apply N.ltb_ge in Ha. cbn [tolower latin1_tables].
    destruct (N.eqb_spec c 0x130); [split; [discriminate | by repeat constructor]|].
    destruct (N.leb_spec 0xC0 c), (N.leb_spec c 0xDE), (N.eqb_spec c 0xD7); cbn [andb negb];
      (split; [discriminate|]); repeat constructor;
      unfold py_isspace, is_ascii;
      first [ rewrite (proj2 (N.ltb_ge c 128) Ha); exact Hc
            | destruct (N.ltb_spec (c + 32) 128); [lia|];
              apply latin1_isspace_range; lia ].
Qed.

(** With the Latin-1 tables, a padded lower-case name is normalized to the
    same text whether once or twice. *)
Lemma normalize_rio_twice :
  normalize_city_name latin1_tables
    (normalize_city_name latin1_tables (text_of "  rio de janeiro "))
  = normalize_city_name latin1_tables (text_of "  rio de janeiro ").
Proof.
  apply (normalize_city_name_contract latin1_tables
           latin1_title_of_nonspace latin1_lower_of_nonspace
           eq_refl (fun _ _ => eq_refl)).
  vm_compute. repeat constructor.
Defined.

(** C10 as stated fails beyond ASCII. Lower-casing U+0130 after a cased
    letter gives "i" followed by the combining dot U+0307, which is not
    cased; a second pass therefore title-cases the letter after it. *)
Lemma normalize_city_name_not_idempotent :
  normalize_city_name latin1_tables [97; 304; 98]%N = [65; 105; 775; 98]%N /\
  normalize_city_name latin1_tables [65; 105; 775; 98]%N = [65; 105; 775; 66]%N.
Proof. split; vm_compute; reflexivity. Qed.

(** ** Extractor *)

Section ExtractorFacts.
Context {W : Type} (P : platform W).





End ExtractorFacts.



(** ** Loader *)

Section LoaderFacts.
Context {W : Type} (P : platform W).

(** A timestamp string that [fromisoformat] rejects becomes null. *)
Lemma parse_timestamp_unparseable s :
  fromisoformat_ok P (replace_Z s) = false -> parse_timestamp P (PStr s) = PNone.
Proof.
  intros H. unfold parse_timestamp. destruct (truthy (PStr s)); [|reflexivity].
  by rewrite H.
Qed.

(** With a cursor at hand, [load_weather_data] returns a boolean. *)
Lemma load_weather_data_returns data w :
  (exists c, (connection_cursor P w).1 = Ret c) ->
  exists b, (load_weather_data P true data w).1 = Ret b.
Proof.
  intros [c Hc]. unfold load_weather_data.
  destruct (connection_cursor P w) as [r w1]. simpl in Hc. subst r.
  destruct (cursor_execute P _ w1) as [[u|e] w2]; simpl; eauto.
Qed.

(** Without one it raises, whatever the record. *)
Lemma load_weather_data_raises connection data w :
  connection = false \/ (exists e, (connection_cursor P w).1 = Raise e) ->
  (load_weather_data P connection data w).1 = Raise UnboundLocalError.
Proof.
  unfold load_weather_data. intros [-> | [e He]]; [reflexivity|].
  destruct connection; [|reflexivity].
  destruct (connection_cursor P w) as [r w1]. simpl in He. by subst r.
Qed.

(** As long as no insert raises, the batch runs to its end and the count
    is the number of inserts that returned true. *)
Lemma load_loop_counts connection data_list n w :
  Forall (fun r => exists b, r = Ret b) (load_results P connection data_list w) ->
  (load_loop P connection data_list n w).1 =
    Ret (n + Z.of_nat (length (List.filter inserted
                                 (load_results P connection data_list w)))).
Proof.
  revert n w. induction data_list as [|data rest IH]; intros n w; simpl.
  - intros _. f_equal. lia.
  - destruct (load_weather_data P connection data w) as [r w1].
    intros Hall. apply Forall_cons in Hall as [[b ->] Hall].
    rewrite IH by exact Hall. f_equal.
    destruct b; simpl; lia.
Qed.

(** C8. When the loader has no connection, or the connection cannot give
    a cursor (it was lost), [load_weather_data] raises [UnboundLocalError]
    and [load_multiple_records] lets it through: the first record ends
    the batch, no count is returned. *)
Theorem load_multiple_records_raises_without_cursor
  (connection : bool) (data : pydict) (rest : list pydict) (w : W) :
  connection = false \/ (exists e, (connection_cursor P w).1 = Raise e) ->
  (load_weather_data P connection data w).1 = Raise UnboundLocalError /\
  (load_multiple_records P connection (data :: rest) w).1 = Raise UnboundLocalError.
Proof.
  intros H. pose proof (load_weather_data_raises connection data w H) as Hr.
  split; [exact Hr|].
  unfold load_multiple_records. simpl.
  destruct (load_weather_data P connection data w) as [r w1]. simpl in Hr. by subst r.
Qed.
End LoaderFacts.

(** A batch of two records against an unreachable database. *)
Lemma load_batch_on_lost_connection :
  (load_multiple_records (sim_platform utc_host) true
     [sample_transformed_data; cold_record] (sim_start one_city_web false)).1
  = Raise UnboundLocalError.
Proof.
  apply (load_multiple_records_raises_without_cursor (sim_platform utc_host)).
  right. exists DatabaseError. reflexivity.
Defined.

(** ** Orchestrator: one city *)

Section OrchestratorFacts.
Context {W : Type} (P : platform W).

Lemma valid_record_nonempty rec : valid_record rec -> truthy (PDict rec) = true.
Proof.
  intros (_ & (t & Et & _) & _). simpl.
  rewrite bool_decide_eq_false_2; [reflexivity|].
  intros ->. by rewrite lookup_empty in Et.
Qed.

(** C3, as amended. [run_etl_for_city] returns true exactly when the city
    went through all three stages. It increments failed_extractions
    exactly when extraction fails and successful_extractions exactly when
    extraction succeeds, whatever happens afterwards; when transformation
    fails no other counter moves. It increments failed_loads exactly when
    the loader returns false, not when the loader raises, and
    successful_loads exactly when the city fully succeeds. Nothing else
    in the pipeline state changes. *)
Theorem run_etl_for_city_counters (city : string) (p : pipeline) (w : W) :
  let '(ok, p', _) := run_etl_for_city P city p w in
  let o := outcome_for_city P city p w in
  let s := pstats p in
  let s' := pstats p' in
  (ok = true <-> o = FullySucceeded) /\
  failed_extractions s' =
    failed_extractions s + (match o with ExtractionFailed => 1 | _ => 0 end) /\
  successful_extractions s' =
    successful_extractions s + (match o with ExtractionFailed => 0 | _ => 1 end) /\
  failed_loads s' = failed_loads s + (match o with LoadFailed => 1 | _ => 0 end) /\
  successful_loads s' =
    successful_loads s + (match o with FullySucceeded => 1 | _ => 0 end) /\
  total_runs s' = total_runs s /\
  last_run s' = last_run s /\
  last_success s' = last_success s /\
  cities p' = cities p /\
  connection p' = connection p.
Proof.
  unfold run_etl_for_city, outcome_for_city.
  destruct (extract_weather_data P city "BR" w) as [[raw|] w1] eqn:E.
  - rewrite (extract_weather_data_nonempty _ _ _ _ _ _ E). cbn [negb].
    destruct (transform_step P raw w1) as [[rec|] w2] eqn:Et.
    + destruct (transform_step_valid _ _ _ _ _ Et) as [_ Hv].
      rewrite (valid_record_nonempty _ Hv). cbn [negb].
      destruct (add_derived_fields_total rec) as [final ->].
      cbn [with_stats connection].
      destruct (load_weather_data P (connection p) final w2) as [[[]|e] w3];
        cbn; repeat split; intros; try lia; try discriminate; try reflexivity;
        congruence.
    + cbn. repeat split; intros; try lia; try discriminate; reflexivity.
  - cbn. repeat split; intros; try lia; try discriminate; reflexivity.
Qed.
End OrchestratorFacts.

(** On the simulated platform the known city goes through and each
    success counter moves by one. *)
Lemma run_known_city_counters :
  let '(ok, p', _) :=
    run_etl_for_city (sim_platform utc_host) "Sao Paulo"
      {| cities := ["Sao Paulo"]; pstats := initial_stats; connection := true |}
      (sim_start one_city_web true) in
  ok = true /\
  successful_extractions (pstats p') = 1 /\ successful_loads (pstats p') = 1 /\
  failed_extractions (pstats p') = 0 /\ failed_loads (pstats p') = 0.
Proof.
  pose proof (run_etl_for_city_counters (sim_platform utc_host) "Sao Paulo"
                {| cities := ["Sao Paulo"]; pstats := initial_stats; connection := true |}
                (sim_start one_city_web true)) as H.
  destruct (run_etl_for_city _ _ _ _) as [[ok p'] w'].
  cbn zeta in H.
  assert (Ho : outcome_for_city (sim_platform utc_host) "Sao Paulo"
                 {| cities := ["Sao Paulo"]; pstats := initial_stats; connection := true |}
                 (sim_start one_city_web true) = FullySucceeded)
    by (vm_compute; reflexivity).
  rewrite Ho in H. destruct H as (Hok & Hfe & Hse & Hfl & Hsl & _).
  split; [by apply Hok|]. cbn in Hfe, Hse, Hfl, Hsl. lia.
Defined.

(** C3 as stated fails: when extraction succeeds and transformation
    fails (here the payload has no [main] section), the counter of
    successful extractions has been incremented all the same. *)
Lemma transform_failure_counts_an_extraction :
  let web := fun _ : string => Reply 200 (Some (PDict {[ "name" := PStr "Nowhere" ]})) in
  let p := {| cities := ["Nowhere"]; pstats := initial_stats; connection := true |} in
  outcome_for_city (sim_platform utc_host) "Nowhere" p (sim_start web true)
    = TransformationFailed /\
  (let '(ok, p', _) :=
     run_etl_for_city (sim_platform utc_host) "Nowhere" p (sim_start web true) in
   ok = false /\ successful_extractions (pstats p') = 1).
Proof. split; vm_compute; auto. Qed.

(** ** Orchestrator: the run report *)

Section ReportFacts.
Context {W : Type} (P : platform W).


Lemma city_runs_cities todo p w : (city_runs P todo p w).*1 = todo.
Proof.
  revert p w. induction todo as [|city rest IH]; intros p w; simpl; [reflexivity|].
  destruct (run_etl_for_city P city p w) as [[ok p1] w1].
  destruct (now_utc P w1) as [now w2]. simpl. by rewrite IH.
Qed.




(** The loop counts the calls that returned true, and its map holds
    for each city the result of the last call made for it. *)
Lemma city_loop_outcomes todo results n p w c :
  let '(results', n', _, _) := city_loop P todo results n p w in
  cr_success <$> results' !! c =
    match last_outcome c (city_runs P todo p w) with
    | Some b => Some b
    | None => cr_success <$> results !! c
    end /\
  n' = n + Z.of_nat (length (List.filter snd (city_runs P todo p w))).
Proof.
  revert results n p w. induction todo as [|city rest IH]; intros results n p w.
  - simpl. split; [reflexivity | lia].
  - cbn [city_loop city_runs].
    destruct (run_etl_for_city P city p w) as [[ok p1] w1].
    destruct (now_utc P w1) as [now w2].
    specialize (IH (<[city := {| cr_success := ok; cr_timestamp := isoformat_utc now |}]>
                      results)
                  (if ok then n + 1 else n) p1 (sleep P 1 w2)).
    destruct (city_loop P rest _ _ p1 _) as [[[results' n'] p'] w'].
    destruct IH as [Hr Hn]. cbn [last_outcome List.filter snd]. split.
    + rewrite Hr. destruct (last_outcome c (city_runs P rest p1 (sleep P 1 w2)));
        [reflexivity|].
      destruct (decide (city = c)) as [-> | Hne].
      * by rewrite lookup_insert_eq.
      * by rewrite lookup_insert_ne.
    + rewrite Hn. destruct ok; cbn [length]; lia.
Qed.





End ReportFacts.



Lemma run_two_cities_example :
  let '(r, _, _) :=
    run_full_etl (sim_platform utc_host) (new_pipeline ["Sao Paulo"; "Atlantis"])
      (sim_start one_city_web true) in
  successful_cities r = Some 1 /\ total_cities r = Some 2 /\ success r = true /\
  (cr_success <$> (city_results r ≫= (.!! "Sao Paulo"))) = Some true /\
  (cr_success <$> (city_results r ≫= (.!! "Atlantis"))) = Some false.
Proof. vm_compute. auto. Qed.


(** ** Validation, both ways *)

Lemma in_range_py_between lo v hi : in_range lo hi v -> py_between lo v hi = Ret true.
Proof.
  unfold py_between, py_int_le, py_le_int.
  destruct v; simpl; try contradiction.
  - intros [H1 H2].
    destruct (Z.compare_spec (Z.b2z b) lo); try lia; simpl;
      destruct (Z.compare_spec (Z.b2z b) hi); try lia; reflexivity.
  - intros [H1 H2].
    destruct (Z.compare_spec z lo); try lia; simpl;
      destruct (Z.compare_spec z hi); try lia; reflexivity.
  - intros [[-> | ->] [-> | ->]]; reflexivity.
Qed.

Lemma valid_record_validate data :
  valid_record data -> _validate_transformed_data data = Ret true.
Proof.
  intros (Hreq & (t & Et & Ht) & (h & Eh & Hh)).
  unfold _validate_transformed_data.
  destruct (existsb _ required_fields) eqn:Hex.
  - apply existsb_exists in Hex as (field & Hin & Hnone).
    destruct (Hreq field Hin) as (v & Ev & Hv).
    unfold dict_get in Hnone. rewrite Ev in Hnone.
    destruct v; simpl in Hnone; congruence.
  - rewrite (dict_get_default_Some _ _ _ _ Et), (dict_get_default_Some _ _ _ _ Eh).
    rewrite (in_range_py_between _ _ _ Ht). cbn [bind negb].
    rewrite (in_range_py_between _ _ _ Hh). reflexivity.
Qed.

Lemma py_between_raises lo v hi e :
  py_between lo v hi = Raise e -> e = TypeError /\ ~ is_number v.
Proof.
  unfold py_between, py_int_le, py_le_int.
  destruct v; simpl; try (intros [= <-]; split; [reflexivity | tauto]).
  - destruct (Z.b2z b ?= lo); simpl; discriminate.
  - destruct (z ?= lo); simpl; discriminate.
  - destruct (float_cmp_Z f lo) as [[]|]; simpl; discriminate.
Qed.

Lemma py_between_not_number lo v hi :
  ~ is_number v -> py_between lo v hi = Raise TypeError.
Proof. destruct v; simpl; tauto || reflexivity. Qed.

(** X1. [_validate_transformed_data] returns true exactly on the records
    whose six required fields are present and not null and whose
    temperature and humidity are numbers within [-100, 60] and [0, 100]. It
    returns false as soon as a required field is missing or null. It does
    not return at all, raising [TypeError], when the required fields are
    there but the temperature is not a number (a string, say); no other
    exception is possible, and one means that the temperature or the
    humidity is not a number. *)
Theorem validate_transformed_data_outcomes (data : pydict) :
  (_validate_transformed_data data = Ret true <-> valid_record data) /\
  ((exists field, In field required_fields /\
      (data !! field = None \/ data !! field = Some PNone)) ->
   _validate_transformed_data data = Ret false) /\
  ((forall field, In field required_fields -> is_None (dict_get data field) = false) ->
   ~ is_number (dict_get data "temperature") ->
   _validate_transformed_data data = Raise TypeError) /\
  (forall e, _validate_transformed_data data = Raise e ->
     e = TypeError /\
     (~ is_number (dict_get data "temperature") \/ ~ is_number (dict_get data "humidity"))).
Proof.
  split; [split; [apply validate_valid_record | apply valid_record_validate]|].
  unfold _validate_transformed_data. split; [|split].
  - intros (field & Hin & Hnull).
    assert (existsb (fun field => is_None (dict_get data field)) required_fields = true)
      as ->; [|reflexivity].
    apply existsb_exists. exists field. split; [exact Hin|].
    unfold dict_get. by destruct Hnull as [-> | ->].
  - intros Hreq Ht.
    assert (existsb (fun field => is_None (dict_get data field)) required_fields = false)
      as ->.
    { destruct (existsb _ required_fields) eqn:Hex; [|reflexivity].
      apply existsb_exists in Hex as (field & Hin & Hnone).
      by rewrite (Hreq field Hin) in Hnone. }
    assert (Et : dict_get_default data "temperature" (PInt 0) = dict_get data "temperature").
    { specialize (Hreq "temperature" ltac:(simpl; auto)).
      unfold dict_get_default, dict_get in *.
      by destruct (data !! "temperature"). }
    rewrite Et, (py_between_not_number _ _ _ Ht). reflexivity.
  - intros e.
    destruct (existsb _ required_fields) eqn:Hex; [discriminate|].
    assert (Hreq : forall field, In field required_fields ->
              dict_get_default data field (PInt 0) = dict_get data field).
    { intros field Hin.
      destruct (is_None (dict_get data field)) eqn:E.
      - assert (existsb (fun field => is_None (dict_get data field)) required_fields = true)
          by (apply existsb_exists; eauto).
        congruence.
      - unfold dict_get_default, dict_get in *. by destruct (data !! field). }
    rewrite (Hreq "temperature"), (Hreq "humidity") by (simpl; auto).
    destruct (py_between (-100) _ 60) as [[]|e1] eqn:E1; cbn [bind negb].
    + destruct (py_between 0 _ 100) as [[]|e2] eqn:E2; cbn [bind negb]; try discriminate.
      intros [= <-]. apply py_between_raises in E2 as [-> Hn]. auto.
    + discriminate.
    + intros [= <-]. apply py_between_raises in E1 as [-> Hn]. auto.
Qed.

(** ** The transformer, inverted *)

Lemma py_get_dict (m : pydict) k : py_get (PDict m) k = Ret (dict_get m k).
Proof. reflexivity. Qed.

Lemma transform_entries_inv H raw entries :
  transform_entries H raw = Ret (Some entries) ->
  exists main_data sys_data coord_data wind_data clouds_data weather_data : pydict,
  exists iso sunrise sunset,
    raw !! "main" = Some (PDict main_data) /\
    dict_get_default raw "sys" (PDict ∅) = PDict sys_data /\
    dict_get_default raw "coord" (PDict ∅) = PDict coord_data /\
    dict_get_default raw "wind" (PDict ∅) = PDict wind_data /\
    dict_get_default raw "clouds" (PDict ∅) = PDict clouds_data /\
    py_item0 (dict_get_default raw "weather" (PList [PDict ∅])) = Ret (PDict weather_data) /\
    fromtimestamp_iso H (dict_get_default raw "dt" (PInt 0)) = Ret iso /\
    optional_timestamp H (PDict sys_data) "sunrise" = Ret sunrise /\
    optional_timestamp H (PDict sys_data) "sunset" = Ret sunset /\
    entries = flattened_entries raw main_data sys_data coord_data wind_data
                clouds_data weather_data iso sunrise sunset.
Proof.
  intros He. pose proof (transform_entries_main _ _ _ He) as [main_v Hmain].
  revert He. unfold transform_entries.
  destruct (negb (truthy (PDict raw)) || _); [discriminate|].
  cbv zeta. rewrite (dict_get_default_Some _ _ (PDict ∅) _ Hmain).
  destruct (py_item0 _) as [weather_v|] eqn:Ew; cbn [bind]; [|discriminate].
  destruct (dict_get_default raw "sys" (PDict ∅)) as [| | | | | |sys_data|] eqn:Hsys;
    try discriminate.
  destruct (dict_get_default raw "coord" (PDict ∅)) as [| | | | | |coord_data|] eqn:Hcoord;
    try discriminate.
  destruct main_v as [| | | | | |main_data|]; try discriminate.
  destruct weather_v as [| | | | | |weather_data|]; try discriminate.
  destruct (dict_get_default raw "wind" (PDict ∅)) as [| | | | | |wind_data|] eqn:Hwind;
    try discriminate.
  destruct (dict_get_default raw "clouds" (PDict ∅)) as [| | | | | |clouds_data|] eqn:Hclouds;
    try discriminate.
  rewrite !py_get_dict. cbn [bind].
  destruct (fromtimestamp_iso H _) as [iso|] eqn:Hiso; cbn [bind]; [|discriminate].
  destruct (optional_timestamp H (PDict sys_data) "sunrise") as [sunrise|] eqn:Hsr;
    cbn [bind]; [|discriminate].
  destruct (optional_timestamp H (PDict sys_data) "sunset") as [sunset|] eqn:Hss;
    cbn [bind]; [|discriminate].
  intros [= <-].
  exists main_data, sys_data, coord_data, wind_data, clouds_data, weather_data,
    iso, sunrise, sunset.
  repeat (split; [assumption || reflexivity|]). reflexivity.
Qed.

Lemma transform_entries_intro H raw
    (main_data sys_data coord_data wind_data clouds_data weather_data : pydict)
    iso sunrise sunset :
  raw !! "main" = Some (PDict main_data) ->
  dict_get_default raw "sys" (PDict ∅) = PDict sys_data ->
  dict_get_default raw "coord" (PDict ∅) = PDict coord_data ->
  dict_get_default raw "wind" (PDict ∅) = PDict wind_data ->
  dict_get_default raw "clouds" (PDict ∅) = PDict clouds_data ->
  py_item0 (dict_get_default raw "weather" (PList [PDict ∅])) = Ret (PDict weather_data) ->
  fromtimestamp_iso H (dict_get_default raw "dt" (PInt 0)) = Ret iso ->
  optional_timestamp H (PDict sys_data) "sunrise" = Ret sunrise ->
  optional_timestamp H (PDict sys_data) "sunset" = Ret sunset ->
  transform_entries H raw =
    Ret (Some (flattened_entries raw main_data sys_data coord_data wind_data
                 clouds_data weather_data iso sunrise sunset)).
Proof.
  intros Hmain Hsys Hcoord Hwind Hclouds Hweather Hiso Hsr Hss.
  unfold transform_entries.
  assert (truthy (PDict raw) = true) as ->.
  { simpl. rewrite bool_decide_eq_false_2; [reflexivity|].
    intros ->. by rewrite lookup_empty in Hmain. }
  rewrite bool_decide_eq_true_2 by (rewrite Hmain; eauto).
  cbn [negb orb]. cbv zeta.
  rewrite (dict_get_default_Some _ _ (PDict ∅) _ Hmain).
  rewrite Hweather, Hsys, Hcoord, Hwind, Hclouds. cbn [bind].
  rewrite !py_get_dict. cbn [bind].
  rewrite Hiso, Hsr, Hss. reflexivity.
Qed.

(** The dictionary built from the flattened entries and the two last
    ones holds each entry under its key, and nothing else. *)
Lemma flattened_record_lookup raw now
    (main_data sys_data coord_data wind_data clouds_data weather_data : pydict)
    iso sunrise sunset :
  let entries :=
    flattened_entries raw main_data sys_data coord_data wind_data
      clouds_data weather_data iso sunrise sunset
    ++ [("processed_at", PStr now); ("timezone_offset", dict_get raw "timezone")] in
  fst <$> entries = transformed_keys /\
  (forall k v, In (k, v) entries -> (list_to_map entries : pydict) !! k = Some v) /\
  (forall k, is_Some ((list_to_map entries : pydict) !! k) <-> In k transformed_keys) /\
  size (list_to_map entries : pydict) = 27%nat.
Proof.
  intros entries.
  assert (Hkeys : fst <$> entries = transformed_keys) by reflexivity.
  assert (Hnd : NoDup (fst <$> entries)).
  { rewrite Hkeys. apply NoDup_ListNoDup.
    repeat constructor; simpl; intuition discriminate. }
  split; [exact Hkeys|]. split; [|split].
  - intros k v Hin. apply elem_of_list_to_map_1; [exact Hnd|].
    by apply list_elem_of_In.
  - intros k. rewrite <- Hkeys, <- list_elem_of_In. split.
    + intros [v Hv]. apply elem_of_list_to_map_2 in Hv.
      apply list_elem_of_fmap. by exists (k, v).
    + intros Hk. apply list_elem_of_fmap in Hk as ([k' v] & -> & Hin).
      exists v. by apply elem_of_list_to_map_1.
  - by rewrite (map_size_list_to_map entries Hnd).
Qed.

Lemma transform_finish_Some raw now entries rec :
  transform_finish raw now entries = Ret (Some rec) ->
  rec = list_to_map
          (entries ++ [("processed_at", PStr now);
                       ("timezone_offset", dict_get raw "timezone")]).
Proof.
  unfold transform_finish.
  destruct (_validate_transformed_data _) as [[]|]; cbn [bind negb]; try discriminate.
  intros [= E]. exact (eq_sym E).
Qed.

(** What a record returned by the transformer is: the sections of the
    payload are dictionaries, the timestamps were rendered, the record
    holds the flattened entries followed by the two last ones and nothing
    else, and it passed validation. *)
Lemma transform_weather_data_inv H now raw rec :
  transform_weather_data H now raw = Some rec ->
  exists main_data sys_data coord_data wind_data clouds_data weather_data : pydict,
  exists iso sunrise sunset,
    raw !! "main" = Some (PDict main_data) /\
    dict_get_default raw "sys" (PDict ∅) = PDict sys_data /\
    dict_get_default raw "coord" (PDict ∅) = PDict coord_data /\
    dict_get_default raw "wind" (PDict ∅) = PDict wind_data /\
    dict_get_default raw "clouds" (PDict ∅) = PDict clouds_data /\
    py_item0 (dict_get_default raw "weather" (PList [PDict ∅])) = Ret (PDict weather_data) /\
    fromtimestamp_iso H (dict_get_default raw "dt" (PInt 0)) = Ret iso /\
    optional_timestamp H (PDict sys_data) "sunrise" = Ret sunrise /\
    optional_timestamp H (PDict sys_data) "sunset" = Ret sunset /\
    (forall k v,
        In (k, v)
          (flattened_entries raw main_data sys_data coord_data wind_data
             clouds_data weather_data iso sunrise sunset
           ++ [("processed_at", PStr now);
               ("timezone_offset", dict_get raw "timezone")]) ->
        rec !! k = Some v) /\
    (forall k, is_Some (rec !! k) <-> In k transformed_keys) /\
    size rec = 27%nat /\
    valid_record rec.
Proof.
  unfold transform_weather_data.
  destruct (transform_entries H raw) as [[entries|]|] eqn:He; try discriminate.
  destruct (transform_finish raw now entries) as [r|] eqn:Hf; try discriminate.
  intros ->.
  pose proof (transform_finish_valid _ _ _ _ Hf) as Hv.
  apply transform_finish_Some in Hf.
  apply transform_entries_inv in He
    as (main_data & sys_data & coord_data & wind_data & clouds_data & weather_data
        & iso & sunrise & sunset & H1 & H2 & H3 & H4 & H5 & H6 & H7 & H8 & H9 & ->).
  exists main_data, sys_data, coord_data, wind_data, clouds_data, weather_data,
    iso, sunrise, sunset.
  repeat (split; [assumption|]).
  destruct (flattened_record_lookup raw now main_data sys_data coord_data wind_data
              clouds_data weather_data iso sunrise sunset) as (_ & Hl & Hk & Hsize).
  rewrite Hf. split; [exact Hl|]. split; [exact Hk|]. split; [exact Hsize|].
  by rewrite <- Hf.
Qed.

Lemma in_range_not_None lo hi v : in_range lo hi v -> v <> PNone.
Proof. destruct v; simpl; congruence || tauto. Qed.

Lemma lookup_not_None (rec : pydict) field v :
  (forall f, In f required_fields -> exists v, rec !! f = Some v /\ v <> PNone) ->
  In field required_fields -> rec !! field = Some v -> v <> PNone.
Proof. intros Hreq Hin Ev. destruct (Hreq field Hin) as (v' & Ev' & Hv'). congruence. Qed.

Lemma transform_acceptable H now raw rec :
  transform_weather_data H now raw = Some rec -> acceptable H raw.
Proof.
  intros Hrec.
  apply transform_weather_data_inv in Hrec
    as (main_data & sys_data & coord_data & wind_data & clouds_data & weather_data
        & iso & sunrise & sunset & H1 & H2 & H3 & H4 & H5 & H6 & H7 & H8 & H9
        & Hl & _ & _ & Hv).
  exists main_data, sys_data, coord_data, wind_data, clouds_data, weather_data.
  rewrite H7, H8, H9.
  repeat (split; [assumption || reflexivity|]).
  destruct Hv as (Hreq & (t & Et & Ht) & (h & Eh & Hh)).
  split; [apply (lookup_not_None rec "city_name" _ Hreq);
          [simpl; auto | apply Hl; simpl; auto]|].
  split; [apply (lookup_not_None rec "country_code" _ Hreq);
          [simpl; auto | apply Hl; simpl; auto]|].
  split; [apply (lookup_not_None rec "pressure" _ Hreq);
          [simpl; auto 7 | apply Hl; simpl; auto 12]|].
  split; [apply (lookup_not_None rec "weather_main" _ Hreq);
          [simpl; auto 7 | apply Hl; simpl; auto 16]|].
  split.
  - rewrite (Hl "temperature" (dict_get main_data "temp")) in Et by (simpl; auto 8).
    by injection Et as <-.
  - rewrite (Hl "humidity" (dict_get main_data "humidity")) in Eh by (simpl; auto 13).
    by injection Eh as <-.
Qed.

Lemma acceptable_transform H now raw :
  acceptable H raw -> is_Some (transform_weather_data H now raw).
Proof.
  intros (main_data & sys_data & coord_data & wind_data & clouds_data & weather_data
          & H1 & H2 & H3 & H4 & H5 & H6 & H7 & H8 & H9
          & Nname & Ncountry & Npressure & Nweather & Rt & Rh).
  destruct (fromtimestamp_iso H _) as [iso|] eqn:Hiso; [|discriminate].
  destruct (optional_timestamp H (PDict sys_data) "sunrise") as [sunrise|] eqn:Hsr;
    [|discriminate].
  destruct (optional_timestamp H (PDict sys_data) "sunset") as [sunset|] eqn:Hss;
    [|discriminate].
  unfold transform_weather_data.
  rewrite (transform_entries_intro H raw main_data sys_data coord_data wind_data
             clouds_data weather_data iso sunrise sunset) by assumption.
  destruct (flattened_record_lookup raw now main_data sys_data coord_data wind_data
              clouds_data weather_data iso sunrise sunset) as (_ & Hl & _ & _).
  unfold transform_finish. rewrite valid_record_validate; [cbn [bind negb]; eauto|].
  split; [|split].
  - intros field Hin. simpl in Hin.
    destruct Hin as [<- | [<- | [<- | [<- | [<- | [<- | []]]]]]];
      eexists; (split; [apply Hl; simpl; auto 16|]);
      eauto using in_range_not_None.
  - eexists. split; [apply Hl; simpl; auto 8 | exact Rt].
  - eexists. split; [apply Hl; simpl; auto 13 | exact Rh].
Qed.

(** X2. [transform_weather_data] returns a record exactly for the
    payloads whose [main] and [sys] sections are dictionaries; whose
    [coord], [wind] and [clouds] sections are dictionaries when present;
    whose [weather] list has a dictionary as first element; whose
    observation time, sunrise and sunset can be rendered; and whose name,
    country, pressure and weather group are not null, with a temperature
    within [-100, 60] and a humidity within [0, 100]. Every other payload
    gives [None]. *)
Theorem transform_accepts_exactly (H : host) (now : string) (raw : pydict) :
  is_Some (transform_weather_data H now raw) <-> acceptable H raw.
Proof.
  split.
  - intros [rec Hrec]. by eapply transform_acceptable.
  - apply acceptable_transform.
Qed.

(** ** The shape of a record *)

Ltac inv_transform Hrec :=
  apply transform_weather_data_inv in Hrec
    as (main_data & sys_data & coord_data & wind_data & clouds_data & weather_data
        & iso & sunrise & sunset & Hmain & Hsys & Hcoord & Hwind & Hclouds & Hweather
        & Hiso & Hsunrise & Hsunset & Hlook & Hkeys & Hsize & Hvalid).

(** X3. Every record [transform_weather_data] returns has the same 27
    keys, those of its dictionary display, and none of the derived ones;
    the identifier, name, visibility, extraction time and zone offset are
    those of the payload, null when the payload lacks them, and
    [processed_at] is the clock reading taken during the call. *)
Theorem transformed_record_shape (H : host) (now : string) (raw rec : pydict) :
  transform_weather_data H now raw = Some rec ->
  (forall k, is_Some (rec !! k) <-> In k transformed_keys) /\
  size rec = 27%nat /\
  (forall k, In k derived_fields -> rec !! k = None) /\
  rec !! "city_id" = Some (dict_get raw "id") /\
  rec !! "city_name" = Some (dict_get raw "name") /\
  rec !! "visibility" = Some (dict_get raw "visibility") /\
  rec !! "extracted_at" = Some (dict_get raw "extracted_at") /\
  rec !! "timezone_offset" = Some (dict_get raw "timezone") /\
  rec !! "processed_at" = Some (PStr now).
Proof.
  intros Hrec. inv_transform Hrec.
  split; [exact Hkeys|]. split; [exact Hsize|]. split.
  - intros k Hk. apply eq_None_not_Some. rewrite Hkeys.
    simpl in Hk. destruct Hk as [<- | [<- | [<- | []]]]; simpl; intuition discriminate.
  - repeat split; apply Hlook; simpl; auto 30.
Qed.

(** The sample observation has the 27 keys. *)
Lemma transformed_sample_shape :
  exists rec,
    transform_weather_data utc_host "2024-01-01T12:00:01+00:00" sample_data = Some rec /\
    size rec = 27%nat /\ rec !! "heat_index" = None /\
    rec !! "processed_at" = Some (PStr "2024-01-01T12:00:01+00:00").
Proof.
  pose proof transform_sample_succeeds as Hs.
  destruct (transform_weather_data utc_host "2024-01-01T12:00:01+00:00" sample_data)
    as [rec|] eqn:E; [|discriminate Hs].
  exists rec. split; [reflexivity|].
  destruct (transformed_record_shape _ _ _ _ E) as (_ & Hsize & Hd & _ & _ & _ & _ & _ & Hp).
  split; [exact Hsize|]. split; [apply Hd; simpl; auto | exact Hp].
Defined.

(** X4. In a record returned by [transform_weather_data] each measurement
    is the value found under its key in its section of the payload, the
    section being a dictionary: an absent [coord], [wind] or [clouds]
    section, or a key absent from its section, gives a null field. The
    three weather fields are read from the first element of the
    [weather] list. *)
Theorem transformed_record_sections (H : host) (now : string) (raw rec : pydict) :
  transform_weather_data H now raw = Some rec ->
  (forall section key field, In (section, key, field) section_fields ->
     exists m : pydict,
       dict_get_default raw section (PDict ∅) = PDict m /\
       rec !! field = Some (dict_get m key) /\
       (m !! key = None -> rec !! field = Some PNone)) /\
  (forall section key field, In (section, key, field) section_fields ->
     raw !! section = None -> rec !! field = Some PNone) /\
  (exists first rest (m : pydict),
     raw !! "weather" = Some (PList (first :: rest)) /\ first = PDict m /\
     forall key field, In (key, field) weather_fields ->
       rec !! field = Some (dict_get m key)).
Proof.
  intros Hrec. inv_transform Hrec.
  assert (Hmain' : dict_get_default raw "main" (PDict ∅) = PDict main_data)
    by (by apply dict_get_default_Some).
  assert (Hsec : forall section key field, In (section, key, field) section_fields ->
            exists m : pydict,
              dict_get_default raw section (PDict ∅) = PDict m /\
              rec !! field = Some (dict_get m key)).
  { intros section key field Hin. simpl in Hin.
    repeat (destruct Hin as [[= <- <- <-] | Hin];
            [eexists; split; [eassumption | apply Hlook; simpl; auto 30]|]).
    destruct Hin. }
  split; [|split].
  - intros section key field Hin. destruct (Hsec _ _ _ Hin) as (m & Hm & Hf).
    exists m. split; [exact Hm|]. split; [exact Hf|].
    intros Hk. rewrite Hf. unfold dict_get. by rewrite Hk.
  - intros section key field Hin Hnone. destruct (Hsec _ _ _ Hin) as (m & Hm & Hf).
    unfold dict_get_default in Hm. rewrite Hnone in Hm. simpl in Hm.
    injection Hm as <-. rewrite Hf. reflexivity.
  - destruct Hvalid as (Hreq & _).
    destruct (raw !! "weather") as [w|] eqn:Ew.
    + unfold dict_get_default in Hweather. rewrite Ew in Hweather. simpl in Hweather.
      destruct w as [| | | | |[|first rest]| |]; try discriminate.
      * destruct s; discriminate.
      * injection Hweather as ->. exists (PDict weather_data), rest, weather_data.
        split; [reflexivity|]. split; [reflexivity|].
        intros key field Hin. simpl in Hin.
        repeat (destruct Hin as [[= <- <-] | Hin]; [apply Hlook; simpl; auto 30|]).
        destruct Hin.
    + exfalso. unfold dict_get_default in Hweather. rewrite Ew in Hweather.
      simpl in Hweather. injection Hweather as <-.
      destruct (Hreq "weather_main") as (v & Ev & Hv); [simpl; auto 7|].
      rewrite (Hlook "weather_main" (dict_get ∅ "main")) in Ev by (simpl; auto 30).
      injection Ev as <-. by apply Hv.
Qed.

(** The sample observation: the wind speed is that of the payload, and
    the gust, which the payload does not give, is null. *)
Lemma transformed_sample_wind :
  exists rec,
    transform_weather_data utc_host "2024-01-01T12:00:01+00:00" sample_data = Some rec /\
    rec !! "wind_speed" = Some (PFloat 3.5) /\ rec !! "wind_gust" = Some PNone.
Proof.
  pose proof transform_sample_succeeds as Hs.
  destruct (transform_weather_data utc_host "2024-01-01T12:00:01+00:00" sample_data)
    as [rec|] eqn:E; [|discriminate Hs].
  exists rec. split; [reflexivity|].
  destruct (transformed_record_sections _ _ _ _ E) as (Hsec & _ & _).
  destruct (Hsec "wind" "speed" "wind_speed") as (m & Hm & Hf & _); [simpl; auto 20|].
  destruct (Hsec "wind" "gust" "wind_gust") as (m' & Hm' & _ & Hg); [simpl; auto 20|].
  vm_compute in Hm. injection Hm as <-.
  vm_compute in Hm'. injection Hm' as <-.
  split; [exact Hf | by apply Hg].
Defined.

(** ** The three timestamps *)

Lemma optional_timestamp_truthy H (sys : pydict) key :
  truthy (dict_get sys key) = true ->
  optional_timestamp H (PDict sys) key =
    let! iso := fromtimestamp_iso H (dict_get sys key) in Ret (PStr iso).
Proof.
  intros Ht. unfold optional_timestamp, py_get, py_get_default. cbn [bind]. rewrite Ht.
  unfold dict_get, dict_get_default in *.
  destruct (sys !! key); [reflexivity | discriminate Ht].
Qed.

Lemma optional_timestamp_not_truthy H (sys : pydict) key :
  truthy (dict_get sys key) = false -> optional_timestamp H (PDict sys) key = Ret PNone.
Proof.
  intros Ht. unfold optional_timestamp, py_get. cbn [bind]. by rewrite Ht.
Qed.

Lemma fromtimestamp_iso_epoch H iso :
  fromtimestamp_iso H (PInt 0) = Ret iso -> iso = isoformat (local_utcoffset H 0) 0.
Proof.
  unfold fromtimestamp_iso. cbn [timeval_of bind].
  change (negb ((- 2 ^ 63 <=? 0) && (0 <? 2 ^ 63))) with false. cbv iota.
  change (0 + local_utcoffset H 0) with (local_utcoffset H 0).
  destruct (_ && _); [|discriminate]. by intros [= <-].
Qed.

(** X5. In a record returned by [transform_weather_data],
    [data_timestamp] is the rendering of the payload's [dt] by
    [datetime.fromtimestamp], in the local time of the host and without a
    zone designator; a payload without [dt] gets the rendering of the epoch.
    [sunrise] and [sunset] are rendered the same way when the [sys] section
    gives a truthy value for them, and are null when it gives none, a null
    or a zero. *)
Theorem transformed_record_timestamps (H : host) (now : string) (raw rec : pydict) :
  transform_weather_data H now raw = Some rec ->
  (exists iso,
      fromtimestamp_iso H (dict_get_default raw "dt" (PInt 0)) = Ret iso /\
      rec !! "data_timestamp" = Some (PStr iso)) /\
  (raw !! "dt" = None ->
   rec !! "data_timestamp" = Some (PStr (isoformat (local_utcoffset H 0) 0))) /\
  (forall key, key = "sunrise" \/ key = "sunset" ->
     exists sys : pydict,
       dict_get_default raw "sys" (PDict ∅) = PDict sys /\
       (truthy (dict_get sys key) = false -> rec !! key = Some PNone) /\
       (truthy (dict_get sys key) = true ->
        exists iso,
          fromtimestamp_iso H (dict_get sys key) = Ret iso /\
          rec !! key = Some (PStr iso))).
Proof.
  intros Hrec. inv_transform Hrec.
  assert (Hdt : rec !! "data_timestamp" = Some (PStr iso))
    by (apply Hlook; simpl; auto 30).
  split; [eauto|]. split.
  - intros Hnone. unfold dict_get_default in Hiso. rewrite Hnone in Hiso.
    simpl in Hiso. apply fromtimestamp_iso_epoch in Hiso. by rewrite Hdt, Hiso.
  - assert (Hopt : forall key v,
              optional_timestamp H (PDict sys_data) key = Ret v ->
              (truthy (dict_get sys_data key) = false -> v = PNone) /\
              (truthy (dict_get sys_data key) = true ->
               exists iso, fromtimestamp_iso H (dict_get sys_data key) = Ret iso /\
                           v = PStr iso)).
    { intros key v Hv. split; intros Ht.
      - rewrite (optional_timestamp_not_truthy _ _ _ Ht) in Hv. by injection Hv.
      - rewrite (optional_timestamp_truthy _ _ _ Ht) in Hv.
        destruct (fromtimestamp_iso H (dict_get sys_data key)) as [i|];
          cbn [bind] in Hv; [|discriminate].
        injection Hv as <-. eauto. }
    intros key [-> | ->]; exists sys_data; (split; [exact Hsys|]).
    + destruct (Hopt _ _ Hsunrise) as [Hf Ht].
      assert (Hr : rec !! "sunrise" = Some sunrise) by (apply Hlook; simpl; auto 30).
      split.
      * intros E. by rewrite Hr, (Hf E).
      * intros E. destruct (Ht E) as (i & Hi & ->). eauto.
    + destruct (Hopt _ _ Hsunset) as [Hf Ht].
      assert (Hr : rec !! "sunset" = Some sunset) by (apply Hlook; simpl; auto 30).
      split.
      * intros E. by rewrite Hr, (Hf E).
      * intros E. destruct (Ht E) as (i & Hi & ->). eauto.
Qed.

Lemma transform_without_dt_succeeds :
  match transform_weather_data utc_host "2024-01-01T12:00:01+00:00"
          (delete "dt" sample_data) with
  | Some _ => true
  | None => false
  end = true.
Proof. vm_compute. reflexivity. Qed.

(** Without [dt] the sample observation is dated at the epoch. *)
Lemma transformed_sample_without_dt :
  exists rec,
    transform_weather_data utc_host "2024-01-01T12:00:01+00:00"
      (delete "dt" sample_data) = Some rec /\
    rec !! "data_timestamp" = Some (PStr "1970-01-01T00:00:00").
Proof.
  pose proof transform_without_dt_succeeds as Hs.
  destruct (transform_weather_data utc_host "2024-01-01T12:00:01+00:00"
              (delete "dt" sample_data)) as [rec|] eqn:E; [|discriminate Hs].
  exists rec. split; [reflexivity|].
  destruct (transformed_record_timestamps _ _ _ _ E) as (_ & Hdt & _).
  apply Hdt. reflexivity.
Defined.

(** ** Payloads that are refused *)

(** X6. [transform_weather_data] returns [None] for a payload without
    a [main], [sys] or [weather] entry or without a name; for a payload
    in which [main], [sys], [coord], [wind] or [clouds] is present but is
    not a dictionary (a JSON null, for one); for one whose [weather] entry
    has no first element that is a dictionary (the empty list); and for
    one whose [dt] [datetime.fromtimestamp] does not take (a null, a
    string, an instant outside the years 1 to 9999). *)
Theorem transform_refuses_malformed (H : host) (now : string) (raw : pydict) :
  malformed H raw -> transform_weather_data H now raw = None.
Proof.
  intros Hbad.
  destruct (transform_weather_data H now raw) as [rec|] eqn:Hrec; [|reflexivity].
  exfalso. inv_transform Hrec.
  assert (Hmain' : dict_get_default raw "main" (PDict ∅) = PDict main_data)
    by (by apply dict_get_default_Some).
  destruct Hvalid as (Hreq & _).
  assert (Hnn : forall field v, In field required_fields ->
            In (field, v)
              (flattened_entries raw main_data sys_data coord_data wind_data
                 clouds_data weather_data iso sunrise sunset
               ++ [("processed_at", PStr now);
                   ("timezone_offset", dict_get raw "timezone")]) ->
            v <> PNone).
  { intros field v Hin Hv. destruct (Hreq field Hin) as (v' & Ev & Hv').
    rewrite (Hlook _ _ Hv) in Ev. by injection Ev as ->. }
  destruct Hbad as [(key & Hin & Hnone) | [(section & v & Hin & Hv & Hnd) | [(w & Hw & Hi) | Hdt]]].
  - simpl in Hin. destruct Hin as [<- | [<- | [<- | [<- | []]]]].
    + congruence.
    + unfold dict_get_default in Hsys. rewrite Hnone in Hsys. injection Hsys as <-.
      apply (Hnn "country_code" (dict_get ∅ "country")); simpl; auto 30.
    + unfold dict_get_default in Hweather. rewrite Hnone in Hweather.
      injection Hweather as <-.
      apply (Hnn "weather_main" (dict_get ∅ "main")); simpl; auto 30.
    + apply (Hnn "city_name" (dict_get raw "name")); [simpl; auto 30 | simpl; auto 30|].
      unfold dict_get. by rewrite Hnone.
  - apply Hnd. simpl in Hin.
    destruct Hin as [<- | [<- | [<- | [<- | [<- | []]]]]];
      match goal with
      | E : dict_get_default raw ?s _ = PDict _ |- _ =>
          unfold dict_get_default in E; rewrite Hv in E; simpl in E; by rewrite E
      end.
  - unfold dict_get_default in Hweather. rewrite Hw in Hweather. simpl in Hweather.
    by apply (Hi weather_data).
  - by rewrite Hiso in Hdt.
Qed.

(** A null [wind] section makes the transformer refuse the sample
    observation. *)
Lemma transform_refuses_null_wind :
  transform_weather_data utc_host "2024-01-01T12:00:01+00:00"
    (<["wind" := PNone]> sample_data) = None.
Proof.
  apply transform_refuses_malformed. right. left.
  exists "wind", PNone. split; [simpl; auto|]. split; [reflexivity|]. simpl. tauto.
Defined.

(** ** Enrichment: humidity category *)

Lemma float_cmp_Z_Eq_Gt f k1 k2 :
  k1 < k2 -> float_cmp_Z f k2 = Some Eq -> float_cmp_Z f k1 = Some Gt.
Proof.
  unfold float_cmp_Z. intros Hk.
  destruct (Prim2SF f) as [s | s | | s m e]; try discriminate.
  - destruct k1, k2; simpl; intros; try reflexivity; try discriminate; lia.
  - destruct s; discriminate.
  - intros [= H]. f_equal. destruct (0 <=? e) eqn:He.
    + apply Z.compare_eq in H. apply Z.compare_gt_iff. lia.
    + apply Z.compare_eq in H. apply Z.compare_gt_iff. apply Z.leb_gt in He.
      assert (0 < 2 ^ (- e)) by (apply Z.pow_pos_nonneg; lia).
      nia.
Qed.

Lemma cmp_int_Eq_Gt v k1 k2 :
  k1 < k2 -> cmp_int v k2 = Ret (Some Eq) -> cmp_int v k1 = Ret (Some Gt).
Proof.
  intros Hk. destruct v; simpl; try discriminate.
  - intros [= H]. do 2 f_equal. apply Z.compare_eq in H. apply Z.compare_gt_iff. lia.
  - intros [= H]. do 2 f_equal. apply Z.compare_eq in H. apply Z.compare_gt_iff. lia.
  - intros [= H]. f_equal. eauto using float_cmp_Z_Eq_Gt.
Qed.

Lemma number_not_None v : is_number v -> is_None v = false.
Proof. destruct v; simpl; tauto || reflexivity. Qed.

(** The category assigned to a number, by the thresholds. *)
Lemma humidity_step_label h data :
  is_number h ->
  exists c,
    humidity_step h data = Ret (<["humidity_category" := PStr c]> data) /\
    (py_le_int h 30 = Ret true -> c = "Baixa") /\
    (py_int_lt 30 h = Ret true -> py_lt_int h 60 = Ret true -> c = "Moderada") /\
    (py_int_le 60 h = Ret true -> c = "Alta") /\
    (c = "Baixa" \/ c = "Moderada" \/ c = "Alta").
Proof.
  intros Hn.
  pose proof (cmp_int_Gt_mono h 30 60 ltac:(lia)) as M1.
  pose proof (cmp_int_Eq_Gt h 30 60 ltac:(lia)) as M2.
  unfold humidity_step, py_lt_int, py_le_int, py_int_le, py_int_lt.
  rewrite (number_not_None h Hn).
  destruct (number_cmp_int h 30 Hn) as [c30 E30].
  destruct (number_cmp_int h 60 Hn) as [c60 E60].
  rewrite E30, E60 in *. cbn [negb bind].
  destruct c30 as [[]|], c60 as [[]|]; cbn [bind];
    try (specialize (M1 eq_refl); discriminate M1);
    try (specialize (M2 eq_refl); discriminate M2);
    eexists; (split; [reflexivity|]);
    (split; [|split; [|split]]); intros; try reflexivity; try discriminate; auto.
Qed.

(** X7. On a record that passed validation, enrichment assigns
    humidity_category "Baixa" when humidity <= 30, "Moderada" when
    30 < humidity < 60 and "Alta" when humidity >= 60, and nothing
    else. *)
Theorem humidity_category_rule (data : pydict) (h : pyval) :
  _validate_transformed_data data = Ret true ->
  data !! "humidity" = Some h ->
  exists data' c,
    add_derived_fields data = Ret data' /\
    data' !! "humidity_category" = Some (PStr c) /\
    (py_le_int h 30 = Ret true -> c = "Baixa") /\
    (py_int_lt 30 h = Ret true -> py_lt_int h 60 = Ret true -> c = "Moderada") /\
    (py_int_le 60 h = Ret true -> c = "Alta") /\
    (c = "Baixa" \/ c = "Moderada" \/ c = "Alta").
Proof.
  intros Hv Eh.
  apply validate_valid_record in Hv as (_ & (t & Et & Ht) & (h' & Eh' & Hh)).
  assert (h' = h) as -> by congruence.
  unfold add_derived_fields, add_derived_fields_run.
  rewrite (dict_get_default_Some _ _ _ _ Et), (dict_get_default_Some _ _ _ _ Eh).
  destruct (heat_index_step_valid t h data Ht Hh) as [d1 ->].
  destruct (temperature_step_number t d1 (in_range_number _ _ _ Ht)) as [d2 ->].
  destruct (humidity_step_label h d2 (in_range_number _ _ _ Hh)) as (c & -> & Hc).
  exists (<["humidity_category" := PStr c]> d2), c.
  split; [reflexivity|]. split; [apply lookup_insert_eq | exact Hc].
Qed.

(** Sixty-five percent is "Alta". *)
Lemma humidity_category_of_cold_record :
  exists data',
    add_derived_fields cold_record = Ret data' /\
    data' !! "humidity_category" = Some (PStr "Alta").
Proof.
  destruct (humidity_category_rule cold_record (PInt 65))
    as (data' & c & E & Hc & _ & _ & Hhigh & _); [reflexivity | reflexivity |].
  exists data'. split; [exact E|].
  rewrite Hc, (Hhigh eq_refl). reflexivity.
Defined.

(** ** Enrichment of a transformed record: the parameters of the insert *)

Lemma insert_columns_split : insert_columns = transformed_keys ++ derived_fields.
Proof. reflexivity. Qed.

Lemma heat_index_step_truthy t h data d1 :
  heat_index_step t h data = Ret d1 ->
  (truthy t && truthy h = true /\ exists v, d1 = <["heat_index" := v]> data) \/
  (truthy t && truthy h = false /\ d1 = data).
Proof.
  unfold heat_index_step. destruct (truthy t && truthy h).
  - destruct (heat_formula t h); cbn [bind]; [|discriminate]. intros [= <-]. eauto.
  - intros [= <-]. auto.
Qed.

(** On a valid record no step of the enrichment raises. *)
Lemma valid_record_enriched rec :
  valid_record rec -> exists final, add_derived_fields_run rec = Enriched final.
Proof.
  intros (_ & (t & Et & Ht) & (h & Eh & Hh)). unfold add_derived_fields_run.
  rewrite (dict_get_default_Some _ _ _ _ Et), (dict_get_default_Some _ _ _ _ Eh).
  destruct (heat_index_step_valid t h rec Ht Hh) as [d1 ->].
  destruct (temperature_step_number t d1 (in_range_number _ _ _ Ht)) as [d2 ->].
  destruct (humidity_step_number h d2 (in_range_number _ _ _ Hh)) as [d3 ->].
  eauto.
Qed.

(** X8. A record returned by [transform_weather_data] is always enriched
    to the end, no exception cutting the enrichment short. The enriched
    record has the 27 fields of the transformed one, unchanged, and the two
    categories; it has heat_index exactly when the temperature and the
    humidity are both different from zero. So it holds every named
    parameter of the loader's INSERT statement, save that heat_index is
    missing for an observation of exactly zero degrees or zero percent. *)
Theorem enriched_record_columns (H : host) (now : string) (raw rec : pydict) :
  transform_weather_data H now raw = Some rec ->
  exists final t h,
    add_derived_fields_run rec = Enriched final /\
    add_derived_fields rec = Ret final /\
    rec !! "temperature" = Some t /\ rec !! "humidity" = Some h /\
    (forall k, In k transformed_keys -> final !! k = rec !! k) /\
    (forall c, is_Some (final !! c) -> In c insert_columns) /\
    (forall c, In c insert_columns -> c <> "heat_index" -> is_Some (final !! c)) /\
    (is_Some (final !! "heat_index") <-> truthy t = true /\ truthy h = true).
Proof.
  intros Hrec. inv_transform Hrec.
  destruct Hvalid as (_ & (t & Et & Ht) & (h & Eh & Hh)).
  assert (Hnone : forall k, In k derived_fields -> rec !! k = None).
  { intros k Hk. apply eq_None_not_Some. rewrite Hkeys.
    simpl in Hk. destruct Hk as [<- | [<- | [<- | []]]]; simpl; intuition discriminate. }
  unfold add_derived_fields, add_derived_fields_run.
  rewrite (dict_get_default_Some _ _ _ _ Et), (dict_get_default_Some _ _ _ _ Eh).
  destruct (heat_index_step_valid t h rec Ht Hh) as [d1 E1]. rewrite E1.
  destruct (temperature_step_label t d1 (in_range_number _ _ _ Ht)) as (tc & -> & _).
  destruct (humidity_step_label h (<["temperature_category" := PStr tc]> d1)
              (in_range_number _ _ _ Hh)) as (hc & -> & _).
  eexists _, t, h. split; [reflexivity|]. split; [reflexivity|].
  split; [exact Et|]. split; [exact Eh|].
  assert (Hd1 : forall k, k <> "heat_index" -> d1 !! k = rec !! k).
  { intros k Hk. apply heat_index_step_truthy in E1 as [(_ & v & ->) | (_ & ->)];
      [by rewrite lookup_insert_ne | reflexivity]. }
  assert (Hfinal : forall k, k <> "humidity_category" -> k <> "temperature_category" ->
            (<["humidity_category" := PStr hc]>
               (<["temperature_category" := PStr tc]> d1)) !! k = d1 !! k).
  { intros k H1 H2. by rewrite !lookup_insert_ne. }
  split; [|split; [|split]].
  - intros k Hk. rewrite Hfinal, Hd1; [reflexivity|..];
      intros ->; apply Hkeys in Hk; eauto;
      (rewrite Hnone in Hk; [by destruct Hk | simpl; auto]).
  - intros c Hc. rewrite insert_columns_split. apply in_or_app.
    destruct (decide (c = "humidity_category")) as [-> | N1]; [right; simpl; auto|].
    destruct (decide (c = "temperature_category")) as [-> | N2]; [right; simpl; auto|].
    destruct (decide (c = "heat_index")) as [-> | N3]; [right; simpl; auto|].
    left. apply Hkeys. by rewrite Hfinal, Hd1 in Hc.
  - intros c Hc Hne. rewrite insert_columns_split in Hc. apply in_app_or in Hc as [Hc | Hc].
    + destruct (decide (c = "humidity_category")) as [-> | N1];
        [rewrite lookup_insert_eq; eauto|].
      destruct (decide (c = "temperature_category")) as [-> | N2];
        [rewrite lookup_insert_ne, lookup_insert_eq by done; eauto|].
      rewrite Hfinal, Hd1 by done. by apply Hkeys.
    + simpl in Hc. destruct Hc as [<- | [<- | [<- | []]]].
      * done.
      * rewrite lookup_insert_ne, lookup_insert_eq by done; eauto.
      * rewrite lookup_insert_eq; eauto.
  - rewrite Hfinal by done.
    apply heat_index_step_truthy in E1 as [(Htr & v & ->) | (Htr & ->)].
    + rewrite lookup_insert_eq. apply andb_true_iff in Htr. split; eauto.
    + rewrite Hnone by (simpl; auto). split.
      * intros [? ?]. discriminate.
      * intros [T1 T2]. rewrite T1, T2 in Htr. discriminate.
Qed.

Lemma transform_freezing_temperature :
  (transform_weather_data utc_host "2024-01-01T12:00:01+00:00" freezing_data)
    ≫= (.!! "temperature") = Some (PInt 0).
Proof. vm_compute. reflexivity. Qed.

(** At exactly zero degrees the enriched record has no heat_index. *)
Lemma enriched_freezing_record_lacks_heat_index :
  exists rec final,
    transform_weather_data utc_host "2024-01-01T12:00:01+00:00" freezing_data = Some rec /\
    add_derived_fields rec = Ret final /\
    final !! "heat_index" = None /\
    is_Some (final !! "temperature_category").
Proof.
  pose proof transform_freezing_temperature as Ht.
  destruct (transform_weather_data utc_host "2024-01-01T12:00:01+00:00" freezing_data)
    as [rec|] eqn:E; [|discriminate Ht].
  simpl in Ht.
  destruct (enriched_record_columns _ _ _ _ E)
    as (final & t & h & _ & Ef & Et & _ & _ & _ & Hcols & Hhi).
  exists rec, final. split; [reflexivity|]. split; [exact Ef|]. split.
  - apply eq_None_not_Some. intros Hs. apply Hhi in Hs as [Htr _].
    rewrite Ht in Et. injection Et as <-. discriminate Htr.
  - apply Hcols; [simpl; auto 40 | discriminate].
Defined.

(** ** Enrichment: the heat index of integer readings *)

Lemma heat_formula_integers_table :
  forallb (fun t => forallb (fun h =>
      match heat_formula (PInt (Z.of_nat t - 100)) (PInt (Z.of_nat h)) with
      | Ret (NFloat f) =>
          PrimFloat.Leibniz.eqb (round2 f)
            (Z_truediv (2 * (Z.of_nat t - 100) + Z.of_nat h - 50) 2)
      | _ => false
      end) (seq 0 101)) (seq 0 161) = true.
Proof. vm_compute. reflexivity. Qed.

Lemma heat_formula_integers t h :
  -100 <= t <= 60 -> 0 <= h <= 100 ->
  exists f,
    heat_formula (PInt t) (PInt h) = Ret (NFloat f) /\
    round2 f = Z_truediv (2 * t + h - 50) 2.
Proof.
  intros Ht Hh. pose proof heat_formula_integers_table as Hall.
  rewrite forallb_forall in Hall. specialize (Hall (Z.to_nat (t + 100))).
  rewrite forallb_forall in Hall.
  specialize (Hall ltac:(apply in_seq; lia) (Z.to_nat h) ltac:(apply in_seq; lia)).
  replace (Z.of_nat (Z.to_nat (t + 100)) - 100) with t in Hall by lia.
  replace (Z.of_nat (Z.to_nat h)) with h in Hall by lia.
  destruct (heat_formula (PInt t) (PInt h)) as [[z|f]|]; try discriminate.
  exists f. split; [reflexivity|]. by apply FloatAxioms.Leibniz.eqb_spec.
Qed.

(** X9. When the temperature and the humidity of a record are integers
    different from zero, within [-100, 60] and [0, 100], the heat index
    enrichment stores is a float, exactly (2 * temperature + humidity - 50) / 2:
    neither the floating-point arithmetic of the formula nor the rounding
    to two decimals loses anything. *)
Theorem heat_index_of_integer_readings (data : pydict) (t h : Z) :
  data !! "temperature" = Some (PInt t) ->
  data !! "humidity" = Some (PInt h) ->
  -100 <= t <= 60 -> 0 <= h <= 100 -> t <> 0 -> h <> 0 ->
  exists data',
    add_derived_fields data = Ret data' /\
    data' !! "heat_index" = Some (PFloat (Z_truediv (2 * t + h - 50) 2)).
Proof.
  intros Et Eh Ht Hh Nt Nh.
  destruct (add_derived_fields_total data) as [data' E]. exists data'.
  split; [exact E|].
  destruct (heat_formula_integers t h Ht Hh) as (f & Ef & Hr).
  rewrite (add_derived_fields_heat_index _ _
             (<["heat_index" := PFloat (Z_truediv (2 * t + h - 50) 2)]> data) E).
  - apply lookup_insert_eq.
  - rewrite (dict_get_default_Some _ _ _ _ Et), (dict_get_default_Some _ _ _ _ Eh).
    unfold heat_index_step. cbn [truthy].
    rewrite (proj2 (Z.eqb_neq t 0) Nt), (proj2 (Z.eqb_neq h 0) Nh). cbn [negb andb].
    rewrite Ef. cbn [bind py_round2 of_num]. by rewrite Hr.
Qed.

(** Five degrees and 65 percent give 12.5. *)
Lemma heat_index_of_cold_record :
  exists data',
    add_derived_fields cold_record = Ret data' /\
    data' !! "heat_index" = Some (PFloat 12.5).
Proof.
  destruct (heat_index_of_integer_readings cold_record 5 65)
    as (data' & E & Hhi); try reflexivity; try lia.
  exists data'. split; [exact E | exact Hhi].
Defined.

(** ** Loader: preparing a record for the insert *)

Section PrepareFacts.
Context {W : Type} (P : platform W).

Lemma prepare_fold_lookup (fields : list string) (data : pydict) (k : string) :
  NoDup fields ->
  foldl
    (fun prepared_data field =>
       match prepared_data !! field with
       | Some v => <[field := parse_timestamp P v]> prepared_data
       | None => prepared_data
       end)
    data fields !! k =
  if decide (k ∈ fields) then parse_timestamp P <$> data !! k else data !! k.
Proof.
  intros Hnd. revert data. induction Hnd as [|f fields Hf Hnd IH]; intros data.
  - cbn [foldl]. destruct (decide (k ∈ [])) as [Hin|_]; [|reflexivity].
    by apply not_elem_of_nil in Hin.
  - cbn [foldl]. rewrite IH.
    assert (Hk : k <> f ->
              (match data !! f with
               | Some v => <[f := parse_timestamp P v]> data
               | None => data
               end) !! k = data !! k)
      by (intros Hne; destruct (data !! f); [by rewrite lookup_insert_ne | reflexivity]).
    destruct (decide (k ∈ fields)) as [Hin | Hnin],
             (decide (k ∈ f :: fields)) as [Hin' | Hnin'].
    + rewrite Hk; [reflexivity | by intros ->].
    + exfalso. apply Hnin'. by apply list_elem_of_further.
    + apply elem_of_cons in Hin' as [-> | ?]; [|contradiction].
      destruct (data !! f) eqn:E; [by rewrite lookup_insert_eq | by rewrite E].
    + apply Hk. intros ->. apply Hnin'. apply list_elem_of_here.
Qed.

Lemma parse_timestamp_accepted s :
  s <> "" -> fromisoformat_ok P (replace_Z s) = true ->
  parse_timestamp P (PStr s) = PDatetime (replace_Z s).
Proof.
  intros Hs Hok. unfold parse_timestamp.
  assert (truthy (PStr s) = true) as -> by (destruct s; [done | reflexivity]).
  by rewrite Hok.
Qed.

Lemma parse_timestamp_refused v :
  (forall s, v = PStr s -> s = "" \/ fromisoformat_ok P (replace_Z s) = false) ->
  parse_timestamp P v = PNone.
Proof.
  intros Hv. unfold parse_timestamp. destruct (truthy v) eqn:Ht; [|reflexivity].
  destruct v; try reflexivity.
  destruct (Hv s eq_refl) as [-> | ->]; [discriminate Ht | reflexivity].
Qed.

(** X10. [_prepare_data_for_insert] returns a dictionary with the keys
    of its argument. Each of data_timestamp, sunrise, sunset,
    extracted_at and processed_at that is present is replaced by the
    result of parsing it: when the value is a non-empty string that
    [fromisoformat] accepts once every "Z" in it has been replaced by
    "+00:00", the field becomes the [datetime] of that replaced text; in
    every other case (a null, a number, an empty string, a string that
    does not parse) it becomes null. Every other field is as it was. *)
Theorem prepare_data_for_insert_lookup (data : pydict) (k : string) :
  (In k timestamp_fields ->
   _prepare_data_for_insert P data !! k = parse_timestamp P <$> data !! k) /\
  (~ In k timestamp_fields -> _prepare_data_for_insert P data !! k = data !! k) /\
  (is_Some (_prepare_data_for_insert P data !! k) <-> is_Some (data !! k)) /\
  (forall s, In k timestamp_fields -> data !! k = Some (PStr s) ->
     s <> "" -> fromisoformat_ok P (replace_Z s) = true ->
     _prepare_data_for_insert P data !! k = Some (PDatetime (replace_Z s))) /\
  (forall v, In k timestamp_fields -> data !! k = Some v ->
     (forall s, v = PStr s -> s = "" \/ fromisoformat_ok P (replace_Z s) = false) ->
     _prepare_data_for_insert P data !! k = Some PNone).
Proof.
  assert (Hnd : NoDup timestamp_fields).
  { apply NoDup_ListNoDup. repeat constructor; simpl; intuition discriminate. }
  pose proof (prepare_fold_lookup timestamp_fields data k Hnd) as Hl.
  fold (_prepare_data_for_insert P data) in Hl.
  assert (H1 : In k timestamp_fields ->
            _prepare_data_for_insert P data !! k = parse_timestamp P <$> data !! k).
  { intros Hin. apply list_elem_of_In in Hin. by rewrite decide_True in Hl. }
  assert (H2 : ~ In k timestamp_fields ->
            _prepare_data_for_insert P data !! k = data !! k).
  { intros Hin. rewrite <- list_elem_of_In in Hin. by rewrite decide_False in Hl. }
  split; [exact H1|]. split; [exact H2|]. split; [|split].
  - destruct (decide (k ∈ timestamp_fields)) as [Hin | Hin]; rewrite Hl.
    + apply fmap_is_Some.
    + reflexivity.
  - intros s Hin Hv Hs Hok. rewrite (H1 Hin), Hv. simpl.
    by rewrite parse_timestamp_accepted.
  - intros v Hin Hv Hno. rewrite (H1 Hin), Hv. simpl.
    by rewrite parse_timestamp_refused.
Qed.
End PrepareFacts.

Lemma sample_final_timestamps :
  sample_final !! "data_timestamp" = Some (PStr "2022-01-01T00:00:00") /\
  sample_final !! "city_name" = Some (PStr "Sao Paulo").
Proof. split; vm_compute; reflexivity. Qed.

(** The enriched sample observation, prepared: its observation time
    has become a [datetime], its name is as it was. *)
Lemma prepare_sample_final :
  _prepare_data_for_insert (sim_platform utc_host) sample_final !! "data_timestamp"
    = Some (PDatetime "2022-01-01T00:00:00") /\
  _prepare_data_for_insert (sim_platform utc_host) sample_final !! "city_name"
    = Some (PStr "Sao Paulo").
Proof.
  destruct sample_final_timestamps as [Hts Hname]. split.
  - destruct (prepare_data_for_insert_lookup (sim_platform utc_host) sample_final
                "data_timestamp") as (_ & _ & _ & Hparsed & _).
    apply (Hparsed "2022-01-01T00:00:00"); [simpl; auto | exact Hts | discriminate
                                           | reflexivity].
  - destruct (prepare_data_for_insert_lookup (sim_platform utc_host) sample_final
                "city_name") as (_ & Hother & _).
    rewrite Hother; [exact Hname|]. clear. simpl. intuition discriminate.
Defined.

(** ** Loader: the timestamps the pipeline writes *)

Lemma length_append (a b : string) :
  String.length (a +:+ b) = (String.length a + String.length b)%nat.
Proof. induction a as [|c a IH]; simpl; [reflexivity | by rewrite IH]. Qed.

Lemma no_Z_append (a b : string) : no_Z (a +:+ b) = no_Z a && no_Z b.
Proof. induction a as [|c a IH]; simpl; [reflexivity | by rewrite IH, andb_assoc]. Qed.

Lemma replace_Z_no_Z s : no_Z s = true -> replace_Z s = s.
Proof.
  induction s as [|c s IH]; simpl; [reflexivity|].
  destruct (Ascii.eqb c "Z"); simpl; [discriminate|]. intros Hs. by rewrite IH.
Qed.

Lemma no_Z_replace_Z s : no_Z (replace_Z s) = true.
Proof.
  induction s as [|c s IH]; simpl; [reflexivity|].
  destruct (Ascii.eqb c "Z") eqn:E; simpl; [exact IH | by rewrite E].
Qed.

Lemma replace_Z_append (a b : string) :
  replace_Z (a +:+ b) = replace_Z a +:+ replace_Z b.
Proof.
  induction a as [|c a IH]; simpl; [reflexivity|].
  destruct (Ascii.eqb c "Z"); simpl; by rewrite IH.
Qed.

Lemma digit_not_Z n : Ascii.eqb (digit n) "Z" = false.
Proof.
  unfold digit.
  assert (Hall : forallb (fun k => negb (Ascii.eqb (ascii_of_nat (48 + k)) "Z"))
                   (seq 0 10) = true) by reflexivity.
  rewrite forallb_forall in Hall.
  specialize (Hall (Z.to_nat (n mod 10))).
  apply negb_true_iff, Hall, in_seq.
  pose proof (Z.mod_pos_bound n 10 ltac:(lia)). lia.
Qed.

Lemma zero_pad_facts width n acc :
  no_Z (zero_pad width n acc) = no_Z acc /\
  String.length (zero_pad width n acc) = (width + String.length acc)%nat.
Proof.
  revert n acc. induction width as [|w IH]; intros n acc; cbn [zero_pad]; [done|].
  destruct (IH (n / 10) (String (digit n) acc)) as [-> ->].
  cbn [no_Z String.length]. rewrite digit_not_Z. split; [reflexivity | lia].
Qed.

Lemma isoformat_facts secs us :
  no_Z (isoformat secs us) = true /\
  String.length (isoformat secs us) = if us =? 0 then 19%nat else 26%nat.
Proof.
  unfold isoformat. destruct (civil_of_days (secs / 86400)) as [[y m] d].
  split.
  - rewrite !no_Z_append.
    rewrite !(proj1 (zero_pad_facts _ _ _)).
    destruct (us =? 0); [reflexivity|].
    rewrite no_Z_append, (proj1 (zero_pad_facts _ _ _)). reflexivity.
  - rewrite !length_append.
    rewrite !(proj2 (zero_pad_facts _ _ _)).
    destruct (us =? 0); [reflexivity|].
    rewrite length_append, (proj2 (zero_pad_facts _ _ _)). reflexivity.
Qed.

Lemma fromtimestamp_iso_isoformat H v iso :
  fromtimestamp_iso H v = Ret iso -> exists secs us, iso = isoformat secs us.
Proof.
  unfold fromtimestamp_iso.
  destruct (timeval_of v) as [[t us]|]; cbn [bind]; [|discriminate].
  destruct (negb _); [discriminate|].
  destruct (_ && _); [|discriminate].
  intros [= <-]. eauto.
Qed.

Lemma nonempty_truthy s : (0 < String.length s)%nat -> truthy (PStr s) = true.
Proof. destruct s; simpl; [lia | reflexivity]. Qed.

Section TimestampFacts.
Context {W : Type} (P : platform W).

Lemma parse_timestamp_no_Z s :
  (0 < String.length s)%nat -> no_Z s = true ->
  parse_timestamp P (PStr s) = if fromisoformat_ok P s then PDatetime s else PNone.
Proof.
  intros Hlen Hz. unfold parse_timestamp.
  by rewrite (nonempty_truthy s Hlen), (replace_Z_no_Z s Hz).
Qed.

(** X11. The loader hands to [fromisoformat] exactly the timestamps the
    pipeline wrote: the renderings by [datetime.fromtimestamp(...).isoformat()]
    (19 characters, or 26 with microseconds) and the UTC clock readings
    with their "+00:00" suffix hold no "Z", so the replacement leaves them
    as they are. A timestamp that ends in "Z" reaches [fromisoformat] with
    "+00:00" in its place. *)
Theorem parse_timestamp_of_pipeline_timestamps :
  (forall H v iso,
      fromtimestamp_iso H v = Ret iso ->
      (String.length iso = 19%nat \/ String.length iso = 26%nat) /\
      parse_timestamp P (PStr iso) =
        if fromisoformat_ok P iso then PDatetime iso else PNone) /\
  (forall micros,
      parse_timestamp P (PStr (isoformat_utc micros)) =
        if fromisoformat_ok P (isoformat_utc micros)
        then PDatetime (isoformat_utc micros) else PNone) /\
  (forall s,
      no_Z s = true ->
      parse_timestamp P (PStr (s +:+ "Z")) =
        if fromisoformat_ok P (s +:+ "+00:00")
        then PDatetime (s +:+ "+00:00") else PNone).
Proof.
  split; [|split].
  - intros H v iso Hiso.
    apply fromtimestamp_iso_isoformat in Hiso as (secs & us & ->).
    destruct (isoformat_facts secs us) as [Hz Hlen]. split.
    + rewrite Hlen. destruct (us =? 0); auto.
    + apply parse_timestamp_no_Z; [|exact Hz].
      rewrite Hlen. destruct (us =? 0); lia.
  - intros micros. apply parse_timestamp_no_Z.
    + unfold isoformat_utc. rewrite length_append. simpl. lia.
    + unfold isoformat_utc. rewrite no_Z_append.
      by rewrite (proj1 (isoformat_facts _ _)).
  - intros s Hz. unfold parse_timestamp.
    rewrite nonempty_truthy by (rewrite length_append; simpl; lia).
    rewrite replace_Z_append, (replace_Z_no_Z s Hz). reflexivity.
Qed.

(** ** Loader: a batch *)

Lemma load_results_length connection data_list w :
  length (load_results P connection data_list w) = length data_list.
Proof.
  revert w. induction data_list as [|data rest IH]; intros w; simpl; [reflexivity|].
  destruct (load_weather_data P connection data w) as [r w1]. simpl. by rewrite IH.
Qed.

Lemma load_loop_raises connection data_list n w :
  forallb returned (load_results P connection data_list w) = false ->
  exists e, (load_loop P connection data_list n w).1 = Raise e.
Proof.
  revert n w. induction data_list as [|data rest IH]; intros n w; simpl; [discriminate|].
  destruct (load_weather_data P connection data w) as [[ok|e] w1]; simpl; eauto.
Qed.

(** X12. [load_multiple_records] returns a count exactly when no insert
    of the batch raises; the count is then the number of records whose
    insert returned true, between zero and the size of the batch. When
    an insert raises, the batch raises and returns no count. *)
Theorem load_multiple_records_count (connection : bool) (data_list : list pydict)
    (w : W) :
  (forallb returned (load_results P connection data_list w) = true ->
   exists n,
     (load_multiple_records P connection data_list w).1 = Ret n /\
     n = Z.of_nat (length (List.filter inserted
                             (load_results P connection data_list w))) /\
     0 <= n <= Z.of_nat (length data_list)) /\
  (forallb returned (load_results P connection data_list w) = false ->
   exists e, (load_multiple_records P connection data_list w).1 = Raise e).
Proof.
  split; [|apply load_loop_raises].
  intros Hall. eexists. split; [|split; [reflexivity|]].
  - unfold load_multiple_records. rewrite load_loop_counts; [reflexivity|].
    rewrite forallb_forall in Hall. apply List.Forall_forall.
    intros r Hr. specialize (Hall r Hr). destruct r; [eauto | discriminate].
  - pose proof (List.filter_length_le inserted (load_results P connection data_list w)).
    rewrite load_results_length in *. lia.
Qed.
End TimestampFacts.

Lemma load_sample_batch :
  let results :=
    load_results (sim_platform utc_host) true [sample_final; cold_record]
      (sim_start one_city_web true) in
  forallb returned results = true /\ length (List.filter inserted results) = 1%nat.
Proof. split; vm_compute; reflexivity. Qed.

(** A batch of the enriched sample observation and of a record that
    lacks most columns: one record is loaded. *)
Lemma load_batch_of_two :
  (load_multiple_records (sim_platform utc_host) true [sample_final; cold_record]
     (sim_start one_city_web true)).1 = Ret 1.
Proof.
  destruct load_sample_batch as [Hall Hone].
  destruct (load_multiple_records_count (sim_platform utc_host) true
              [sample_final; cold_record] (sim_start one_city_web true))
    as [Hcount _].
  destruct (Hcount Hall) as (n & -> & -> & _).
  cbv zeta in Hone. rewrite Hone. reflexivity.
Defined.

(** ** Orchestrator: the counters over a whole run *)

Section RunFacts.
Context {W : Type} (P : platform W).






(** X14. When [run_full_etl] finds no connection and [setup_database]
    connects but fails to create the tables, the run ends with the bare
    failure report, and the loader keeps the connection it opened. The
    next run therefore finds a connection, does not call
    [setup_database] again and goes straight to the loop over the cities,
    although the tables were never created. *)
Theorem failed_schema_setup_keeps_connection (p : pipeline) (w : W) :
  connection p = false ->
  (connect P (now_utc P w).2).1 = Ret true ->
  (create_tables P (connect P (now_utc P w).2).2).1 <> Ret true ->
  let '(r, p', _) := run_full_etl P p w in
  success r = false /\ city_results r = None /\
  connection p' = true /\
  forall w',
    store_ready P p' w' = true /\
    run_full_etl P p' w' =
      run_cities P (now_utc P w').1 (start_run p' (now_utc P w').1) (now_utc P w').2.
Proof.
  intros Hconn Hconnect Hcreate. unfold run_full_etl.
  destruct (now_utc P w) as [start w1]. cbn [snd] in *.
  change (connection (start_run p start)) with (connection p).
  rewrite Hconn. cbn [negb].
  unfold setup_database.
  destruct (connect P w1) as [rc w2]. cbn [fst snd] in *. subst rc.
  destruct (create_tables P w2) as [[[]|e] w3]; cbn [fst] in Hcreate; try congruence;
    cbn [negb]; unfold _generate_report; destruct (now_utc P w3) as [finish w4]; cbn;
    (split; [reflexivity|]); (split; [reflexivity|]); (split; [reflexivity|]);
    intros w'; (split; [reflexivity|]); unfold run_full_etl;
    destruct (now_utc P w') as [start' w1']; reflexivity.
Qed.
(** ** Orchestrator: when a city succeeds *)

Lemma transform_step_transform raw w :
  transform_step P raw w =
    match transform_entries (platform_host P) raw with
    | Ret (Some _) =>
        (transform_weather_data (platform_host P) (isoformat_utc (now_utc P w).1) raw,
         (now_utc P w).2)
    | _ => (None, w)
    end.
Proof.
  unfold transform_step, transform_weather_data.
  destruct (transform_entries (platform_host P) raw) as [[entries|]|]; try reflexivity.
  destruct (now_utc P w) as [now w1]. cbn [fst snd].
  by destruct (transform_finish raw (isoformat_utc now) entries).
Qed.

Lemma transform_step_Some raw w rec w' :
  transform_step P raw w = (Some rec, w') <->
  transform_weather_data (platform_host P) (isoformat_utc (now_utc P w).1) raw = Some rec /\
  w' = (now_utc P w).2.
Proof.
  rewrite transform_step_transform. unfold transform_weather_data.
  destruct (transform_entries (platform_host P) raw) as [[entries|]|].
  - split; [by intros [= -> <-] | by intros [-> ->]].
  - split; [discriminate | by intros [? _]].
  - split; [discriminate | by intros [? _]].
Qed.

(** X17. [run_etl_for_city] returns true exactly when the three stages
    go through: the extractor returns a payload; the payload is one the
    transformer accepts, the record being the one it builds at the clock
    reading that follows the extraction; enrichment runs to its end; the
    loader holds a connection and the insert of the enriched record
    returns true. *)
Theorem run_etl_for_city_succeeds_exactly (city : string) (p : pipeline) (w : W) :
  (run_etl_for_city P city p w).1.1 = true <->
  exists raw w1 rec final,
    extract_weather_data P city "BR" w = (Some raw, w1) /\
    acceptable (platform_host P) raw /\
    transform_weather_data (platform_host P) (isoformat_utc (now_utc P w1).1) raw
      = Some rec /\
    add_derived_fields_run rec = Enriched final /\
    connection p = true /\
    (load_weather_data P true final (now_utc P w1).2).1 = Ret true.
Proof.
  unfold run_etl_for_city.
  destruct (extract_weather_data P city "BR" w) as [[raw|] w1] eqn:E.
  - rewrite (extract_weather_data_nonempty _ _ _ _ _ _ E). cbn [negb].
    destruct (transform_step P raw w1) as [[rec|] w2] eqn:Et.
    + destruct (transform_step_valid _ _ _ _ _ Et) as [_ Hv].
      apply transform_step_Some in Et as [Ht ->].
      rewrite (valid_record_nonempty _ Hv). cbn [negb].
      destruct (valid_record_enriched rec Hv) as [final Hf].
      unfold add_derived_fields. rewrite Hf. cbn [with_stats connection].
      destruct (connection p) eqn:Hconn.
      * destruct (load_weather_data P true final (now_utc P w1).2) as [[[]|e] w3] eqn:El;
          cbn [fst]; split; try discriminate.
        -- intros _. exists raw, w1, rec, final. rewrite El.
           eauto 10 using transform_acceptable.
        -- reflexivity.
        -- intros (raw' & w1' & rec' & final' & [= <- <-] & _ & Ht' & Hf' & _ & Hl).
           rewrite Ht in Ht'. injection Ht' as <-. rewrite Hf in Hf'.
           injection Hf' as <-. by rewrite El in Hl.
        -- intros (raw' & w1' & rec' & final' & [= <- <-] & _ & Ht' & Hf' & _ & Hl).
           rewrite Ht in Ht'. injection Ht' as <-. rewrite Hf in Hf'.
           injection Hf' as <-. by rewrite El in Hl.
      * pose proof (load_weather_data_raises P false final (now_utc P w1).2
                      (or_introl eq_refl)) as Hr.
        destruct (load_weather_data P false final (now_utc P w1).2) as [r w3].
        cbn [fst] in Hr. subst r. cbn [fst]. split; [discriminate|].
        intros (_ & _ & _ & _ & _ & _ & _ & _ & ? & _). discriminate.
    + cbn [fst]. split; [discriminate|].
      intros (raw' & w1' & rec' & final' & [= <- <-] & _ & Ht' & _).
      assert (Hs : transform_step P raw w1 = (Some rec', (now_utc P w1).2))
        by (by apply transform_step_Some).
      congruence.
  - cbn [fst]. split; [discriminate|].
    intros (raw' & w1' & rec' & final' & [=] & _).
Qed.
End RunFacts.

(** On a store that refuses the schema the first run fails and leaves
    the connection open. *)
Lemma failed_schema_setup_on_schemaless_store :
  let '(r, p', _) :=
    run_full_etl (schemaless_platform utc_host) (new_pipeline ["Sao Paulo"])
      (sim_start one_city_web true) in
  success r = false /\ city_results r = None /\ connection p' = true.
Proof.
  pose proof (failed_schema_setup_keeps_connection (schemaless_platform utc_host)
                (new_pipeline ["Sao Paulo"]) (sim_start one_city_web true)
                eq_refl eq_refl ltac:(vm_compute; discriminate)) as H.
  destruct (run_full_etl _ _ _) as [[r p'] w'].
  destruct H as (H1 & H2 & H3 & _). auto.
Defined.


Lemma run_known_city_succeeds :
  (run_etl_for_city (sim_platform utc_host) "Sao Paulo"
     {| cities := ["Sao Paulo"]; pstats := initial_stats; connection := true |}
     (sim_start one_city_web true)).1.1 = true.
Proof. vm_compute. reflexivity. Qed.

(** The known city goes through on the simulated platform: its payload
    is one the transformer accepts. *)
Lemma known_city_payload_is_acceptable :
  exists raw w1,
    extract_weather_data (sim_platform utc_host) "Sao Paulo" "BR"
      (sim_start one_city_web true) = (Some raw, w1) /\
    acceptable utc_host raw.
Proof.
  destruct (proj1 (run_etl_for_city_succeeds_exactly (sim_platform utc_host) "Sao Paulo"
                     {| cities := ["Sao Paulo"]; pstats := initial_stats;
                        connection := true |}
                     (sim_start one_city_web true)) run_known_city_succeeds)
    as (raw & w1 & rec & final & He & Ha & _).
  exists raw, w1. split; [exact He | exact Ha].
Defined.

(** ** Orchestrator: the outcome map *)

Section OutcomeFacts.
Context {W : Type} (P : platform W).

(** X18. When the loader already holds a connection, the report of
    [run_full_etl] counts runs and maps cities: successful_cities is the
    number of calls of [run_etl_for_city] that returned true, one call per
    element of the city list, while the outcome map holds for each city
    the result of the last call made for it. A city listed twice is
    counted twice and mapped once. *)
Theorem run_full_etl_outcomes (p : pipeline) (w : W) :
  connection p = true ->
  let runs :=
    city_runs P (cities p) (start_run p (now_utc P w).1) (now_utc P w).2 in
  let '(r, _, _) := run_full_etl P p w in
  runs.*1 = cities p /\
  successful_cities r = Some (Z.of_nat (length (List.filter snd runs))) /\
  exists results,
    city_results r = Some results /\
    forall c, cr_success <$> results !! c = last_outcome c runs.
Proof.
  intros Hconn. cbv zeta. unfold run_full_etl.
  destruct (now_utc P w) as [start w1]. cbn [fst snd].
  change (connection (start_run p start)) with (connection p). rewrite Hconn.
  cbn [negb]. unfold run_cities.
  change (cities (start_run p start)) with (cities p).
  pose proof (fun c => city_loop_outcomes P (cities p) ∅ 0 (start_run p start) w1 c)
    as Hloop.
  pose proof (city_runs_cities P (cities p) (start_run p start) w1) as Hruns.
  destruct (city_loop P (cities p) ∅ 0 (start_run p start) w1)
    as [[[results n] p1] w2].
  destruct (if 0 <? n then _ else _) as [p2 w3].
  unfold _generate_report. destruct (now_utc P w3) as [finish w4]. cbn.
  split; [exact Hruns|]. split.
  - f_equal. by destruct (Hloop "") as [_ ->].
  - exists results. split; [reflexivity|].
    intros c. destruct (Hloop c) as [-> _]. rewrite lookup_empty.
    by destruct (last_outcome c _).
Qed.
End OutcomeFacts.

Lemma repeated_city_runs :
  let p := {| cities := ["Sao Paulo"; "Sao Paulo"]; pstats := initial_stats;
              connection := true |} in
  let w := sim_start one_city_web true in
  List.filter snd
    (city_runs (sim_platform utc_host) (cities p)
       (start_run p (now_utc (sim_platform utc_host) w).1)
       (now_utc (sim_platform utc_host) w).2)
  = [("Sao Paulo", true); ("Sao Paulo", true)].
Proof. vm_compute. reflexivity. Qed.

(** A city listed twice and loaded twice counts for two. *)
Lemma run_repeated_city_outcomes :
  let '(r, _, _) :=
    run_full_etl (sim_platform utc_host)
      {| cities := ["Sao Paulo"; "Sao Paulo"]; pstats := initial_stats;
         connection := true |}
      (sim_start one_city_web true) in
  successful_cities r = Some 2.
Proof.
  pose proof (run_full_etl_outcomes (sim_platform utc_host)
                {| cities := ["Sao Paulo"; "Sao Paulo"]; pstats := initial_stats;
                   connection := true |}
                (sim_start one_city_web true) eq_refl) as H.
  cbv zeta in H. rewrite repeated_city_runs in H.
  destruct (run_full_etl _ _ _) as [[r p'] w'].
  destruct H as (_ & H & _). exact H.
Defined.

(** ** Configuration: the city list *)

Lemma split_on_nonempty sep s : split_on sep s <> [].
Proof.
  destruct s as [|c rest]; simpl; [discriminate|].
  destruct (c =? sep)%N; [discriminate|].
  destruct (split_on sep rest); discriminate.
Qed.

Lemma join_with_cons sep piece rest :
  rest <> [] -> join_with sep (piece :: rest) = piece ++ sep :: join_with sep rest.
Proof. destruct rest; [done | reflexivity]. Qed.

Lemma split_on_join sep s : join_with sep (split_on sep s) = s.
Proof.
  induction s as [|c rest IH]; [reflexivity|].
  cbn [split_on]. pose proof (split_on_nonempty sep rest) as Hne.
  destruct (N.eqb_spec c sep) as [-> | Hc].
  - rewrite join_with_cons by exact Hne. by rewrite IH.
  - destruct (split_on sep rest) as [|piece pieces]; [done|].
    destruct pieces as [|piece' pieces'].
    + cbn [join_with] in *. by rewrite IH.
    + rewrite join_with_cons in IH |- * by done. rewrite <- IH. reflexivity.
Qed.

Lemma split_on_length sep s :
  length (split_on sep s) = S (length (List.filter (N.eqb sep) s)).
Proof.
  induction s as [|c rest IH]; [reflexivity|].
  cbn [split_on List.filter]. pose proof (split_on_nonempty sep rest) as Hne.
  rewrite (N.eqb_sym sep c).
  destruct (c =? sep)%N.
  - cbn [length]. by rewrite IH.
  - destruct (split_on sep rest) as [|piece pieces]; [done|].
    cbn [length] in *. exact IH.
Qed.

Lemma split_on_pieces sep s :
  Forall (fun piece => Forall (fun c => c <> sep) piece) (split_on sep s).
Proof.
  induction s as [|c rest IH]; [repeat constructor|].
  cbn [split_on]. destruct (N.eqb_spec c sep) as [-> | Hc].
  - constructor; [constructor | exact IH].
  - destruct (split_on sep rest) as [|piece pieces]; [repeat constructor; done|].
    apply Forall_cons in IH as [Hp Hps]. constructor; [|exact Hps].
    by constructor.
Qed.

(** X15. The city list [run_scheduled_etl] builds from the CITIES
    variable is never empty: it has one city more than the value has
    commas, so an empty value gives one city with an empty name and a
    trailing comma gives an empty name at the end. Joining the pieces
    [get_config] returns with commas gives the value back. No city holds a
    comma, none begins or ends with whitespace. When the variable is not
    set the cities are São Paulo, Rio de Janeiro and Belo Horizonte. *)
Theorem scheduled_cities_spec (X : case_tables) (env : option text) :
  let value := default default_cities env in
  let cs := scheduled_cities X env in
  cs <> [] /\
  length cs = S (length (List.filter (N.eqb comma) value)) /\
  join_with comma (get_config_cities env) = value /\
  Forall (fun city => Forall (fun c => c <> comma) city) cs /\
  Forall (no_outer_space X) cs /\
  (env = None -> cs = [sao_paulo; rio_de_janeiro; belo_horizonte]) /\
  (env = Some [] -> cs = [[]]).
Proof.
  cbv zeta. unfold scheduled_cities, get_config_cities.
  set (value := default default_cities env).
  split; [|split; [|split; [|split; [|split; [|split]]]]].
  - pose proof (split_on_nonempty comma value).
    destruct (split_on comma value); [done | discriminate].
  - by rewrite length_map, split_on_length.
  - apply split_on_join.
  - apply List.Forall_map. eapply List.Forall_impl; [|apply split_on_pieces].
    intros piece Hp. by apply strip_Forall.
  - apply List.Forall_map. apply List.Forall_forall. intros piece _.
    apply strip_no_outer_space.
  - intros ->. reflexivity.
  - intros ->. reflexivity.
Qed.

(** ** City names: what normalisation ignores *)

Section NormalizeFacts.
Context (X : case_tables).

Lemma lstrip_spaces ws s :
  Forall (fun c => py_isspace X c = true) ws -> lstrip X (ws ++ s) = lstrip X s.
Proof. induction 1 as [|c ws Hc Hws IH]; simpl; [reflexivity | by rewrite Hc]. Qed.

Lemma rstrip_all_spaces ws :
  Forall (fun c => py_isspace X c = true) ws -> rstrip X ws = [].
Proof. induction 1 as [|c ws Hc Hws IH]; simpl; [reflexivity | by rewrite IH, Hc]. Qed.

Lemma rstrip_spaces s ws :
  Forall (fun c => py_isspace X c = true) ws -> rstrip X (s ++ ws) = rstrip X s.
Proof.
  intros Hws. induction s as [|c s IH]; simpl; [by apply rstrip_all_spaces|].
  by rewrite IH.
Qed.

Lemma rstrip_lstrip_spaces s ws :
  Forall (fun c => py_isspace X c = true) ws ->
  rstrip X (lstrip X (s ++ ws)) = rstrip X (lstrip X s).
Proof.
  intros Hws. induction s as [|c s IH]; simpl.
  - pose proof (lstrip_spaces ws [] Hws) as Hl. rewrite app_nil_r in Hl.
    by rewrite Hl.
  - destruct (py_isspace X c); [exact IH|].
    change (c :: s ++ ws) with ((c :: s) ++ ws). by apply rstrip_spaces.
Qed.

Lemma strip_spaces ws1 s ws2 :
  Forall (fun c => py_isspace X c = true) ws1 ->
  Forall (fun c => py_isspace X c = true) ws2 ->
  py_strip X (ws1 ++ s ++ ws2) = py_strip X s.
Proof.
  intros H1 H2. unfold py_strip. rewrite (lstrip_spaces ws1 _ H1).
  by apply rstrip_lstrip_spaces.
Qed.

Lemma lstrip_map (f : N -> N) s :
  (forall c, In c s -> py_isspace X (f c) = py_isspace X c) ->
  lstrip X (map f s) = map f (lstrip X s).
Proof.
  induction s as [|c s IH]; intros Hf; simpl; [reflexivity|].
  rewrite (Hf c) by (by left). destruct (py_isspace X c); [|reflexivity].
  apply IH. intros d Hd. apply Hf. by right.
Qed.

Lemma rstrip_map (f : N -> N) s :
  (forall c, In c s -> py_isspace X (f c) = py_isspace X c) ->
  rstrip X (map f s) = map f (rstrip X s).
Proof.
  induction s as [|c s IH]; intros Hf; simpl; [reflexivity|].
  rewrite IH by (intros d Hd; apply Hf; by right).
  rewrite (Hf c) by (by left).
  destruct (rstrip X s); simpl; [by destruct (py_isspace X c) | reflexivity].
Qed.

Lemma lstrip_incl s c : In c (lstrip X s) -> In c s.
Proof.
  induction s as [|a s IH]; simpl; [tauto|].
  destruct (py_isspace X a); simpl; tauto.
Qed.

Lemma normalize_city_name_unfold s :
  normalize_city_name X s =
    default (py_title X (py_strip X s)) (replacements !! py_title X (py_strip X s)).
Proof. destruct s; [vm_compute | ]; reflexivity. Qed.

Lemma ascii_case_table :
  forallb (fun k =>
      let c := N.of_nat k in
      is_ascii (ascii_lower c) && is_ascii (ascii_upper c)
      && Bool.eqb (ascii_isspace (ascii_lower c)) (ascii_isspace c)
      && Bool.eqb (ascii_isspace (ascii_upper c)) (ascii_isspace c)
      && (ascii_upper (ascii_lower c) =? ascii_upper c)%N
      && (ascii_lower (ascii_upper c) =? ascii_lower c)%N
      && Bool.eqb (ascii_isupper (ascii_lower c) || ascii_islower (ascii_lower c))
           (ascii_isupper c || ascii_islower c)
      && Bool.eqb (ascii_isupper (ascii_upper c) || ascii_islower (ascii_upper c))
           (ascii_isupper c || ascii_islower c)
      && (ascii_lower (ascii_lower c) =? ascii_lower c)%N
      && (ascii_upper (ascii_upper c) =? ascii_upper c)%N)
    (seq 0 128) = true.
Proof. vm_compute. reflexivity. Qed.

Lemma ascii_case_facts c :
  is_ascii c = true ->
  is_ascii (ascii_lower c) = true /\ is_ascii (ascii_upper c) = true /\
  ascii_isspace (ascii_lower c) = ascii_isspace c /\
  ascii_isspace (ascii_upper c) = ascii_isspace c /\
  ascii_upper (ascii_lower c) = ascii_upper c /\
  ascii_lower (ascii_upper c) = ascii_lower c /\
  ascii_isupper (ascii_lower c) || ascii_islower (ascii_lower c)
    = ascii_isupper c || ascii_islower c /\
  ascii_isupper (ascii_upper c) || ascii_islower (ascii_upper c)
    = ascii_isupper c || ascii_islower c /\
  ascii_lower (ascii_lower c) = ascii_lower c /\
  ascii_upper (ascii_upper c) = ascii_upper c.
Proof.
  intros Ha. apply N.ltb_lt in Ha.
  pose proof ascii_case_table as Hall. rewrite forallb_forall in Hall.
  specialize (Hall (N.to_nat c) ltac:(apply in_seq; lia)).
  cbv zeta in Hall. rewrite N2Nat.id in Hall.
  repeat (apply andb_prop in Hall as [Hall ?]).
  repeat match goal with
         | H : Bool.eqb _ _ = true |- _ => apply Bool.eqb_prop in H
         | H : (_ =? _)%N = true |- _ => apply N.eqb_eq in H
         end.
  auto 12.
Qed.

Lemma ascii_title_map_case p s :
  Forall (fun c => is_ascii c = true) s ->
  ascii_title p (map ascii_lower s) = ascii_title p s /\
  ascii_title p (map ascii_upper s) = ascii_title p s.
Proof.
  intros Hs. revert p. induction Hs as [|c s Hc Hs IH]; intros p; [done|].
  cbn [map ascii_title].
  destruct (ascii_case_facts c Hc) as (_ & _ & _ & _ & H1 & H2 & H3 & H4 & H5 & H6).
  rewrite H3, H4, (proj1 (IH _)), (proj2 (IH _)).
  destruct p; rewrite ?H1, ?H2, ?H5, ?H6; auto.
Qed.

Lemma title_strip_map_case (f : N -> N) s :
  (f = ascii_lower \/ f = ascii_upper) ->
  Forall (fun c => is_ascii c = true) s ->
  py_title X (py_strip X (map f s)) = py_title X (py_strip X s).
Proof.
  intros Hf Hs.
  assert (Hspace : forall c, In c s -> py_isspace X (f c) = py_isspace X c).
  { intros c Hc. rewrite List.Forall_forall in Hs. specialize (Hs c Hc).
    destruct (ascii_case_facts c Hs) as (A1 & A2 & S1 & S2 & _).
    unfold py_isspace. destruct Hf as [-> | ->]; rewrite Hs.
    - by rewrite A1.
    - by rewrite A2. }
  unfold py_strip. rewrite (lstrip_map f s Hspace).
  rewrite rstrip_map by (intros c Hc; apply Hspace; by apply lstrip_incl).
  assert (Hst : Forall (fun c => is_ascii c = true) (rstrip X (lstrip X s)))
    by (by apply rstrip_Forall, lstrip_Forall).
  assert (Hmap : Forall (fun c => is_ascii c = true) (map f (rstrip X (lstrip X s)))).
  { apply List.Forall_map. eapply List.Forall_impl; [|exact Hst].
    intros c Hc. destruct (ascii_case_facts c Hc) as (A1 & A2 & _).
    by destruct Hf as [-> | ->]. }
  unfold py_title. rewrite (title_from_ascii X _ _ _ Hmap), (title_from_ascii X _ _ _ Hst).
  destruct Hf as [-> | ->]; by apply ascii_title_map_case.
Qed.

(** X16. [normalize_city_name] ignores whitespace around the name, for
    every string, and the case of the letters of an ASCII name: the name
    in lower case, in upper case and as given all normalise to the same
    text. *)
Theorem normalize_city_name_insensitive :
  (forall ws1 s ws2,
      Forall (fun c => py_isspace X c = true) ws1 ->
      Forall (fun c => py_isspace X c = true) ws2 ->
      normalize_city_name X (ws1 ++ s ++ ws2) = normalize_city_name X s) /\
  (forall s,
      Forall (fun c => is_ascii c = true) s ->
      normalize_city_name X (map ascii_lower s) = normalize_city_name X s /\
      normalize_city_name X (map ascii_upper s) = normalize_city_name X s).
Proof.
  split.
  - intros ws1 s ws2 H1 H2.
    by rewrite !normalize_city_name_unfold, (strip_spaces ws1 s ws2 H1 H2).
  - intros s Hs. rewrite !normalize_city_name_unfold.
    rewrite (title_strip_map_case ascii_lower s), (title_strip_map_case ascii_upper s);
      auto.
Qed.
End NormalizeFacts.

(** However it is typed, São Paulo's ASCII spelling is normalised to
    São Paulo. *)
Lemma normalize_sao_paulo_spellings :
  normalize_city_name latin1_tables (text_of "  sao paulo ") = sao_paulo /\
  normalize_city_name latin1_tables (text_of "SAO PAULO") = sao_paulo.
Proof.
  destruct (normalize_city_name_insensitive latin1_tables) as [Hws Hcase].
  assert (Hbase : normalize_city_name latin1_tables (text_of "Sao Paulo") = sao_paulo)
    by (vm_compute; reflexivity).
  split.
  - change (text_of "  sao paulo ")
      with (text_of "  " ++ map ascii_lower (text_of "Sao Paulo") ++ text_of " ").
    rewrite Hws by (repeat constructor).
    rewrite (proj1 (Hcase (text_of "Sao Paulo") ltac:(repeat constructor))).
    exact Hbase.
  - change (text_of "SAO PAULO") with (map ascii_upper (text_of "Sao Paulo")).
    rewrite (proj2 (Hcase (text_of "Sao Paulo") ltac:(repeat constructor))).
    exact Hbase.
Defined.

